(** * quiz-buzzer-server: the real-time session engine

    A shallow embedding of [services/game.service.js],
    [services/time.service.js] and of the WebSocket server
    (connection registry, router, broadcaster, jingle streamer), together
    with the properties of the specification that concern them.

    Conventions of the embedding.
    - JavaScript numbers that carry times, scores and identifiers are
      integers ([Z]); [Infinity] is the one non-integer the engine stores and
      is modelled by [None] in [Player.fastestResponseTime].
    - [Date.now()] reads an arbitrary clock: a stream of readings and a
      position in it.
    - An object that is mutated in place is threaded through a state monad;
      [throw] keeps whatever was written before the exception.
    - [Map]s keyed by buzzer or game identifier are [gmap]s, the exclusion
      [Set] is a [gset]; the connection registry keeps insertion order (it is
      iterated by the broadcaster) and is an association list. *)

From stdpp Require Import gmap strings list fin_maps sorting.
From Stdlib Require Import ZArith Lia Permutation Sorted.
From Stdlib.Strings Require Import Ascii Byte.

Open Scope Z_scope.

(** ** JavaScript values carried by messages *)

#[warnings="-register-all"]
Inductive Json : Type :=
| JUndefined
| JNull
| JBool (b : bool)
| JNum (n : Z)
| JStr (s : string)
| JArr (items : list Json)
| JObj (fields : list (string * Json)).

(** Truthiness of a number that may be absent: [undefined], [null] and [0]
    are falsy. *)
Definition truthy (v : option Z) : bool :=
  match v with
  | Some n => negb (n =? 0)
  | None => false
  end.

(** [x || d] on such a number. *)
Definition or_default (v : option Z) (d : Z) : Z :=
  match v with
  | Some n => if n =? 0 then d else n
  | None => d
  end.

(** ** State and exceptions *)

Inductive Outcome (A : Type) : Type :=
| Ok (a : A)
| Throw (e : string).
Arguments Ok {A} a.
Arguments Throw {A} e.

Definition M (S A : Type) : Type := S -> Outcome A * S.

Definition ret {S A} (a : A) : M S A := fun s => (Ok a, s).

Definition bind {S A B} (c : M S A) (k : A -> M S B) : M S B :=
  fun s =>
    match c s with
    | (Ok a, s') => k a s'
    | (Throw e, s') => (Throw e, s')
    end.

Definition throw {S A} (e : string) : M S A := fun s => (Throw e, s).

Definition gets {S A} (f : S -> A) : M S A := fun s => (Ok (f s), s).

Definition modify {S} (f : S -> S) : M S unit := fun s => (Ok tt, f s).

(** [try { c } catch (err) { h err }] *)
Definition try_catch {S A} (c : M S A) (h : string -> M S A) : M S A :=
  fun s =>
    match c s with
    | (Ok a, s') => (Ok a, s')
    | (Throw e, s') => h e s'
    end.

Notation "x <- c ;; k" := (bind c (fun x => k))
  (at level 100, c at next level, right associativity).
Notation "c ;;; k" := (bind c (fun _ => k))
  (at level 100, right associativity).

Definition when {S} (b : bool) (c : M S unit) : M S unit :=
  if b then c else ret tt.

(** ** Data model of the game service *)

Record Timestamps : Type := {
  timestamp_local_action : option Z;
  timestamp_synced_action : option Z;
  calibrated_latency : option Z
}.

Module Player.
Record t : Type := mk {
  buzzerID : string;
  name : string;
  score : Z;
  correctAnswers : Z;
  totalAnswers : Z;
  totalResponseTime : Z;
  fastestResponseTime : option Z;  (* [None] is [Infinity] *)
  slowestResponseTime : Z
}.
End Player.

Module Answer.
Record t : Type := mk {
  answer : Json;
  isCorrect : bool;
  points : Z;
  responseTime : Z;
  timestamp : Z
}.
End Answer.

Module Buzz.
Record t : Type := mk {
  buzzerID : string;
  responseTime : Z;
  timestamps : option Timestamps;
  receivedAt : Z;
  processed : bool
}.

(** [b.processed = true] *)
Definition mark (b : t) : t :=
  {| buzzerID := buzzerID b; responseTime := responseTime b;
     timestamps := timestamps b; receivedAt := receivedAt b;
     processed := true |}.
End Buzz.

Inductive Status : Type := created | started | ended.

Record Settings : Type := {
  mcqDuration : Z;
  buzzerDuration : Z;
  showCorrectAnswer : bool;
  showIntermediateRanking : bool
}.

(** The in-memory game object. Fields that [createGame] does not set are
    [undefined] until first written: [None] for the buzz list, the exclusion
    set and the times, [false] for the two flags. *)
Record Game : Type := {
  id : string;
  gameName : string;
  status : Status;
  settings : Settings;
  questionIds : list Z;
  currentQuestionIndex : Z;
  questionStartTime : option Z;
  players : gmap string Player.t;
  currentQuestionAnswers : gmap string Answer.t;
  currentQuestionBuzzes : option (list Buzz.t);
  currentQuestionExcluded : option (gset string);
  currentQuestionWinner : option string;
  buzzerLocked : bool;
  buzzEvaluationTimer : bool;
  startedAt : option Z;
  endedAt : option Z
}.

Definition set_status (v : Status) (g : Game) : Game :=
  {| id := id g; gameName := gameName g; status := v; settings := settings g;
     questionIds := questionIds g; currentQuestionIndex := currentQuestionIndex g;
     questionStartTime := questionStartTime g; players := players g;
     currentQuestionAnswers := currentQuestionAnswers g;
     currentQuestionBuzzes := currentQuestionBuzzes g;
     currentQuestionExcluded := currentQuestionExcluded g;
     currentQuestionWinner := currentQuestionWinner g;
     buzzerLocked := buzzerLocked g; buzzEvaluationTimer := buzzEvaluationTimer g;
     startedAt := startedAt g; endedAt := endedAt g |}.

Definition set_currentQuestionIndex (v : Z) (g : Game) : Game :=
  {| id := id g; gameName := gameName g; status := status g; settings := settings g;
     questionIds := questionIds g; currentQuestionIndex := v;
     questionStartTime := questionStartTime g; players := players g;
     currentQuestionAnswers := currentQuestionAnswers g;
     currentQuestionBuzzes := currentQuestionBuzzes g;
     currentQuestionExcluded := currentQuestionExcluded g;
     currentQuestionWinner := currentQuestionWinner g;
     buzzerLocked := buzzerLocked g; buzzEvaluationTimer := buzzEvaluationTimer g;
     startedAt := startedAt g; endedAt := endedAt g |}.

Definition set_questionStartTime (v : option Z) (g : Game) : Game :=
  {| id := id g; gameName := gameName g; status := status g; settings := settings g;
     questionIds := questionIds g; currentQuestionIndex := currentQuestionIndex g;
     questionStartTime := v; players := players g;
     currentQuestionAnswers := currentQuestionAnswers g;
     currentQuestionBuzzes := currentQuestionBuzzes g;
     currentQuestionExcluded := currentQuestionExcluded g;
     currentQuestionWinner := currentQuestionWinner g;
     buzzerLocked := buzzerLocked g; buzzEvaluationTimer := buzzEvaluationTimer g;
     startedAt := startedAt g; endedAt := endedAt g |}.

Definition set_players (v : gmap string Player.t) (g : Game) : Game :=
  {| id := id g; gameName := gameName g; status := status g; settings := settings g;
     questionIds := questionIds g; currentQuestionIndex := currentQuestionIndex g;
     questionStartTime := questionStartTime g; players := v;
     currentQuestionAnswers := currentQuestionAnswers g;
     currentQuestionBuzzes := currentQuestionBuzzes g;
     currentQuestionExcluded := currentQuestionExcluded g;
     currentQuestionWinner := currentQuestionWinner g;
     buzzerLocked := buzzerLocked g; buzzEvaluationTimer := buzzEvaluationTimer g;
     startedAt := startedAt g; endedAt := endedAt g |}.

Definition set_currentQuestionAnswers (v : gmap string Answer.t) (g : Game) : Game :=
  {| id := id g; gameName := gameName g; status := status g; settings := settings g;
     questionIds := questionIds g; currentQuestionIndex := currentQuestionIndex g;
     questionStartTime := questionStartTime g; players := players g;
     currentQuestionAnswers := v;
     currentQuestionBuzzes := currentQuestionBuzzes g;
     currentQuestionExcluded := currentQuestionExcluded g;
     currentQuestionWinner := currentQuestionWinner g;
     buzzerLocked := buzzerLocked g; buzzEvaluationTimer := buzzEvaluationTimer g;
     startedAt := startedAt g; endedAt := endedAt g |}.

Definition set_currentQuestionBuzzes (v : option (list Buzz.t)) (g : Game) : Game :=
  {| id := id g; gameName := gameName g; status := status g; settings := settings g;
     questionIds := questionIds g; currentQuestionIndex := currentQuestionIndex g;
     questionStartTime := questionStartTime g; players := players g;
     currentQuestionAnswers := currentQuestionAnswers g;
     currentQuestionBuzzes := v;
     currentQuestionExcluded := currentQuestionExcluded g;
     currentQuestionWinner := currentQuestionWinner g;
     buzzerLocked := buzzerLocked g; buzzEvaluationTimer := buzzEvaluationTimer g;
     startedAt := startedAt g; endedAt := endedAt g |}.

Definition set_currentQuestionExcluded (v : option (gset string)) (g : Game) : Game :=
  {| id := id g; gameName := gameName g; status := status g; settings := settings g;
     questionIds := questionIds g; currentQuestionIndex := currentQuestionIndex g;
     questionStartTime := questionStartTime g; players := players g;
     currentQuestionAnswers := currentQuestionAnswers g;
     currentQuestionBuzzes := currentQuestionBuzzes g;
     currentQuestionExcluded := v;
     currentQuestionWinner := currentQuestionWinner g;
     buzzerLocked := buzzerLocked g; buzzEvaluationTimer := buzzEvaluationTimer g;
     startedAt := startedAt g; endedAt := endedAt g |}.

Definition set_currentQuestionWinner (v : option string) (g : Game) : Game :=
  {| id := id g; gameName := gameName g; status := status g; settings := settings g;
     questionIds := questionIds g; currentQuestionIndex := currentQuestionIndex g;
     questionStartTime := questionStartTime g; players := players g;
     currentQuestionAnswers := currentQuestionAnswers g;
     currentQuestionBuzzes := currentQuestionBuzzes g;
     currentQuestionExcluded := currentQuestionExcluded g;
     currentQuestionWinner := v;
     buzzerLocked := buzzerLocked g; buzzEvaluationTimer := buzzEvaluationTimer g;
     startedAt := startedAt g; endedAt := endedAt g |}.

Definition set_buzzerLocked (v : bool) (g : Game) : Game :=
  {| id := id g; gameName := gameName g; status := status g; settings := settings g;
     questionIds := questionIds g; currentQuestionIndex := currentQuestionIndex g;
     questionStartTime := questionStartTime g; players := players g;
     currentQuestionAnswers := currentQuestionAnswers g;
     currentQuestionBuzzes := currentQuestionBuzzes g;
     currentQuestionExcluded := currentQuestionExcluded g;
     currentQuestionWinner := currentQuestionWinner g;
     buzzerLocked := v; buzzEvaluationTimer := buzzEvaluationTimer g;
     startedAt := startedAt g; endedAt := endedAt g |}.

Definition set_buzzEvaluationTimer (v : bool) (g : Game) : Game :=
  {| id := id g; gameName := gameName g; status := status g; settings := settings g;
     questionIds := questionIds g; currentQuestionIndex := currentQuestionIndex g;
     questionStartTime := questionStartTime g; players := players g;
     currentQuestionAnswers := currentQuestionAnswers g;
     currentQuestionBuzzes := currentQuestionBuzzes g;
     currentQuestionExcluded := currentQuestionExcluded g;
     currentQuestionWinner := currentQuestionWinner g;
     buzzerLocked := buzzerLocked g; buzzEvaluationTimer := v;
     startedAt := startedAt g; endedAt := endedAt g |}.

Definition set_startedAt (v : option Z) (g : Game) : Game :=
  {| id := id g; gameName := gameName g; status := status g; settings := settings g;
     questionIds := questionIds g; currentQuestionIndex := currentQuestionIndex g;
     questionStartTime := questionStartTime g; players := players g;
     currentQuestionAnswers := currentQuestionAnswers g;
     currentQuestionBuzzes := currentQuestionBuzzes g;
     currentQuestionExcluded := currentQuestionExcluded g;
     currentQuestionWinner := currentQuestionWinner g;
     buzzerLocked := buzzerLocked g; buzzEvaluationTimer := buzzEvaluationTimer g;
     startedAt := v; endedAt := endedAt g |}.

Definition set_endedAt (v : option Z) (g : Game) : Game :=
  {| id := id g; gameName := gameName g; status := status g; settings := settings g;
     questionIds := questionIds g; currentQuestionIndex := currentQuestionIndex g;
     questionStartTime := questionStartTime g; players := players g;
     currentQuestionAnswers := currentQuestionAnswers g;
     currentQuestionBuzzes := currentQuestionBuzzes g;
     currentQuestionExcluded := currentQuestionExcluded g;
     currentQuestionWinner := currentQuestionWinner g;
     buzzerLocked := buzzerLocked g; buzzEvaluationTimer := buzzEvaluationTimer g;
     startedAt := startedAt g; endedAt := v |}.

(** ** The stores the service works on *)

Inductive QuestionType : Type := MCQ | BUZZER.

(** A row of the [questions] table. *)
Record Question : Type := {
  q_id : Z;
  q_text : string;
  q_type : QuestionType;
  q_answers : Json;
  correct_answer : option Z;
  q_category : option string;
  q_points : option Z
}.

(** A row written to [game_results]. *)
Record ResultRow : Type := {
  r_game_id : string;
  r_question_id : Z;
  r_buzzer_id : string;
  r_answer : Json;
  r_is_correct : Z;
  r_response_time : Z;
  r_timestamp_local_action : option Z;
  r_timestamp_synced_action : option Z;
  r_calibrated_latency : option Z;
  r_points : Z
}.

(** The singleton [GameService] with what it reaches: its [activeGames], the
    clock, the two tables it uses, and the [onBuzzWinner] slot with the calls
    made through it. *)
Record Service : Type := {
  clock : nat -> Z;
  ticks : nat;
  activeGames : gmap string Game;
  questions : gmap Z Question;
  game_results : list ResultRow;
  onBuzzWinner : bool;
  buzzWinnerCalls : list (string * Z * Buzz.t)
}.

Definition set_ticks (v : nat) (s : Service) : Service :=
  {| clock := clock s; ticks := v; activeGames := activeGames s;
     questions := questions s; game_results := game_results s;
     onBuzzWinner := onBuzzWinner s; buzzWinnerCalls := buzzWinnerCalls s |}.

Definition set_activeGames (v : gmap string Game) (s : Service) : Service :=
  {| clock := clock s; ticks := ticks s; activeGames := v;
     questions := questions s; game_results := game_results s;
     onBuzzWinner := onBuzzWinner s; buzzWinnerCalls := buzzWinnerCalls s |}.

Definition set_game_results (v : list ResultRow) (s : Service) : Service :=
  {| clock := clock s; ticks := ticks s; activeGames := activeGames s;
     questions := questions s; game_results := v;
     onBuzzWinner := onBuzzWinner s; buzzWinnerCalls := buzzWinnerCalls s |}.

Definition set_onBuzzWinner (v : bool) (s : Service) : Service :=
  {| clock := clock s; ticks := ticks s; activeGames := activeGames s;
     questions := questions s; game_results := game_results s;
     onBuzzWinner := v; buzzWinnerCalls := buzzWinnerCalls s |}.

Definition set_buzzWinnerCalls (v : list (string * Z * Buzz.t)) (s : Service) : Service :=
  {| clock := clock s; ticks := ticks s; activeGames := activeGames s;
     questions := questions s; game_results := game_results s;
     onBuzzWinner := onBuzzWinner s; buzzWinnerCalls := v |}.

(** [Date.now()] *)
Definition Date_now : M Service Z :=
  fun s => (Ok (clock s (ticks s)), set_ticks (S (ticks s)) s).

(** [getGame]: the game object, or an exception. *)
Definition getGame (gameId : string) : M Service Game :=
  fun s =>
    match activeGames s !! gameId with
    | Some game => (Ok game, s)
    | None => (Throw ("Game not found: " +:+ gameId), s)
    end.

(** A write through the reference [getGame] returned. *)
Definition putGame (gameId : string) (game : Game) : M Service unit :=
  modify (fun s => set_activeGames (<[gameId := game]> (activeGames s)) s).

(** ** [game.service.js] *)

(** [createGame]: the identifier comes from the UUID generator; the caller's
    settings override the defaults. *)
Definition createGame (gameId name : string) (qIds : list Z) (st : Settings)
  : M Service Game :=
  let gameState :=
    {| id := gameId; gameName := name; status := created; settings := st;
       questionIds := qIds; currentQuestionIndex := -1;
       questionStartTime := None; players := ∅;
       currentQuestionAnswers := ∅;
       currentQuestionBuzzes := None; currentQuestionExcluded := None;
       currentQuestionWinner := None; buzzerLocked := false;
       buzzEvaluationTimer := false; startedAt := None; endedAt := None |} in
  putGame gameId gameState ;;;
  ret gameState.

Definition startGame (gameId : string) : M Service Game :=
  game <- getGame gameId ;;
  match status game with
  | created =>
      now <- Date_now ;;
      let game' :=
        set_startedAt (Some now) (set_currentQuestionIndex 0 (set_status started game)) in
      putGame gameId game' ;;;
      ret game'
  | _ => throw "Game already started"
  end.

Definition registerPlayer (gameId buzzerID playerName : string) : M Service unit :=
  game <- getGame gameId ;;
  putGame gameId
    (set_players
       (<[buzzerID := Player.mk buzzerID playerName 0 0 0 0 None 0]> (players game))
       game).

Definition renamePlayer (gameId buzzerID newName : string) : M Service unit :=
  game <- getGame gameId ;;
  match players game !! buzzerID with
  | None => throw "Player not found"
  | Some p =>
      let p' :=
        Player.mk (Player.buzzerID p) newName (Player.score p)
          (Player.correctAnswers p) (Player.totalAnswers p)
          (Player.totalResponseTime p) (Player.fastestResponseTime p)
          (Player.slowestResponseTime p) in
      putGame gameId (set_players (<[buzzerID := p']> (players game)) game)
  end.

(** [getCurrentQuestion]: looks the current question up and resets the
    per-question state. *)
Definition getCurrentQuestion (gameId : string) : M Service (option Question) :=
  game <- getGame gameId ;;
  if (currentQuestionIndex game <? 0)
     || (Z.of_nat (length (questionIds game)) <=? currentQuestionIndex game)
  then ret None
  else
    qs <- gets questions ;;
    let question :=
      match questionIds game !! Z.to_nat (currentQuestionIndex game) with
      | Some questionId => qs !! questionId
      | None => None
      end in
    now <- Date_now ;;
    putGame gameId
      (set_buzzEvaluationTimer false
      (set_buzzerLocked false
      (set_currentQuestionWinner None
      (set_currentQuestionExcluded (Some ∅)
      (set_currentQuestionBuzzes (Some [])
      (set_currentQuestionAnswers ∅
      (set_questionStartTime (Some now) game))))))) ;;;
    ret question.

(** [answer === question.correct_answer] *)
Definition strict_eq_answer (answer : Json) (correct : option Z) : bool :=
  match answer, correct with
  | JNum a, Some c => a =? c
  | JNull, None => true
  | _, _ => false
  end.

(** [timestamps && timestamps.timestamp_synced_action] *)
Definition synced_action (timestamps : option Timestamps) : option Z :=
  match timestamps with
  | Some ts => timestamp_synced_action ts
  | None => None
  end.

(** The response time before clamping, as both [recordAnswer] and
    [recordBuzz] compute it: the synchronised timestamp of the buzzer when it
    and the question start are there, the server clock otherwise. *)
Definition rawResponseTime (timestamps : option Timestamps) (game : Game)
  : M Service Z :=
  if truthy (synced_action timestamps) && truthy (questionStartTime game)
  then ret (default 0 (synced_action timestamps) - default 0 (questionStartTime game))
  else if truthy (questionStartTime game)
  then now <- Date_now ;; ret (now - default 0 (questionStartTime game))
  else ret 0.

(** [if (responseTime < 0) responseTime = 0;
     if (responseTime > 120000) responseTime = 120000;] *)
Definition clampAnswerTime (responseTime : Z) : Z :=
  let responseTime := if responseTime <? 0 then 0 else responseTime in
  if 120000 <? responseTime then 120000 else responseTime.

(** [if (responseTime < 0) responseTime = 0;] *)
Definition clampBuzzTime (responseTime : Z) : Z :=
  if responseTime <? 0 then 0 else responseTime.

(** The update of a player's cumulative statistics, written out in both
    [recordAnswer] and [validateBuzz]. *)
Definition updateStats (points : Z) (isCorrect : bool) (responseTime : Z)
    (p : Player.t) : Player.t :=
  Player.mk (Player.buzzerID p) (Player.name p)
    (Player.score p + points)
    (if isCorrect then Player.correctAnswers p + 1 else Player.correctAnswers p)
    (Player.totalAnswers p + 1)
    (Player.totalResponseTime p + responseTime)
    (match Player.fastestResponseTime p with
     | None => Some responseTime
     | Some f => if responseTime <? f then Some responseTime else Some f
     end)
    (if Player.slowestResponseTime p <? responseTime
     then responseTime else Player.slowestResponseTime p).

(** [const player = game.players.get(buzzerID); if (player) { ... }] *)
Definition updatePlayer (buzzerID : string) (points : Z) (isCorrect : bool)
    (responseTime : Z) (game : Game) : Game :=
  match players game !! buzzerID with
  | Some p =>
      set_players (<[buzzerID := updateStats points isCorrect responseTime p]> (players game)) game
  | None => game
  end.

(** The [INSERT INTO game_results]; a failing insert is caught and logged by
    the caller and leaves the service as it is, so only the successful one is
    kept. *)
Definition insertResult (row : ResultRow) : M Service unit :=
  modify (fun s => set_game_results (game_results s ++ [row]) s).

Record AnswerResult : Type := {
  ar_isCorrect : bool;
  ar_points : Z;
  ar_responseTime : Z;
  ar_duplicate : bool
}.

Definition recordAnswer (gameId : string) (questionId : Z) (buzzerID : string)
    (answer : Json) (timestamps : option Timestamps) : M Service AnswerResult :=
  game <- getGame gameId ;;
  match currentQuestionAnswers game !! buzzerID with
  | Some _ =>
      ret {| ar_isCorrect := false; ar_points := 0; ar_responseTime := 0;
             ar_duplicate := true |}
  | None =>
      qs <- gets questions ;;
      match qs !! questionId with
      | None => throw "Question not found"
      | Some question =>
          let isCorrect :=
            match q_type question with
            | MCQ => strict_eq_answer answer (correct_answer question)
            | BUZZER => bool_decide (size (currentQuestionAnswers game) = 0%nat)
            end in
          let points := if isCorrect then or_default (q_points question) 10 else 0 in
          raw <- rawResponseTime timestamps game ;;
          let responseTime := clampAnswerTime raw in
          now <- Date_now ;;
          let game1 :=
            set_currentQuestionAnswers
              (<[buzzerID := Answer.mk answer isCorrect points responseTime now]>
                 (currentQuestionAnswers game)) game in
          putGame gameId game1 ;;;
          insertResult
            {| r_game_id := gameId; r_question_id := questionId;
               r_buzzer_id := buzzerID; r_answer := answer;
               r_is_correct := if isCorrect then 1 else 0;
               r_response_time := responseTime;
               r_timestamp_local_action :=
                 match timestamps with Some ts => timestamp_local_action ts | None => None end;
               r_timestamp_synced_action :=
                 match timestamps with Some ts => timestamp_synced_action ts | None => None end;
               r_calibrated_latency :=
                 match timestamps with Some ts => calibrated_latency ts | None => None end;
               r_points := points |} ;;;
          putGame gameId (updatePlayer buzzerID points isCorrect responseTime game1) ;;;
          ret {| ar_isCorrect := isCorrect; ar_points := points;
                 ar_responseTime := responseTime; ar_duplicate := false |}
      end
  end.

Definition endGame (gameId : string) : M Service (string * option Z) :=
  game <- getGame gameId ;;
  now <- Date_now ;;
  putGame gameId (set_endedAt (Some now) (set_status ended game)) ;;;
  ret ("ended", None).

Definition nextQuestion (gameId : string) : M Service (string * option Z) :=
  game <- getGame gameId ;;
  let game' :=
    set_currentQuestionAnswers ∅
      (set_questionStartTime None
         (set_currentQuestionIndex (currentQuestionIndex game + 1) game)) in
  putGame gameId game' ;;;
  if Z.of_nat (length (questionIds game')) <=? currentQuestionIndex game'
  then endGame gameId
  else ret ("next", Some (currentQuestionIndex game')).

(** *** Buzz arbitration *)

(** The two shapes of what [recordBuzz] returns:
    [{ignored: true, reason}] and
    [{ignored: false, isWinner: false, isPending: true, responseTime, totalBuzzes}]. *)
Record BuzzResult : Type := {
  ignored : bool;
  reason : option string;
  isWinner : bool;
  isPending : bool;
  br_responseTime : option Z;
  totalBuzzes : option nat
}.

Definition buzzIgnored (why : string) : BuzzResult :=
  {| ignored := true; reason := Some why; isWinner := false; isPending := false;
     br_responseTime := None; totalBuzzes := None |}.

Definition buzzPending (responseTime : Z) (total : nat) : BuzzResult :=
  {| ignored := false; reason := None; isWinner := false; isPending := true;
     br_responseTime := Some responseTime; totalBuzzes := Some total |}.

(** [b => b.buzzerID === buzzerID && !b.processed] *)
Definition unprocessedFrom (buzzerID : string) (b : Buzz.t) : bool :=
  bool_decide (Buzz.buzzerID b = buzzerID) && negb (Buzz.processed b).

(** The lazy initialisation at the head of [recordBuzz]. *)
Definition initBuzzTracking (game : Game) : Game :=
  match currentQuestionBuzzes game with
  | Some _ => game
  | None =>
      set_buzzerLocked false
        (set_currentQuestionWinner None
           (set_currentQuestionExcluded (Some ∅)
              (set_currentQuestionBuzzes (Some []) game)))
  end.

Definition recordBuzz (gameId : string) (questionId : Z) (buzzerID : string)
    (timestamps : option Timestamps) : M Service BuzzResult :=
  game0 <- getGame gameId ;;
  let game := initBuzzTracking game0 in
  putGame gameId game ;;;
  match currentQuestionExcluded game with
  | None => throw "TypeError: Cannot read properties of undefined (reading 'has')"
  | Some excluded =>
      if bool_decide (buzzerID ∈ excluded)
      then ret (buzzIgnored "Joueur exclu pour cette question")
      else
        let buzzes := default [] (currentQuestionBuzzes game) in
        match List.find (unprocessedFrom buzzerID) buzzes with
        | Some _ => ret (buzzIgnored "Déjà buzzé")
        | None =>
            if buzzerLocked game
            then ret (buzzIgnored "Buzzers verrouillés")
            else
              raw <- rawResponseTime timestamps game ;;
              let responseTime := clampBuzzTime raw in
              now <- Date_now ;;
              let buzzEntry := Buzz.mk buzzerID responseTime timestamps now false in
              let buzzes' := buzzes ++ [buzzEntry] in
              putGame gameId
                (set_buzzEvaluationTimer true
                   (set_currentQuestionBuzzes (Some buzzes') game)) ;;;
              ret (buzzPending responseTime (length buzzes'))
        end
  end.

(** [Array.prototype.sort] with a comparator: a stable sort. The comparator
    returns a positive number when its first argument goes after the second. *)
Section Sort.
Context {A : Type} (cmp : A -> A -> Z).

Fixpoint insert_sorted (x : A) (l : list A) : list A :=
  match l with
  | [] => [x]
  | y :: l' => if 0 <? cmp x y then y :: insert_sorted x l' else x :: l
  end.

Definition sort (l : list A) : list A := foldr insert_sorted [] l.
End Sort.

(** [b => !b.processed && !game.currentQuestionExcluded.has(b.buzzerID)] *)
Definition eligible (excluded : gset string) (b : Buzz.t) : bool :=
  negb (Buzz.processed b) && negb (bool_decide (Buzz.buzzerID b ∈ excluded)).

(** The entries of the array with the position each one lives at: [filter]
    and [sort] build new arrays of the same objects, and a write to one of
    them is a write at its position in [currentQuestionBuzzes]. *)
Definition refs (buzzes : list Buzz.t) : list (nat * Buzz.t) :=
  imap pair buzzes.

(** [(a, b) => a.responseTime - b.responseTime] *)
Definition byResponseTime (a b : nat * Buzz.t) : Z :=
  Buzz.responseTime (snd a) - Buzz.responseTime (snd b).

Definition markAt (buzzes : list Buzz.t) (r : nat * Buzz.t) : list Buzz.t :=
  alter Buzz.mark (fst r) buzzes.

Definition evaluateBuzzes (gameId : string) (questionId : Z) : M Service unit :=
  game <- getGame gameId ;;
  match currentQuestionBuzzes game with
  | None => ret tt
  | Some buzzes =>
      if buzzerLocked game then ret tt
      else
        match currentQuestionExcluded game with
        | None =>
            if existsb (fun b => negb (Buzz.processed b)) buzzes
            then throw "TypeError: Cannot read properties of undefined (reading 'has')"
            else ret tt
        | Some excluded =>
            let pendingBuzzes :=
              List.filter (fun r => eligible excluded (snd r)) (refs buzzes) in
            if (length pendingBuzzes =? 0)%nat then ret tt
            else
              match sort byResponseTime pendingBuzzes with
              | [] => throw "TypeError: Cannot set properties of undefined"
              | winner :: others =>
                  let buzzes1 := markAt buzzes winner in
                  let game1 :=
                    set_buzzerLocked true
                      (set_currentQuestionWinner (Some (Buzz.buzzerID (snd winner)))
                         (set_currentQuestionBuzzes (Some buzzes1) game)) in
                  putGame gameId game1 ;;;
                  let buzzes2 := foldl markAt buzzes1 others in
                  putGame gameId (set_currentQuestionBuzzes (Some buzzes2) game1) ;;;
                  cb <- gets onBuzzWinner ;;
                  when cb
                    (modify (fun s =>
                       set_buzzWinnerCalls
                         (buzzWinnerCalls s ++ [(gameId, questionId, Buzz.mark (snd winner))])
                         s))
              end
        end
  end.

(** What the timer armed by [recordBuzz] runs when it fires. *)
Definition buzzEvaluationTimeout (gameId : string) (questionId : Z) : M Service unit :=
  evaluateBuzzes gameId questionId ;;;
  game <- getGame gameId ;;
  putGame gameId (set_buzzEvaluationTimer false game).

Record ValidateResult : Type := {
  vr_isCorrect : bool;
  vr_points : Z;
  vr_responseTime : Z
}.

Definition validateBuzz (gameId : string) (questionId : Z) (buzzerID : string)
    (isCorrect : bool) : M Service ValidateResult :=
  game <- getGame gameId ;;
  qs <- gets questions ;;
  let question := qs !! questionId in
  let points :=
    if isCorrect
    then match question with
         | Some q => or_default (q_points q) 10
         | None => 10
         end
    else 0 in
  let buzzEntry :=
    match currentQuestionBuzzes game with
    | Some buzzes => List.find (fun b => bool_decide (Buzz.buzzerID b = buzzerID)) buzzes
    | None => None
    end in
  let responseTime :=
    match buzzEntry with Some b => Buzz.responseTime b | None => 0 end in
  let stamps :=
    match buzzEntry with Some b => Buzz.timestamps b | None => None end in
  insertResult
    {| r_game_id := gameId; r_question_id := questionId;
       r_buzzer_id := buzzerID; r_answer := JNum 0;
       r_is_correct := if isCorrect then 1 else 0;
       r_response_time := responseTime;
       r_timestamp_local_action :=
         match stamps with Some ts => timestamp_local_action ts | None => None end;
       r_timestamp_synced_action :=
         match stamps with Some ts => timestamp_synced_action ts | None => None end;
       r_calibrated_latency :=
         match stamps with Some ts => calibrated_latency ts | None => None end;
       r_points := points |} ;;;
  putGame gameId (updatePlayer buzzerID points isCorrect responseTime game) ;;;
  ret {| vr_isCorrect := isCorrect; vr_points := points;
         vr_responseTime := responseTime |}.

Definition excludePlayer (gameId : string) (questionId : Z) (buzzerID : string)
  : M Service unit :=
  game <- getGame gameId ;;
  let excluded := default ∅ (currentQuestionExcluded game) in
  putGame gameId
    (set_currentQuestionWinner None
       (set_buzzerLocked false
          (set_currentQuestionExcluded (Some ({[buzzerID]} ∪ excluded)) game))).

Definition getExcludedPlayers (gameId : string) (questionId : Z)
  : M Service (gset string) :=
  game <- getGame gameId ;;
  ret (default ∅ (currentQuestionExcluded game)).

(** ** [time.service.js] *)

Record TimeSync : Type := {
  ts_T1 : Json;
  ts_T2 : Z;
  ts_T3 : Z;
  ts_serverTime : Z
}.

Definition handleTimeSyncRequest (clientTimestamp : Json) : M Service TimeSync :=
  let T1 := clientTimestamp in
  T2 <- Date_now ;;
  T3 <- Date_now ;;
  ret {| ts_T1 := T1; ts_T2 := T2; ts_T3 := T3; ts_serverTime := T3 |}.

(** ** The WebSocket server

    Embedded here: the connection registry and the identification state
    machine, the router, the send helpers, the buzzer-side handlers, the
    console commands that touch the registry, and the jingle streamer. The
    console commands that only relay a question or reopen the buzzers
    ([QUESTION_SEND], [BUZZ_REOPEN]) are not. Messages are
    taken as already parsed, with payload fields of the types of the
    protocol. *)

Inductive ReadyState : Type := CONNECTING | OPEN | CLOSING | CLOSED.

Global Instance ReadyState_eq_dec : EqDecision ReadyState.
Proof. solve_decision. Defined.

Inductive ClientType : Type := angular | buzzer.

(** What [ws.send] is given: the JSON text of an envelope
    [{type, timestamp, sender: 'SERVER', payload}], or a binary packet. *)
Inductive Frame : Type :=
| Text (type : string) (timestamp : Z) (payload : Json)
| Binary (packet : list byte).

(** A transport, with the fields the server hangs on it. *)
Record Socket : Type := {
  readyState : ReadyState;
  _identified : bool;
  _clientType : option ClientType;
  _buzzerID : option string;
  _ip : string;
  isAlive : bool;
  sent : list Frame;
  closeCall : option (Z * string)
}.

Definition set_readyState (v : ReadyState) (k : Socket) : Socket :=
  {| readyState := v; _identified := _identified k; _clientType := _clientType k;
     _buzzerID := _buzzerID k; _ip := _ip k; isAlive := isAlive k;
     sent := sent k; closeCall := closeCall k |}.

Definition set_identified (v : bool) (k : Socket) : Socket :=
  {| readyState := readyState k; _identified := v; _clientType := _clientType k;
     _buzzerID := _buzzerID k; _ip := _ip k; isAlive := isAlive k;
     sent := sent k; closeCall := closeCall k |}.

Definition set_clientType (v : option ClientType) (k : Socket) : Socket :=
  {| readyState := readyState k; _identified := _identified k; _clientType := v;
     _buzzerID := _buzzerID k; _ip := _ip k; isAlive := isAlive k;
     sent := sent k; closeCall := closeCall k |}.

Definition set_buzzerID (v : option string) (k : Socket) : Socket :=
  {| readyState := readyState k; _identified := _identified k;
     _clientType := _clientType k; _buzzerID := v; _ip := _ip k;
     isAlive := isAlive k; sent := sent k; closeCall := closeCall k |}.

Definition set_isAlive (v : bool) (k : Socket) : Socket :=
  {| readyState := readyState k; _identified := _identified k;
     _clientType := _clientType k; _buzzerID := _buzzerID k; _ip := _ip k;
     isAlive := v; sent := sent k; closeCall := closeCall k |}.

Definition set_sent (v : list Frame) (k : Socket) : Socket :=
  {| readyState := readyState k; _identified := _identified k;
     _clientType := _clientType k; _buzzerID := _buzzerID k; _ip := _ip k;
     isAlive := isAlive k; sent := v; closeCall := closeCall k |}.

Definition set_closeCall (v : option (Z * string)) (k : Socket) : Socket :=
  {| readyState := readyState k; _identified := _identified k;
     _clientType := _clientType k; _buzzerID := _buzzerID k; _ip := _ip k;
     isAlive := isAlive k; sent := sent k; closeCall := v |}.

Record BuzzerInfo : Type := {
  info_name : string;
  macAddress : string;
  connectedAt : Z;
  playerNumber : Z;
  info_ip : string;
  battery : Json;
  wifiRSSI : Json;
  latency : Json
}.

(** An entry [{ws, info}] of [buzzerClients]; [ws] is a reference. *)
Record BuzzerData : Type := {
  bd_ws : nat;
  bd_info : BuzzerInfo
}.

(** A row of the [jingles] table. *)
Record Jingle : Type := {
  j_id : Z;
  j_name : string;
  file_path : string;
  j_duration : option Z;
  j_description : option string
}.

(** A read stream opened by [handleJinglePlay], with what its handlers
    closed over. *)
Record JingleStream : Type := {
  st_buzzerID : string;
  st_jingleId : Z;
  st_ws : nat;
  st_fileSize : Z;
  st_chunkIndex : Z;
  st_unread : list byte;
  st_destroyed : bool;
  st_ended : bool
}.

Definition set_chunkIndex (v : Z) (t : JingleStream) : JingleStream :=
  {| st_buzzerID := st_buzzerID t; st_jingleId := st_jingleId t; st_ws := st_ws t;
     st_fileSize := st_fileSize t; st_chunkIndex := v; st_unread := st_unread t;
     st_destroyed := st_destroyed t; st_ended := st_ended t |}.

Definition set_unread (v : list byte) (t : JingleStream) : JingleStream :=
  {| st_buzzerID := st_buzzerID t; st_jingleId := st_jingleId t; st_ws := st_ws t;
     st_fileSize := st_fileSize t; st_chunkIndex := st_chunkIndex t; st_unread := v;
     st_destroyed := st_destroyed t; st_ended := st_ended t |}.

Definition set_destroyed (v : bool) (t : JingleStream) : JingleStream :=
  {| st_buzzerID := st_buzzerID t; st_jingleId := st_jingleId t; st_ws := st_ws t;
     st_fileSize := st_fileSize t; st_chunkIndex := st_chunkIndex t;
     st_unread := st_unread t; st_destroyed := v; st_ended := st_ended t |}.

Definition set_ended (v : bool) (t : JingleStream) : JingleStream :=
  {| st_buzzerID := st_buzzerID t; st_jingleId := st_jingleId t; st_ws := st_ws t;
     st_fileSize := st_fileSize t; st_chunkIndex := st_chunkIndex t;
     st_unread := st_unread t; st_destroyed := st_destroyed t; st_ended := v |}.

(** The [WebSocketServer] object and what it reaches: the transports (a heap
    of [Socket]s addressed by handle), the service and the database it was
    given, the file system, and the read streams in flight. *)
Record Server : Type := {
  sockets : gmap nat Socket;
  angularClient : option nat;
  buzzerClients : list (string * BuzzerData);
  db : bool;
  gameService : bool;
  service : Service;
  jingles : gmap Z Jingle;
  files : gmap string (list byte);
  cwd : string;
  activeJingleStreams : gset string;
  streams : list JingleStream
}.

Definition set_sockets (v : gmap nat Socket) (w : Server) : Server :=
  {| sockets := v; angularClient := angularClient w; buzzerClients := buzzerClients w;
     db := db w; gameService := gameService w; service := service w;
     jingles := jingles w; files := files w; cwd := cwd w;
     activeJingleStreams := activeJingleStreams w; streams := streams w |}.

Definition set_angularClient (v : option nat) (w : Server) : Server :=
  {| sockets := sockets w; angularClient := v; buzzerClients := buzzerClients w;
     db := db w; gameService := gameService w; service := service w;
     jingles := jingles w; files := files w; cwd := cwd w;
     activeJingleStreams := activeJingleStreams w; streams := streams w |}.

Definition set_buzzerClients (v : list (string * BuzzerData)) (w : Server) : Server :=
  {| sockets := sockets w; angularClient := angularClient w; buzzerClients := v;
     db := db w; gameService := gameService w; service := service w;
     jingles := jingles w; files := files w; cwd := cwd w;
     activeJingleStreams := activeJingleStreams w; streams := streams w |}.

Definition set_service (v : Service) (w : Server) : Server :=
  {| sockets := sockets w; angularClient := angularClient w;
     buzzerClients := buzzerClients w; db := db w; gameService := gameService w;
     service := v; jingles := jingles w; files := files w; cwd := cwd w;
     activeJingleStreams := activeJingleStreams w; streams := streams w |}.

Definition set_activeJingleStreams (v : gset string) (w : Server) : Server :=
  {| sockets := sockets w; angularClient := angularClient w;
     buzzerClients := buzzerClients w; db := db w; gameService := gameService w;
     service := service w; jingles := jingles w; files := files w; cwd := cwd w;
     activeJingleStreams := v; streams := streams w |}.

Definition set_streams (v : list JingleStream) (w : Server) : Server :=
  {| sockets := sockets w; angularClient := angularClient w;
     buzzerClients := buzzerClients w; db := db w; gameService := gameService w;
     service := service w; jingles := jingles w; files := files w; cwd := cwd w;
     activeJingleStreams := activeJingleStreams w; streams := v |}.

(** A call into the game service, or a reading of the clock. *)
Definition liftService {A} (c : M Service A) : M Server A :=
  fun w =>
    match c (service w) with
    | (o, s') => (o, set_service s' w)
    end.

Definition now : M Server Z := liftService Date_now.

(** *** The registry: a [Map] in insertion order *)

Definition registryGet (buzzerID : string) (reg : list (string * BuzzerData))
  : option BuzzerData :=
  snd <$> List.find (fun e => bool_decide (fst e = buzzerID)) reg.

Definition registryHas (buzzerID : string) (reg : list (string * BuzzerData)) : bool :=
  bool_decide (is_Some (registryGet buzzerID reg)).

Fixpoint registrySet (buzzerID : string) (data : BuzzerData)
    (reg : list (string * BuzzerData)) : list (string * BuzzerData) :=
  match reg with
  | [] => [(buzzerID, data)]
  | e :: reg' =>
      if bool_decide (fst e = buzzerID) then (buzzerID, data) :: reg'
      else e :: registrySet buzzerID data reg'
  end.

Definition registryDelete (buzzerID : string) (reg : list (string * BuzzerData))
  : list (string * BuzzerData) :=
  List.filter (fun e => negb (bool_decide (fst e = buzzerID))) reg.

(** *** Transports *)

(** [ws.readyState === WebSocket.OPEN], for a reference that may be [null]. *)
Definition isOpen (w : Server) (ws : nat) : bool :=
  match sockets w !! ws with
  | Some k => bool_decide (readyState k = OPEN)
  | None => false
  end.

Definition updateSocket (ws : nat) (f : Socket -> Socket) : M Server unit :=
  modify (fun w => set_sockets (alter f ws (sockets w)) w).

(** [ws.send(data)] *)
Definition wsSend (ws : nat) (frame : Frame) : M Server unit :=
  updateSocket ws (fun k => set_sent (sent k ++ [frame]) k).

(** [ws.close(code, reason)]: starts the closing handshake of an open
    transport; the [close] event comes later. *)
Definition wsClose (ws : nat) (code : Z) (why : string) : M Server unit :=
  updateSocket ws (fun k =>
    match readyState k with
    | OPEN | CONNECTING => set_closeCall (Some (code, why)) (set_readyState CLOSING k)
    | _ => k
    end).

(** *** Send helpers *)

Definition sendToClient (ws : nat) (type : string) (payload : Json) : M Server unit :=
  open <- gets (fun w => isOpen w ws) ;;
  if open
  then timestamp <- now ;; wsSend ws (Text type timestamp payload)
  else ret tt.

Definition sendToAngular (type : string) (payload : Json) : M Server unit :=
  client <- gets angularClient ;;
  match client with
  | Some ws =>
      open <- gets (fun w => isOpen w ws) ;;
      if open then sendToClient ws type payload else ret tt
  | None => ret tt
  end.

Definition sendToBuzzer (buzzerID : string) (type : string) (payload : Json)
  : M Server unit :=
  reg <- gets buzzerClients ;;
  match registryGet buzzerID reg with
  | Some buzzerData =>
      open <- gets (fun w => isOpen w (bd_ws buzzerData)) ;;
      if open then sendToClient (bd_ws buzzerData) type payload else ret tt
  | None => ret tt
  end.

(** [forEach] over a snapshot of the keys, in insertion order. *)
Fixpoint forEachM {S A} (l : list A) (f : A -> M S unit) : M S unit :=
  match l with
  | [] => ret tt
  | x :: l' => f x ;;; forEachM l' f
  end.

Definition broadcastToBuzzers (type : string) (payload : Json) : M Server unit :=
  reg <- gets buzzerClients ;;
  forEachM reg (fun e => sendToBuzzer (fst e) type payload).

(** *** Messages *)

(** A parsed message from a peer: its [type] and the fields of its payload.
    [UNKNOWN] stands for a type that no [switch] has a case for. *)
Inductive Message : Type :=
| ANGULAR_CONNECT
| BUZZER_REGISTER (buzzerID : string) (macAddress : option string)
| TIME_SYNC_REQ (T1 : Json)
| PING (T_send : Json)
| STATUS_UPDATE (battery wifiRSSI freeHeap : Json)
| ANSWER_MCQ (gameId : string) (questionId : Z) (answer : Json)
    (timestamps : option Timestamps)
| ANSWER_BUZZER (gameId : string) (questionId : Z) (timestamps : option Timestamps)
| REQUEST_BUZZER_LIST
| PLAYER_RENAME (buzzerID newName : string)
| GAME_START (gameId name : string) (totalQuestions : Json)
| BUZZER_DISCONNECT (buzzerID : string)
| BUZZ_CORRECT (gameId : string) (questionId : Z) (buzzerID : string)
| JINGLE_PLAY (buzzerID : string) (jingleId : Z)
| UNKNOWN (type : string).

Definition jsonOfNumber (v : option Z) : Json :=
  match v with Some n => JNum n | None => JUndefined end.

Definition jsonOfTimestamps (timestamps : option Timestamps) : Json :=
  match timestamps with
  | Some ts =>
      JObj [("timestamp_local_action", jsonOfNumber (timestamp_local_action ts));
            ("timestamp_synced_action", jsonOfNumber (timestamp_synced_action ts));
            ("calibrated_latency", jsonOfNumber (calibrated_latency ts))]
  | None => JUndefined
  end.

(** [n.toString(36)] for a time. *)
Definition digit36 (d : Z) : string :=
  match String.get (Z.to_nat d) "0123456789abcdefghijklmnopqrstuvwxyz" with
  | Some ch => String ch EmptyString
  | None => ""
  end.

Fixpoint toString36_digits (fuel : nat) (n : Z) : string :=
  match fuel with
  | O => ""
  | S fuel' =>
      if n <? 36 then digit36 n
      else toString36_digits fuel' (n / 36) +:+ digit36 (n mod 36)
  end.

Definition toString36 (n : Z) : string :=
  if n <? 0 then "-" +:+ toString36_digits 64 (- n) else toString36_digits 64 n.

(** *** Connection and disconnection *)

Definition buzzerListEntry (e : string * BuzzerData) : Json :=
  JObj [("id", JStr (fst e));
        ("name", JStr (info_name (bd_info (snd e))));
        ("connectedAt", JNum (connectedAt (bd_info (snd e))));
        ("battery", battery (bd_info (snd e)));
        ("wifiRSSI", wifiRSSI (bd_info (snd e)));
        ("latency", latency (bd_info (snd e)));
        ("connected", JBool true)].

Definition sendBuzzerListToAngular : M Server unit :=
  reg <- gets buzzerClients ;;
  if (length reg =? 0)%nat
  then sendToAngular "BUZZER_LIST_UPDATE" (JObj [("buzzers", JArr []); ("total", JNum 0)])
  else
    let buzzersList := buzzerListEntry <$> reg in
    sendToAngular "BUZZER_LIST_UPDATE"
      (JObj [("buzzers", JArr buzzersList);
             ("total", JNum (Z.of_nat (length buzzersList)))]).

Definition handleAngularConnection (ws : nat) : M Server unit :=
  modify (set_angularClient (Some ws)) ;;;
  t1 <- now ;;
  t2 <- now ;;
  sendToClient ws "CONNECTED"
    (JObj [("sessionID", JStr ("session_" +:+ toString36 t1));
           ("serverTime", JNum t2);
           ("config", JObj [("maxBuzzers", JNum 10); ("version", JStr "1.0.0")])]) ;;;
  sendBuzzerListToAngular.

(** [macAddress || 'unknown'] *)
Definition macOrUnknown (macAddress : option string) : string :=
  match macAddress with
  | Some m => if bool_decide (m = "") then "unknown" else m
  | None => "unknown"
  end.

Definition handleBuzzerRegistration (ws : nat) (buzzerID : string)
    (macAddress : option string) : M Server unit :=
  reg <- gets buzzerClients ;;
  if registryHas buzzerID reg
  then
    sendToClient ws "CONNECTION_REJECTED"
      (JObj [("reason", JStr "Buzzer ID already connected")]) ;;;
    wsClose ws 4002 "Duplicate buzzer ID"
  else
    let playerNumber := Z.of_nat (length reg) + 1 in
    t <- now ;;
    ip <- gets (fun w => from_option _ip "" (sockets w !! ws)) ;;
    let buzzerInfo :=
      {| info_name := "En attente de nom"; macAddress := macOrUnknown macAddress;
         connectedAt := t; playerNumber := playerNumber; info_ip := ip;
         battery := JNull; wifiRSSI := JNull; latency := JNull |} in
    modify (fun w =>
      set_buzzerClients
        (registrySet buzzerID {| bd_ws := ws; bd_info := buzzerInfo |} (buzzerClients w))
        w) ;;;
    t' <- now ;;
    sendToClient ws "CONNECTION_ACK"
      (JObj [("buzzerID", JStr buzzerID);
             ("name", JStr (info_name buzzerInfo));
             ("serverTime", JNum t');
             ("playerNumber", JNum playerNumber)]) ;;;
    size <- gets (fun w => length (buzzerClients w)) ;;
    sendToAngular "BUZZER_CONNECTED"
      (JObj [("buzzer", JObj [("id", JStr buzzerID);
                              ("name", JStr (info_name buzzerInfo));
                              ("connectedAt", JNum (connectedAt buzzerInfo))]);
             ("totalBuzzers", JNum (Z.of_nat size))]).

(** Truthiness of [ws._buzzerID]. *)
Definition truthyId (v : option string) : option string :=
  match v with
  | Some i => if bool_decide (i = "") then None else Some i
  | None => None
  end.

Definition handleDisconnection (ws : nat) : M Server unit :=
  k <- gets (fun w => sockets w !! ws) ;;
  match k with
  | None => ret tt
  | Some k =>
      match _clientType k with
      | Some angular => modify (set_angularClient None)
      | Some buzzer =>
          match truthyId (_buzzerID k) with
          | Some buzzerID =>
              modify (fun w =>
                set_buzzerClients (registryDelete buzzerID (buzzerClients w)) w) ;;;
              size <- gets (fun w => length (buzzerClients w)) ;;
              sendToAngular "BUZZER_DISCONNECTED"
                (JObj [("buzzerID", JStr buzzerID);
                       ("totalBuzzers", JNum (Z.of_nat size))])
          | None => ret tt
          end
      | None => ret tt
      end
  end.

(** *** Messages before identification *)

Definition handlePreIdentificationMessage (ws : nat) (message : Message)
  : M Server unit :=
  match message with
  | TIME_SYNC_REQ T1 =>
      T2 <- now ;;
      T3 <- now ;;
      sendToClient ws "TIME_SYNC_RES" (JObj [("T1", T1); ("T2", JNum T2); ("T3", JNum T3)])
  | PING T_send =>
      T_receive <- now ;;
      sendToClient ws "PONG" (JObj [("T_send", T_send); ("T_receive", JNum T_receive)])
  | _ => ret tt
  end.

(** *** Messages of a buzzer *)

Definition handleStatusUpdate (buzzerID : string) (bat rssi heap : Json)
  : M Server unit :=
  reg <- gets buzzerClients ;;
  match registryGet buzzerID reg with
  | Some buzzerData =>
      let i := bd_info buzzerData in
      let i' :=
        {| info_name := info_name i; macAddress := macAddress i;
           connectedAt := connectedAt i; playerNumber := playerNumber i;
           info_ip := info_ip i; battery := bat; wifiRSSI := rssi;
           latency := latency i |} in
      modify (set_buzzerClients
                (registrySet buzzerID {| bd_ws := bd_ws buzzerData; bd_info := i' |} reg))
  | None => ret tt
  end ;;;
  sendToAngular "BUZZER_STATUS_UPDATE"
    (JObj [("buzzerID", JStr buzzerID); ("battery", bat);
           ("wifiRSSI", rssi); ("freeHeap", heap)]).

Definition handleMCQAnswer (buzzerID : string) (gameId : string) (questionId : Z)
    (answer : Json) (timestamps : option Timestamps) : M Server unit :=
  let fallback :=
    {| ar_isCorrect := false; ar_points := 0; ar_responseTime := 0;
       ar_duplicate := false |} in
  hasService <- gets gameService ;;
  result <-
    (if hasService
     then try_catch
            (liftService (recordAnswer gameId questionId buzzerID answer timestamps))
            (fun _ => ret fallback)
     else ret fallback) ;;
  sendToBuzzer buzzerID "ANSWER_RESULT"
    (JObj [("questionId", JNum questionId);
           ("isCorrect", JBool (ar_isCorrect result));
           ("points", JNum (ar_points result));
           ("responseTime", JNum (ar_responseTime result))]) ;;;
  sendToAngular "ANSWER_RECEIVED"
    (JObj [("buzzerID", JStr buzzerID);
           ("questionId", JNum questionId);
           ("answer", answer);
           ("isCorrect", JBool (ar_isCorrect result));
           ("points", JNum (ar_points result));
           ("responseTime", JNum (ar_responseTime result));
           ("timestamps", jsonOfTimestamps timestamps)]).

Definition handleBuzzerBuzz (buzzerID : string) (gameId : string) (questionId : Z)
    (timestamps : option Timestamps) : M Server unit :=
  hasService <- gets gameService ;;
  if negb hasService then ret tt
  else
    try_catch
      (result <- liftService (recordBuzz gameId questionId buzzerID timestamps) ;;
       if ignored result
       then sendToBuzzer buzzerID "BUZZ_IGNORED"
              (JObj [("reason", JStr (default "" (reason result)))])
       else ret tt)
      (fun _ => ret tt).

Definition handleBuzzerMessage (buzzerID : string) (ws : nat) (message : Message)
  : M Server unit :=
  match message with
  | TIME_SYNC_REQ T1 =>
      T2 <- now ;;
      T3 <- now ;;
      sendToClient ws "TIME_SYNC_RES" (JObj [("T1", T1); ("T2", JNum T2); ("T3", JNum T3)])
  | PING T_send =>
      T_receive <- now ;;
      sendToClient ws "PONG" (JObj [("T_send", T_send); ("T_receive", JNum T_receive)])
  | STATUS_UPDATE bat rssi heap => handleStatusUpdate buzzerID bat rssi heap
  | ANSWER_MCQ gameId questionId answer timestamps =>
      handleMCQAnswer buzzerID gameId questionId answer timestamps
  | ANSWER_BUZZER gameId questionId timestamps =>
      handleBuzzerBuzz buzzerID gameId questionId timestamps
  | _ => ret tt
  end.

(** *** Node's [path] module (POSIX)

    The part of it [handleJinglePlay] uses, written from its documented
    behaviour: a path is cut at every [/]; empty and [.] segments are
    dropped, a [..] segment removes the segment before it (when there is one
    that is not itself [..]) and is kept only in front of a relative path. *)

Fixpoint splitPath (acc : string) (path : string) : list string :=
  match path with
  | EmptyString => [acc]
  | String c rest =>
      if Ascii.eqb c "/"%char then acc :: splitPath "" rest
      else splitPath (acc +:+ String c EmptyString) rest
  end.

(** One segment, on the stack of segments kept so far (last one first). *)
Definition normalizeStep (allowAboveRoot : bool) (kept : list string) (seg : string)
  : list string :=
  if bool_decide (seg = "") || bool_decide (seg = ".") then kept
  else if bool_decide (seg = "..") then
    match kept with
    | top :: below =>
        if bool_decide (top = "..")
        then (if allowAboveRoot then ".." :: kept else kept)
        else below
    | [] => if allowAboveRoot then [".."] else []
    end
  else seg :: kept.

Definition normalizeSegments (allowAboveRoot : bool) (segs : list string) : list string :=
  rev (foldl (normalizeStep allowAboveRoot) [] segs).

Definition normalizeString (path : string) (allowAboveRoot : bool) : string :=
  String.concat "/" (normalizeSegments allowAboveRoot (splitPath "" path)).

Definition isAbsolute (path : string) : bool :=
  match path with
  | String c _ => Ascii.eqb c "/"%char
  | EmptyString => false
  end.

Fixpoint endsWithSlash (path : string) : bool :=
  match path with
  | EmptyString => false
  | String c EmptyString => Ascii.eqb c "/"%char
  | String _ rest => endsWithSlash rest
  end.

Definition path_normalize (path : string) : string :=
  if bool_decide (path = "") then "."
  else
    let normalized := normalizeString path (negb (isAbsolute path)) in
    if bool_decide (normalized = "")
    then (if isAbsolute path then "/" else if endsWithSlash path then "./" else ".")
    else
      let normalized :=
        if endsWithSlash path then normalized +:+ "/" else normalized in
      if isAbsolute path then "/" +:+ normalized else normalized.

(** [path.resolve(path)], with [process.cwd()] an absolute path. *)
Definition path_resolve (cwd path : string) : string :=
  if isAbsolute path
  then "/" +:+ normalizeString (path +:+ "/") false
  else
    let joined :=
      if bool_decide (path = "") then cwd +:+ "/"
      else cwd +:+ "/" +:+ path +:+ "/" in
    "/" +:+ normalizeString joined false.

(** The suffix of a name from its last dot on. *)
Fixpoint fromLastDot (name : string) : option string :=
  match name with
  | EmptyString => None
  | String c rest =>
      match fromLastDot rest with
      | Some e => Some e
      | None => if Ascii.eqb c "."%char then Some name else None
      end
  end.

Definition path_extname (path : string) : string :=
  let base :=
    default "" (head (List.filter (fun s => negb (bool_decide (s = "")))
                        (rev (splitPath "" path)))) in
  match fromLastDot base with
  | None => ""
  | Some e =>
      if bool_decide (e = base) || bool_decide (base = "..") then "" else e
  end.

(** [toLowerCase] on the ASCII letters, and [replace('.', '')]. *)
Definition lowerAscii (c : Ascii.ascii) : Ascii.ascii :=
  let n := Ascii.nat_of_ascii c in
  if (65 <=? n)%nat && (n <=? 90)%nat then Ascii.ascii_of_nat (n + 32) else c.

Fixpoint toLowerCase (s : string) : string :=
  match s with
  | EmptyString => EmptyString
  | String c rest => String (lowerAscii c) (toLowerCase rest)
  end.

Fixpoint removeFirstDot (s : string) : string :=
  match s with
  | EmptyString => EmptyString
  | String c rest => if Ascii.eqb c "."%char then rest else String c (removeFirstDot rest)
  end.

(** *** Binary packets *)

Definition byteOf (z : Z) : byte := default x00 (Byte.of_N (Z.to_N (z mod 256))).

Definition le32 (v : Z) : list byte :=
  [byteOf v; byteOf (v / 256); byteOf (v / 65536); byteOf (v / 16777216)].

(** [buf.writeUInt32LE(value, offset)] into a zeroed buffer: the four bytes,
    or a [RangeError]. *)
Definition writeUInt32LE (value : Z) : M Server (list byte) :=
  if (0 <=? value) && (value <? 4294967296) then ret (le32 value)
  else throw "RangeError [ERR_OUT_OF_RANGE]".

(** What a peer reads back from four bytes. *)
Definition readUInt32LE (bs : list byte) : Z :=
  match bs with
  | [b0; b1; b2; b3] =>
      Z.of_N (Byte.to_N b0) + 256 * Z.of_N (Byte.to_N b1)
      + 65536 * Z.of_N (Byte.to_N b2) + 16777216 * Z.of_N (Byte.to_N b3)
  | _ => 0
  end.

(** *** The jingle streamer *)

Definition CHUNK_SIZE : nat := 4096.

Definition jingleError (buzzerID : string) (jingleId : Z) (error : string) : M Server unit :=
  sendToAngular "JINGLE_ERROR"
    (JObj [("buzzerID", JStr buzzerID); ("jingleId", JNum jingleId);
           ("error", JStr error)]).

Definition handleJinglePlay (buzzerID : string) (jingleId : Z) : M Server unit :=
  active <- gets activeJingleStreams ;;
  if bool_decide (buzzerID ∈ active)
  then jingleError buzzerID jingleId "Buzzer is already playing a jingle"
  else
    reg <- gets buzzerClients ;;
    open <- gets (fun w =>
      match registryGet buzzerID reg with
      | Some buzzerData => isOpen w (bd_ws buzzerData)
      | None => false
      end) ;;
    match registryGet buzzerID reg with
    | Some buzzerData =>
        if negb open then jingleError buzzerID jingleId "Buzzer not connected"
        else
          jingle <- gets (fun w => if db w then jingles w !! jingleId else None) ;;
          match jingle with
          | None => jingleError buzzerID jingleId "Jingle not found"
          | Some jingle =>
              dir <- gets cwd ;;
              let resolvedPath := path_resolve dir (file_path jingle) in
              let normalizedStored := path_normalize (file_path jingle) in
              if negb (isAbsolute (file_path jingle))
                 && negb (bool_decide (resolvedPath = path_resolve dir normalizedStored))
              then jingleError buzzerID jingleId "Invalid file path"
              else
                file <- gets (fun w => files w !! resolvedPath) ;;
                match file with
                | None =>
                    jingleError buzzerID jingleId
                      ("File not found: " +:+ file_path jingle)
                | Some content =>
                    let fileSize := Z.of_nat (length content) in
                    let ext := removeFirstDot (toLowerCase (path_extname resolvedPath)) in
                    sendToBuzzer buzzerID "JINGLE_START"
                      (JObj [("jingleId", JNum jingleId); ("name", JStr (j_name jingle));
                             ("format", JStr ext); ("fileSize", JNum fileSize)]) ;;;
                    sendToAngular "JINGLE_STARTED"
                      (JObj [("buzzerID", JStr buzzerID); ("jingleId", JNum jingleId);
                             ("name", JStr (j_name jingle)); ("fileSize", JNum fileSize)]) ;;;
                    modify (fun w =>
                      set_activeJingleStreams ({[buzzerID]} ∪ activeJingleStreams w) w) ;;;
                    modify (fun w =>
                      set_streams
                        (streams w ++
                         [{| st_buzzerID := buzzerID; st_jingleId := jingleId;
                             st_ws := bd_ws buzzerData; st_fileSize := fileSize;
                             st_chunkIndex := 0; st_unread := content;
                             st_destroyed := false; st_ended := false |}])
                        w)
                end
          end
    | None => jingleError buzzerID jingleId "Buzzer not connected"
    end.

Definition updateStream (sid : nat) (f : JingleStream -> JingleStream) : M Server unit :=
  modify (fun w => set_streams (alter f sid (streams w)) w).

(** [readStream.on('data', chunk => ...)] *)
Definition onStreamData (sid : nat) (t : JingleStream) (chunk : list byte)
  : M Server unit :=
  open <- gets (fun w => isOpen w (st_ws t)) ;;
  if open
  then
    h1 <- writeUInt32LE (st_jingleId t) ;;
    h2 <- writeUInt32LE (st_chunkIndex t) ;;
    wsSend (st_ws t) (Binary (h1 ++ h2 ++ chunk)) ;;;
    updateStream sid (fun t => set_chunkIndex (st_chunkIndex t + 1) t)
  else updateStream sid (set_destroyed true).

(** [readStream.on('end', () => ...)] *)
Definition onStreamEnd (t : JingleStream) : M Server unit :=
  modify (fun w =>
    set_activeJingleStreams (activeJingleStreams w ∖ {[st_buzzerID t]}) w) ;;;
  sendToBuzzer (st_buzzerID t) "JINGLE_END"
    (JObj [("jingleId", JNum (st_jingleId t));
           ("totalChunks", JNum (st_chunkIndex t));
           ("fileSize", JNum (st_fileSize t))]) ;;;
  sendToAngular "JINGLE_COMPLETED"
    (JObj [("buzzerID", JStr (st_buzzerID t));
           ("jingleId", JNum (st_jingleId t));
           ("totalChunks", JNum (st_chunkIndex t))]).

(** [readStream.on('error', err => ...)] *)
Definition onStreamError (t : JingleStream) (message : string) : M Server unit :=
  modify (fun w =>
    set_activeJingleStreams (activeJingleStreams w ∖ {[st_buzzerID t]}) w) ;;;
  jingleError (st_buzzerID t) (st_jingleId t) ("Read error: " +:+ message).

(** One step of the read stream ([highWaterMark: CHUNK_SIZE]): it hands the
    next [CHUNK_SIZE] bytes of the file to the [data] handler, or, when the
    file is exhausted, runs the [end] handler; a destroyed stream is silent. *)
Definition streamStep (sid : nat) : M Server unit :=
  t <- gets (fun w => streams w !! sid) ;;
  match t with
  | None => ret tt
  | Some t =>
      if st_destroyed t || st_ended t then ret tt
      else
        match st_unread t with
        | [] => updateStream sid (set_ended true) ;;; onStreamEnd t
        | _ =>
            updateStream sid (set_unread (drop CHUNK_SIZE (st_unread t))) ;;;
            onStreamData sid t (take CHUNK_SIZE (st_unread t))
        end
  end.

(** The stream left to run: [n] steps in a row. *)
Fixpoint streamRun (n : nat) (sid : nat) : M Server unit :=
  match n with
  | O => ret tt
  | S n' => streamStep sid ;;; streamRun n' sid
  end.

(** *** Commands of the console *)

Definition handlePlayerRename (buzzerID newName : string) : M Server unit :=
  reg <- gets buzzerClients ;;
  match registryGet buzzerID reg with
  | Some buzzerData =>
      let i := bd_info buzzerData in
      let i' :=
        {| info_name := newName; macAddress := macAddress i;
           connectedAt := connectedAt i; playerNumber := playerNumber i;
           info_ip := info_ip i; battery := battery i; wifiRSSI := wifiRSSI i;
           latency := latency i |} in
      modify (set_buzzerClients
                (registrySet buzzerID {| bd_ws := bd_ws buzzerData; bd_info := i' |} reg)) ;;;
      sendToBuzzer buzzerID "PLAYER_NAME_UPDATE" (JObj [("name", JStr newName)])
  | None => ret tt
  end.

Definition handleGameStart (gameId name : string) (totalQuestions : Json)
  : M Server unit :=
  broadcastToBuzzers "GAME_STARTED"
    (JObj [("gameId", JStr gameId); ("name", JStr name);
           ("totalQuestions", totalQuestions)]).

Definition handleBuzzerForceDisconnect (buzzerID : string) : M Server unit :=
  reg <- gets buzzerClients ;;
  match registryGet buzzerID reg with
  | Some buzzerData => wsClose (bd_ws buzzerData) 4003 "Disconnected by admin"
  | None => ret tt
  end.

Definition handleBuzzCorrect (gameId : string) (questionId : Z) (buzzerID : string)
  : M Server unit :=
  hasService <- gets gameService ;;
  if hasService
  then
    try_catch
      (result <- liftService (validateBuzz gameId questionId buzzerID true) ;;
       sendToBuzzer buzzerID "ANSWER_RESULT"
         (JObj [("questionId", JNum questionId); ("isCorrect", JBool true);
                ("points", JNum (vr_points result));
                ("responseTime", JNum (vr_responseTime result))]) ;;;
       sendToAngular "BUZZ_VALIDATED"
         (JObj [("buzzerID", JStr buzzerID); ("isCorrect", JBool true);
                ("points", JNum (vr_points result));
                ("responseTime", JNum (vr_responseTime result))]) ;;;
       broadcastToBuzzers "BUZZER_UNLOCKED"
         (JObj [("gameId", JStr gameId); ("questionId", JNum questionId)]))
      (fun _ => ret tt)
  else ret tt.

Definition handleAngularMessage (ws : nat) (message : Message) : M Server unit :=
  match message with
  | REQUEST_BUZZER_LIST => sendBuzzerListToAngular
  | PLAYER_RENAME buzzerID newName => handlePlayerRename buzzerID newName
  | GAME_START gameId name totalQuestions => handleGameStart gameId name totalQuestions
  | BUZZER_DISCONNECT buzzerID => handleBuzzerForceDisconnect buzzerID
  | BUZZ_CORRECT gameId questionId buzzerID => handleBuzzCorrect gameId questionId buzzerID
  | JINGLE_PLAY buzzerID jingleId => handleJinglePlay buzzerID jingleId
  | _ => ret tt
  end.

(** *** The router *)

Definition routeMessage (ws : nat) (message : Message) : M Server unit :=
  k <- gets (fun w => sockets w !! ws) ;;
  match k with
  | None => ret tt
  | Some k =>
      if negb (_identified k)
      then
        match message with
        | ANGULAR_CONNECT =>
            updateSocket ws (fun k =>
              set_clientType (Some angular) (set_identified true k)) ;;;
            handleAngularConnection ws
        | BUZZER_REGISTER buzzerID macAddress =>
            updateSocket ws (fun k =>
              set_buzzerID (Some buzzerID)
                (set_clientType (Some buzzer) (set_identified true k))) ;;;
            handleBuzzerRegistration ws buzzerID macAddress
        | _ => handlePreIdentificationMessage ws message
        end
      else
        match _clientType k with
        | Some angular => handleAngularMessage ws message
        | Some buzzer => handleBuzzerMessage (default "" (_buzzerID k)) ws message
        | None => ret tt
        end
  end.

(** *** What the event loop delivers *)

Definition newSocket (ip : string) : Socket :=
  {| readyState := OPEN; _identified := false; _clientType := None;
     _buzzerID := None; _ip := ip; isAlive := true; sent := [];
     closeCall := None |}.

(** The winner callback installed by [setDependencies]. *)
Definition onBuzzWinnerCallback (call : string * Z * Buzz.t) : M Server unit :=
  let '(gameId, questionId, winner) := call in
  broadcastToBuzzers "BUZZER_LOCKED"
    (JObj [("gameId", JStr gameId); ("questionId", JNum questionId);
           ("winnerID", JStr (Buzz.buzzerID winner))]) ;;;
  reg <- gets buzzerClients ;;
  let playerName :=
    match registryGet (Buzz.buzzerID winner) reg with
    | Some buzzerData => info_name (bd_info buzzerData)
    | None => Buzz.buzzerID winner
    end in
  sendToAngular "BUZZ_WINNER"
    (JObj [("buzzerID", JStr (Buzz.buzzerID winner)); ("playerName", JStr playerName);
           ("questionId", JNum questionId); ("gameId", JStr gameId);
           ("responseTime", JNum (Buzz.responseTime winner))]).

Inductive Event : Type :=
| Connection (ws : nat) (ip : string)
| Received (ws : nat) (message : Message)
| Closed (ws : nat)
| Pong (ws : nat)
| IdentificationTimeout (ws : nat)
| HeartbeatAt (ws : nat)
| BuzzTimer (gameId : string) (questionId : Z)
| StreamReady (sid : nat)
| SetDependencies (hasDb hasService : bool).

Definition deliver (e : Event) : M Server unit :=
  match e with
  | Connection ws ip =>
      modify (fun w => set_sockets (<[ws := newSocket ip]> (sockets w)) w)
  | Received ws message =>
      try_catch (routeMessage ws message) (fun _ => ret tt)
  | Closed ws =>
      updateSocket ws (set_readyState CLOSED) ;;;
      handleDisconnection ws
  | Pong ws => updateSocket ws (set_isAlive true)
  | IdentificationTimeout ws =>
      k <- gets (fun w => sockets w !! ws) ;;
      match k with
      | Some k =>
          if negb (_identified k) then wsClose ws 4001 "Identification timeout"
          else ret tt
      | None => ret tt
      end
  | HeartbeatAt ws =>
      k <- gets (fun w => sockets w !! ws) ;;
      match k with
      | Some k =>
          if negb (isAlive k) then updateSocket ws (set_readyState CLOSED)
          else updateSocket ws (set_isAlive false)
      | None => ret tt
      end
  | BuzzTimer gameId questionId =>
      before <- gets (fun w => length (buzzWinnerCalls (service w))) ;;
      liftService (buzzEvaluationTimeout gameId questionId) ;;;
      calls <- gets (fun w => drop before (buzzWinnerCalls (service w))) ;;
      forEachM calls onBuzzWinnerCallback
  | StreamReady sid => streamStep sid
  | SetDependencies hasDb hasService =>
      modify (fun w =>
        {| sockets := sockets w; angularClient := angularClient w;
           buzzerClients := buzzerClients w; db := hasDb; gameService := hasService;
           service := if hasService then set_onBuzzWinner true (service w)
                      else service w;
           jingles := jingles w; files := files w; cwd := cwd w;
           activeJingleStreams := activeJingleStreams w; streams := streams w |})
  end.

(** A run of the server: the events one after the other. *)
Fixpoint deliverAll (es : list Event) (w : Server) : Server :=
  match es with
  | [] => w
  | e :: es' => deliverAll es' (snd (deliver e w))
  end.

(** ** The states the service can be in

    Everything that is done to the service from outside: the calls of its
    public methods (by the routes, the WebSocket server and the timer), the
    changes of the [questions] table and the installation of the
    [onBuzzWinner] callback. *)

Inductive Call : Type :=
| CreateGame (gameId name : string) (qIds : list Z) (st : Settings)
| StartGame (gameId : string)
| RegisterPlayer (gameId buzzerID playerName : string)
| RenamePlayer (gameId buzzerID newName : string)
| GetCurrentQuestion (gameId : string)
| RecordAnswer (gameId : string) (questionId : Z) (buzzerID : string)
    (answer : Json) (timestamps : option Timestamps)
| NextQuestion (gameId : string)
| EndGame (gameId : string)
| RecordBuzz (gameId : string) (questionId : Z) (buzzerID : string)
    (timestamps : option Timestamps)
| EvaluateBuzzes (gameId : string) (questionId : Z)
| BuzzEvaluationTimeout (gameId : string) (questionId : Z)
| ValidateBuzz (gameId : string) (questionId : Z) (buzzerID : string) (isCorrect : bool)
| ExcludePlayer (gameId : string) (questionId : Z) (buzzerID : string)
| GetExcludedPlayers (gameId : string) (questionId : Z)
| HandleTimeSyncRequest (clientTimestamp : Json)
| UpdateQuestions (qs : gmap Z Question)
| SetOnBuzzWinner (installed : bool).

(** The service after a call, whether it returned or threw. *)
Definition perform (c : Call) (s : Service) : Service :=
  match c with
  | CreateGame gameId name qIds st => snd (createGame gameId name qIds st s)
  | StartGame gameId => snd (startGame gameId s)
  | RegisterPlayer gameId buzzerID playerName =>
      snd (registerPlayer gameId buzzerID playerName s)
  | RenamePlayer gameId buzzerID newName =>
      snd (renamePlayer gameId buzzerID newName s)
  | GetCurrentQuestion gameId => snd (getCurrentQuestion gameId s)
  | RecordAnswer gameId questionId buzzerID answer timestamps =>
      snd (recordAnswer gameId questionId buzzerID answer timestamps s)
  | NextQuestion gameId => snd (nextQuestion gameId s)
  | EndGame gameId => snd (endGame gameId s)
  | RecordBuzz gameId questionId buzzerID timestamps =>
      snd (recordBuzz gameId questionId buzzerID timestamps s)
  | EvaluateBuzzes gameId questionId => snd (evaluateBuzzes gameId questionId s)
  | BuzzEvaluationTimeout gameId questionId =>
      snd (buzzEvaluationTimeout gameId questionId s)
  | ValidateBuzz gameId questionId buzzerID isCorrect =>
      snd (validateBuzz gameId questionId buzzerID isCorrect s)
  | ExcludePlayer gameId questionId buzzerID =>
      snd (excludePlayer gameId questionId buzzerID s)
  | GetExcludedPlayers gameId questionId =>
      snd (getExcludedPlayers gameId questionId s)
  | HandleTimeSyncRequest clientTimestamp =>
      snd (handleTimeSyncRequest clientTimestamp s)
  | UpdateQuestions qs =>
      {| clock := clock s; ticks := ticks s; activeGames := activeGames s;
         questions := qs; game_results := game_results s;
         onBuzzWinner := onBuzzWinner s; buzzWinnerCalls := buzzWinnerCalls s |}
  | SetOnBuzzWinner installed => set_onBuzzWinner installed s
  end.

(** A fresh service has no game; every other state is reached by calls. *)
Inductive reachable : Service -> Prop :=
| reachable_fresh (s : Service) : activeGames s = ∅ -> reachable s
| reachable_call (s : Service) (c : Call) : reachable s -> reachable (perform c s).

(** The calls that can release the lock of game [gameId]: the exclusion of a
    player, the dispatch of a question, and the creation of the game. *)
Definition releases (gameId : string) (c : Call) : Prop :=
  match c with
  | ExcludePlayer g _ _ | GetCurrentQuestion g | CreateGame g _ _ _ => g = gameId
  | _ => False
  end.

(** The calls that run the election for game [gameId]. *)
Definition evaluates (gameId : string) (c : Call) : Prop :=
  match c with
  | EvaluateBuzzes g _ | BuzzEvaluationTimeout g _ => g = gameId
  | _ => False
  end.

(** ** Scenarios

    Concrete runs of the service, used to exercise the theorems below. *)

Definition run {S A} (c : M S A) (s : S) : S := snd (c s).

Definition demoSettings : Settings :=
  {| mcqDuration := 30000; buzzerDuration := 10000;
     showCorrectAnswer := true; showIntermediateRanking := true |}.

Definition demoQuestions : gmap Z Question :=
  {[ 42 := {| q_id := 42; q_text := "Capital of Peru?"; q_type := BUZZER;
              q_answers := JNull; correct_answer := None;
              q_category := None; q_points := Some 10 |} ;
     7 := {| q_id := 7; q_text := "2 + 2?"; q_type := MCQ;
             q_answers := JArr [JStr "3"; JStr "4"]; correct_answer := Some 1;
             q_category := None; q_points := Some 5 |} ]}.

(** A service with no game; its clock reads 1000, 1001, ... *)
Definition service0 : Service :=
  {| clock := fun n => 1000 + Z.of_nat n; ticks := 0; activeGames := ∅;
     questions := demoQuestions; game_results := [];
     onBuzzWinner := true; buzzWinnerCalls := [] |}.

Definition synced (t : Z) : option Timestamps :=
  Some {| timestamp_local_action := None; timestamp_synced_action := Some t;
          calibrated_latency := None |}.

Definition serviceCreated : Service :=
  run (registerPlayer "g" "B2" "Ada")
    (run (createGame "g" "quiz" [42; 7] demoSettings) service0).

Definition serviceStarted : Service := run (startGame "g") serviceCreated.

(** The question is dispatched at clock reading 1001. *)
Definition serviceAsked : Service := run (getCurrentQuestion "g") serviceStarted.

(** Three buzzes inside one window: B1 at 520 ms, B2 at 505 ms, B3 at 540 ms. *)
Definition serviceBuzzed : Service :=
  run (recordBuzz "g" 42 "B3" (synced 1541))
    (run (recordBuzz "g" 42 "B2" (synced 1506))
       (run (recordBuzz "g" 42 "B1" (synced 1521)) serviceAsked)).

(** The window closes. *)
Definition serviceLocked : Service := run (buzzEvaluationTimeout "g" 42) serviceBuzzed.

(** An exclusion made before the game saw any question or buzz. *)
Definition serviceExcludedEarly : Service :=
  run (excludePlayer "g" 42 "B1") serviceCreated.

(** B2 has answered question 7. *)
Definition serviceAnswered : Service :=
  run (recordAnswer "g" 7 "B2" (JNum 1) (synced 4001)) serviceAsked.

Definition blankGame : Game :=
  {| id := ""; gameName := ""; status := created; settings := demoSettings;
     questionIds := []; currentQuestionIndex := -1; questionStartTime := None;
     players := ∅; currentQuestionAnswers := ∅; currentQuestionBuzzes := None;
     currentQuestionExcluded := None; currentQuestionWinner := None;
     buzzerLocked := false; buzzEvaluationTimer := false;
     startedAt := None; endedAt := None |}.

(** The game "g" of a scenario. *)
Definition gameOf (s : Service) : Game := default blankGame (activeGames s !! "g").

(** A server started in [/srv/quiz] with two jingles on record: one stored
    under the jingle directory, one stored with a path that climbs out of
    it. The console is transport 0, the buzzers are transports 1 and 2. *)
Definition server0 : Server :=
  {| sockets := ∅; angularClient := None; buzzerClients := [];
     db := true; gameService := true; service := serviceAsked;
     jingles :=
       {[ 7 := {| j_id := 7; j_name := "intro"; file_path := "jingles/intro.MP3";
                  j_duration := None; j_description := None |} ;
          8 := {| j_id := 8; j_name := "escape"; file_path := "../../etc/passwd";
                  j_duration := None; j_description := None |} ]};
     files := {[ "/srv/quiz/jingles/intro.MP3" := repeat "A"%byte (100 * 100) ;
                 "/etc/passwd" := repeat "r"%byte 5 ]};
     cwd := "/srv/quiz"; activeJingleStreams := ∅; streams := [] |}.

(** The console and two transports are connected; the first transport has
    registered as buzzer "X". *)
Definition serverOneBuzzer : Server :=
  deliverAll
    [Connection 0 "10.0.0.1"; Received 0 ANGULAR_CONNECT;
     Connection 1 "10.0.0.2"; Connection 2 "10.0.0.3";
     Received 1 (BUZZER_REGISTER "X" None)]
    server0.
(** ** Notions used in the statements

    Abbreviations for expressions of the code, predicates on its states and
    further scenarios. *)

(** A list in ascending order of [key]. *)
Section Ascending.
Context {A : Type} (key : A -> Z).

Inductive ascending : list A -> Prop :=
| ascending_nil : ascending []
| ascending_cons x l :
    (forall y, y ∈ l -> key x <= key y) -> ascending l -> ascending (x :: l).

End Ascending.

(** What [validateBuzz] computes from the game and the question table. *)
Definition validatedPoints (qs : gmap Z Question) (questionId : Z) (isCorrect : bool) : Z :=
  if isCorrect
  then match qs !! questionId with
       | Some q => or_default (q_points q) 10
       | None => 10
       end
  else 0.

Definition validatedTime (game : Game) (buzzerID : string) : Z :=
  match currentQuestionBuzzes game with
  | Some buzzes =>
      match List.find (fun b => bool_decide (Buzz.buzzerID b = buzzerID)) buzzes with
      | Some b => Buzz.responseTime b
      | None => 0
      end
  | None => 0
  end.

(** The value [rawResponseTime] returns when the clock reads [now]. *)
Definition rawTime (timestamps : option Timestamps) (game : Game) (now : Z) : Z :=
  if truthy (synced_action timestamps) && truthy (questionStartTime game)
  then default 0 (synced_action timestamps) - default 0 (questionStartTime game)
  else if truthy (questionStartTime game)
  then now - default 0 (questionStartTime game)
  else 0.

(** Reading the clock moves nothing but the clock. *)
Definition sameStores (s s' : Service) : Prop :=
  clock s' = clock s /\ activeGames s' = activeGames s
  /\ questions s' = questions s /\ game_results s' = game_results s
  /\ onBuzzWinner s' = onBuzzWinner s /\ buzzWinnerCalls s' = buzzWinnerCalls s.

(** The game [recordBuzz] leaves when it accepts. *)
Definition withBuzz (game : Game) (buzzes : list Buzz.t) (entry : Buzz.t) : Game :=
  set_buzzEvaluationTimer true
    (set_currentQuestionBuzzes (Some (buzzes ++ [entry])) game).

Definition duplicateAnswer : AnswerResult :=
  {| ar_isCorrect := false; ar_points := 0; ar_responseTime := 0;
     ar_duplicate := true |}.

(** What the array holds once every eligible entry has been marked. *)
Definition markEligible (excluded : gset string) (buzzes : list Buzz.t) : list Buzz.t :=
  (fun b => if eligible excluded b then Buzz.mark b else b) <$> buzzes.

(** The game [evaluateBuzzes] leaves when it elects [winner]. *)
Definition elected (excluded : gset string) (buzzes : list Buzz.t)
    (winner : Buzz.t) (game : Game) : Game :=
  set_buzzerLocked true
    (set_currentQuestionWinner (Some (Buzz.buzzerID winner))
       (set_currentQuestionBuzzes (Some (markEligible excluded buzzes)) game)).

(** A locked game has a winner and a buzz list, and a game with a buzz list
    has an exclusion set. *)
Definition lockInv (game : Game) : Prop :=
  (buzzerLocked game = true ->
     is_Some (currentQuestionWinner game) /\ is_Some (currentQuestionBuzzes game))
  /\ (is_Some (currentQuestionBuzzes game) -> is_Some (currentQuestionExcluded game)).

Definition gamesInv (s : Service) : Prop :=
  forall gameId game, activeGames s !! gameId = Some game -> lockInv game.

(** How a call relates the game before to the game after. *)
Definition lockStep (gameId : string) (c : Call) (game game' : Game) : Prop :=
  (buzzerLocked game' = buzzerLocked game
   \/ (buzzerLocked game' = false /\ releases gameId c)
   \/ (buzzerLocked game' = true /\ evaluates gameId c))
  /\ lockInv game'.

(** An unprocessed entry from a buzzer that is not excluded. *)
Definition awaiting (excluded : gset string) (b : Buzz.t) : Prop :=
  Buzz.processed b = false /\ Buzz.buzzerID b ∉ excluded.

(** The reading [Date.now()] gives next, and the server once it is taken. *)
Definition timeOf (w : Server) : Z := clock (service w) (ticks (service w)).

Definition ticked (w : Server) : Server :=
  set_service (set_ticks (S (ticks (service w))) (service w)) w.

(** The server once [frame] has been handed to transport [ws]. *)
Definition pushed (ws : nat) (frame : Frame) (w : Server) : Server :=
  set_sockets (alter (fun k => set_sent (sent k ++ [frame]) k) ws (sockets w)) w.

(** What a transport has been sent. *)
Definition sentTo (w : Server) (ws : nat) : list Frame :=
  from_option sent [] (sockets w !! ws).

Fixpoint noSlash (s : string) : Prop :=
  match s with
  | EmptyString => True
  | String c rest => c <> "/"%char /\ noSlash rest
  end.

(** A segment that [normalizeStep] keeps as it is. *)
Definition plain (seg : string) : Prop := seg <> "" /\ seg <> ".".

(** The second transport registers under the identifier "X" of the first. *)
Definition serverDuplicate : Server :=
  deliverAll [Received 2 (BUZZER_REGISTER "X" None)] serverOneBuzzer.

(** The close of the rejected transport is handled. *)
Definition serverDuplicateClosed : Server := deliverAll [Closed 2] serverDuplicate.

(** Buzzer "X" has answered question 7. *)
Definition serverAnswered : Server :=
  deliverAll [Received 1 (ANSWER_MCQ "g" 7 (JNum 1) (synced 4001))] serverOneBuzzer.

(** It answers question 7 again. *)
Definition serverAnsweredTwice : Server :=
  deliverAll [Received 1 (ANSWER_MCQ "g" 7 (JNum 0) (synced 5001))] serverAnswered.

(** The console asks for jingle 8, stored as [../../etc/passwd]. *)
Definition serverEscaped : Server :=
  deliverAll [Received 0 (JINGLE_PLAY "X" 8)] serverOneBuzzer.

(** The file as the read stream cuts it: pieces of [CHUNK_SIZE] bytes, the
    last one possibly shorter. *)
Fixpoint chunked (fuel : nat) (content : list byte) : list (list byte) :=
  match fuel, content with
  | _, [] => []
  | O, _ :: _ => []
  | S fuel', _ :: _ =>
      take CHUNK_SIZE content :: chunked fuel' (drop CHUNK_SIZE content)
  end.

Definition chunks (content : list byte) : list (list byte) :=
  chunked (length content) content.

(** The binary packet of chunk number [index]. *)
Definition packet (jingleId index : Z) (chunk : list byte) : Frame :=
  Binary (le32 jingleId ++ le32 index ++ chunk).

Fixpoint packets (jingleId first : Z) (cs : list (list byte)) : list Frame :=
  match cs with
  | [] => []
  | c :: cs' => packet jingleId first c :: packets jingleId (first + 1) cs'
  end.

(** A stream in flight: stream [sid] is feeding transport [ws] of buzzer
    [buzzerID], which is open and has been sent [out] so far. *)
Definition streaming (w : Server) (sid ws : nat) (buzzerID : string)
    (jingleId fileSize index : Z) (unread : list byte) (out : list Frame) : Prop :=
  streams w !! sid
  = Some {| st_buzzerID := buzzerID; st_jingleId := jingleId; st_ws := ws;
            st_fileSize := fileSize; st_chunkIndex := index; st_unread := unread;
            st_destroyed := false; st_ended := false |}
  /\ (exists k, sockets w !! ws = Some k /\ readyState k = OPEN /\ sent k = out)
  /\ (exists bd, registryGet buzzerID (buzzerClients w) = Some bd /\ bd_ws bd = ws)
  /\ angularClient w <> Some ws.

(** ** The rest of the two services

    [getRanking] of [game.service.js] and the helpers of [time.service.js]
    that the server does not call itself. *)

(** [Math.round(a / n)] for a positive [n] and integers: the nearest integer,
    a half going up. The floating-point quotient rounds to the same integer
    as the exact one as long as [|a| < 2^52]. *)
Definition roundDiv (a n : Z) : Z := (2 * a + n) / (2 * n).

(** An entry of the ranking before it is given its rank. *)
Record RankingEntry : Type := {
  rk_buzzerID : string;
  rk_name : string;
  rk_score : Z;
  rk_correctAnswers : Z;
  rk_totalAnswers : Z;
  rk_totalResponseTime : Z;
  rk_avgResponseTime : Z;
  rk_fastestResponseTime : Z;
  rk_slowestResponseTime : Z
}.

(** The first [map] of [getRanking]. *)
Definition rankingEntry (player : Player.t) : RankingEntry :=
  let avgResponseTime :=
    if 0 <? Player.totalAnswers player
    then roundDiv (Player.totalResponseTime player) (Player.totalAnswers player)
    else 0 in
  let fastestTime :=
    match Player.fastestResponseTime player with
    | None => 0
    | Some fastest => fastest
    end in
  {| rk_buzzerID := Player.buzzerID player;
     rk_name := Player.name player;
     rk_score := Player.score player;
     rk_correctAnswers := Player.correctAnswers player;
     rk_totalAnswers := Player.totalAnswers player;
     rk_totalResponseTime := Player.totalResponseTime player;
     rk_avgResponseTime := avgResponseTime;
     rk_fastestResponseTime := fastestTime;
     rk_slowestResponseTime := Player.slowestResponseTime player |}.

(** The comparator of [getRanking]: the higher score first, then the shorter
    average response time, then the shorter fastest response time. *)
Definition byRank (a b : RankingEntry) : Z :=
  if negb (rk_score b =? rk_score a) then rk_score b - rk_score a
  else if negb (rk_avgResponseTime a =? rk_avgResponseTime b)
  then rk_avgResponseTime a - rk_avgResponseTime b
  else rk_fastestResponseTime a - rk_fastestResponseTime b.

(** [getRanking] from [Array.from(game.players.values())] on: the entries,
    sorted, each with its rank [index + 1]. *)
Definition rankingOf (values : list Player.t) : list (Z * RankingEntry) :=
  imap (fun index player => (Z.of_nat index + 1, player))
    (sort byRank (rankingEntry <$> values)).

(** [calculateOffset]: [Math.round(((T2 - T1) + (T3 - T4)) / 2)] *)
Definition calculateOffset (T1 T2 T3 T4 : Z) : Z :=
  roundDiv ((T2 - T1) + (T3 - T4)) 2.

Record PingResult : Type := {
  pongTimestamp : Z;
  pingTimestamp : Json
}.

Definition handlePing (pingTimestamp : Json) : M Service PingResult :=
  now <- Date_now ;;
  ret {| pongTimestamp := now; pingTimestamp := pingTimestamp |}.

(** [validateTimestamp(timestamp, maxDrift = 60000)] *)
Definition validateTimestamp (timestamp : Z) (maxDrift : option Z) : M Service bool :=
  let maxDrift := default 60000 maxDrift in
  now <- Date_now ;;
  let drift := Z.abs (now - timestamp) in
  if maxDrift <? drift then ret false else ret true.
(** ** Further notions *)

(** The statistics of a player are those of a history of answers with
    response times that are not negative: no answer yet and every figure at
    zero, or at least one answer, the fastest time below the slowest and the
    total between [fastest * answers] and [slowest * answers]. *)
Definition playerInv (p : Player.t) : Prop :=
  0 <= Player.correctAnswers p <= Player.totalAnswers p
  /\ match Player.fastestResponseTime p with
     | None =>
         Player.totalAnswers p = 0 /\ Player.totalResponseTime p = 0
         /\ Player.slowestResponseTime p = 0
     | Some fastest =>
         0 < Player.totalAnswers p
         /\ 0 <= fastest <= Player.slowestResponseTime p
         /\ fastest * Player.totalAnswers p <= Player.totalResponseTime p
            <= Player.slowestResponseTime p * Player.totalAnswers p
     end.

(** Every player is filed under its own identifier and has consistent
    statistics; no recorded buzz has a negative response time, and every
    recorded answer has one between 0 and 120000. *)
Definition statsInv (game : Game) : Prop :=
  (forall buzzerID p, players game !! buzzerID = Some p ->
     Player.buzzerID p = buzzerID /\ playerInv p)
  /\ (forall buzzes b, currentQuestionBuzzes game = Some buzzes -> b ∈ buzzes ->
        0 <= Buzz.responseTime b)
  /\ (forall buzzerID a, currentQuestionAnswers game !! buzzerID = Some a ->
        0 <= Answer.responseTime a <= 120000).

(** Two buzzes with the same response time, 520 ms: B1 arrives first, B3
    second. *)
Definition serviceTied : Service :=
  run (recordBuzz "g" 42 "B3" (synced 1521))
    (run (recordBuzz "g" 42 "B1" (synced 1521)) serviceAsked).

(** The messages [routeMessage] has a case for before identification. *)
Definition preIdentification (message : Message) : bool :=
  match message with
  | ANGULAR_CONNECT | BUZZER_REGISTER _ _ | TIME_SYNC_REQ _ | PING _ => true
  | _ => false
  end.

(** The messages [handleBuzzerMessage] has a case for. *)
Definition buzzerMessage (message : Message) : bool :=
  match message with
  | TIME_SYNC_REQ _ | PING _ | STATUS_UPDATE _ _ _ | ANSWER_MCQ _ _ _ _
  | ANSWER_BUZZER _ _ _ => true
  | _ => false
  end.

(** The messages [handleAngularMessage] has a case for, among those embedded. *)
Definition consoleCommand (message : Message) : bool :=
  match message with
  | REQUEST_BUZZER_LIST | PLAYER_RENAME _ _ | GAME_START _ _ _ | BUZZER_DISCONNECT _
  | BUZZ_CORRECT _ _ _ | JINGLE_PLAY _ _ => true
  | _ => false
  end.

(** [w'] is [w] after one message to the console, when one is open, and
    nothing else: the registry, the streams, the games and every other
    transport are as they were. *)
Definition onlyTellsConsole (type : string) (payload : Json) (w w' : Server) : Prop :=
  buzzerClients w' = buzzerClients w
  /\ angularClient w' = angularClient w
  /\ streams w' = streams w
  /\ activeJingleStreams w' = activeJingleStreams w
  /\ activeGames (service w') = activeGames (service w)
  /\ (forall ws, angularClient w <> Some ws -> sockets w' !! ws = sockets w !! ws)
  /\ (forall c, angularClient w = Some c -> isOpen w c = false ->
        sockets w' !! c = sockets w !! c)
  /\ (forall c, angularClient w = Some c -> isOpen w c = true ->
        exists stamp, sentTo w' c = sentTo w c ++ [Text type stamp payload]).

(** A computation keeps [I]: if [I] holds before, it holds after, whether
    the computation returns or throws. *)
Definition keeps {S A} (I : S -> Prop) (c : M S A) : Prop :=
  forall s, I s -> I (snd (c s)).

(** The jingle streams of [buzzerID] are all dead, and the buzzer is still
    marked as receiving one. *)
Definition stuckStreaming (buzzerID : string) (w : Server) : Prop :=
  buzzerID ∈ activeJingleStreams w
  /\ forall sid t,
       streams w !! sid = Some t -> st_buzzerID t = buzzerID ->
       st_destroyed t || st_ended t = true.

(** Jingle 7 is being streamed to buzzer "X" when its transport closes. *)
Definition serverInterrupted : Server :=
  deliverAll [Received 0 (JINGLE_PLAY "X" 7); Closed 1] serverOneBuzzer.

Definition blankStream : JingleStream :=
  {| st_buzzerID := ""; st_jingleId := 0; st_ws := 0; st_fileSize := 0;
     st_chunkIndex := 0; st_unread := []; st_destroyed := true; st_ended := true |}.

(** The transports a broadcast reaches: those of the registered buzzers that
    are open, in the order of the registry. *)
Definition recipients (w : Server) : list nat :=
  (fun e => bd_ws e.2) <$> List.filter (fun e => isOpen w (bd_ws e.2)) (buzzerClients w).

(** What transport [ws] is sent by a broadcast to [targets] that starts at
    clock position [tick]: one frame for each time it is in [targets], stamped
    with the reading the clock gives when its turn comes. *)
Fixpoint broadcastFrames (clock : nat -> Z) (type : string) (payload : Json)
    (tick : nat) (targets : list nat) (ws : nat) : list Frame :=
  match targets with
  | [] => []
  | target :: rest =>
      (if bool_decide (target = ws) then [Text type (clock tick) payload] else [])
      ++ broadcastFrames clock type payload (S tick) rest ws
  end.

(** Buzzer "X" has buzzed on question 42; the window is open. *)
Definition serverBuzzed : Server :=
  deliverAll [Received 1 (ANSWER_BUZZER "g" 42 (synced 1521))] serverOneBuzzer.

(** A transport that is closing or closed. *)
Definition gone (k : Socket) : Prop :=
  readyState k = CLOSING \/ readyState k = CLOSED.

(** A change of a transport that sends nothing and opens nothing: what was
    sent stays, and the state stays or becomes closing or closed. *)
Definition socketStep (f : Socket -> Socket) : Prop :=
  forall k,
    sent (f k) = sent k
    /\ (readyState (f k) = readyState k \/ gone (f k)).

(** Transport [ws] is closing or closed and has been sent [frames]. *)
Definition silent (ws : nat) (frames : list Frame) (w : Server) : Prop :=
  exists k, sockets w !! ws = Some k /\ gone k /\ sent k = frames.

(** The console has asked the server to disconnect buzzer "X". *)
Definition serverKicked : Server :=
  deliverAll [Received 0 (BUZZER_DISCONNECT "X")] serverOneBuzzer.

(** Transport [k] has identified itself as the buzzer [buzzerID]. *)
Definition identifiedAs (buzzerID : string) (k : Socket) : Prop :=
  _identified k = true /\ _clientType k = Some buzzer /\ _buzzerID k = Some buzzerID.

(** The registry holds each identifier once, and the transport of each entry
    is a transport that has identified itself as this buzzer. *)
Definition registryInv (w : Server) : Prop :=
  NoDup (buzzerClients w).*1
  /\ forall e, e ∈ buzzerClients w ->
       exists k, sockets w !! bd_ws e.2 = Some k /\ identifiedAs e.1 k.

(** A run in which every [connection] event brings a new transport. *)
Fixpoint freshConnections (es : list Event) (w : Server) : Prop :=
  match es with
  | [] => True
  | e :: es' =>
      (forall ws ip, e = Connection ws ip -> sockets w !! ws = None)
      /\ freshConnections es' (snd (deliver e w))
  end.

(** The window of buzzer "X"'s buzz has closed: "X" is the winner of
    question 42 and the buzzers are locked. *)
Definition serverElected : Server := deliverAll [BuzzTimer "g" 42] serverBuzzed.
(** ** The service calls of [handleBuzzReopen]

    What the handler of [BUZZ_REOPEN] does to the game service, without the
    messages it sends afterwards:
    [try { validateBuzz(.., false); excludePlayer(..) } catch (err) {}]
    and then [getExcludedPlayers], whose exception is not caught. *)
Definition reopenCalls (gameId : string) (questionId : Z) (buzzerID : string)
  : M Service (gset string) :=
  try_catch
    (validateBuzz gameId questionId buzzerID false ;;;
     excludePlayer gameId questionId buzzerID)
    (fun _ => ret tt) ;;;
  getExcludedPlayers gameId questionId.

(** * Properties of the game service *)

(** Closed goals are settled by evaluation, one conjunct at a time. *)
Ltac evaluate :=
  repeat match goal with |- _ /\ _ => split end;
  vm_compute; reflexivity.

(** ** Running the monad *)

Lemma getGame_some (s : Service) (gameId : string) (game : Game) :
  activeGames s !! gameId = Some game -> getGame gameId s = (Ok game, s).
Proof. intros H. unfold getGame. by rewrite H. Qed.

Lemma getGame_none (s : Service) (gameId : string) :
  activeGames s !! gameId = None ->
  getGame gameId s = (Throw ("Game not found: " +:+ gameId), s).
Proof. intros H. unfold getGame. by rewrite H. Qed.

Lemma bind_ok {S A B} (c : M S A) (k : A -> M S B) (s s' : S) (a : A) :
  c s = (Ok a, s') -> bind c k s = k a s'.
Proof. intros H. unfold bind. by rewrite H. Qed.

Lemma bind_throw {S A B} (c : M S A) (k : A -> M S B) (s s' : S) (e : string) :
  c s = (Throw e, s') -> bind c k s = (Throw e, s').
Proof. intros H. unfold bind. by rewrite H. Qed.

(** Writing back the object that is already there changes nothing. *)
Lemma putGame_same (s : Service) (gameId : string) (game : Game) :
  activeGames s !! gameId = Some game -> putGame gameId game s = (Ok tt, s).
Proof.
  intros H. unfold putGame, modify. rewrite insert_id by done.
  by destruct s.
Qed.

Lemma putGame_lookup (s : Service) (gameId : string) (game : Game) :
  activeGames (snd (putGame gameId game s)) !! gameId = Some game.
Proof. cbn. apply lookup_insert_eq. Qed.

Lemma putGame_lookup_ne (s : Service) (gameId other : string) (game : Game) :
  gameId <> other ->
  activeGames (snd (putGame gameId game s)) !! other = activeGames s !! other.
Proof. intros. cbn. by apply lookup_insert_ne. Qed.

(** ** The statistics update touches one player and nothing else *)

Lemma updatePlayer_fields (buzzerID : string) (points : Z) (isCorrect : bool)
    (responseTime : Z) (game : Game) :
  updatePlayer buzzerID points isCorrect responseTime game
  = set_players (players (updatePlayer buzzerID points isCorrect responseTime game)) game.
Proof. unfold updatePlayer. destruct (players game !! buzzerID); by destruct game. Qed.

Lemma updatePlayer_lookup (buzzerID : string) (points : Z) (isCorrect : bool)
    (responseTime : Z) (game : Game) :
  players (updatePlayer buzzerID points isCorrect responseTime game) !! buzzerID
  = updateStats points isCorrect responseTime <$> players game !! buzzerID.
Proof.
  unfold updatePlayer. destruct (players game !! buzzerID) eqn:E; cbn.
  - by rewrite lookup_insert_eq.
  - by rewrite E.
Qed.

Lemma updatePlayer_lookup_ne (buzzerID other : string) (points : Z)
    (isCorrect : bool) (responseTime : Z) (game : Game) :
  other <> buzzerID ->
  players (updatePlayer buzzerID points isCorrect responseTime game) !! other
  = players game !! other.
Proof.
  intros Hne. unfold updatePlayer. destruct (players game !! buzzerID); cbn; [|done].
  by rewrite lookup_insert_ne.
Qed.

(** ** [validateBuzz] *)

Lemma validateBuzz_run (s : Service) (gameId : string) (questionId : Z)
    (buzzerID : string) (isCorrect : bool) (game : Game) :
  activeGames s !! gameId = Some game ->
  exists s',
    validateBuzz gameId questionId buzzerID isCorrect s
    = (Ok {| vr_isCorrect := isCorrect;
             vr_points := validatedPoints (questions s) questionId isCorrect;
             vr_responseTime := validatedTime game buzzerID |}, s')
    /\ activeGames s'
       = <[gameId := updatePlayer buzzerID
                       (validatedPoints (questions s) questionId isCorrect)
                       isCorrect (validatedTime game buzzerID) game]> (activeGames s)
    /\ clock s' = clock s /\ ticks s' = ticks s /\ questions s' = questions s
    /\ onBuzzWinner s' = onBuzzWinner s /\ buzzWinnerCalls s' = buzzWinnerCalls s.
Proof.
  intros Hg. unfold validateBuzz.
  rewrite (bind_ok _ _ _ _ _ (getGame_some _ _ _ Hg)).
  unfold bind, gets, insertResult, modify, putGame, modify, ret; cbn.
  unfold validatedPoints, validatedTime.
  destruct (currentQuestionBuzzes game) as [buzzes|].
  - destruct (List.find _ buzzes); eexists; (split; [reflexivity|]);
      cbn; repeat split; reflexivity.
  - eexists; (split; [reflexivity|]); cbn; repeat split; reflexivity.
Qed.

(** ** Response times *)

Lemma sameStores_refl (s : Service) : sameStores s s.
Proof. by repeat split. Qed.

Lemma Date_now_run (s : Service) :
  Date_now s = (Ok (clock s (ticks s)), set_ticks (S (ticks s)) s).
Proof. reflexivity. Qed.

Lemma rawResponseTime_run (timestamps : option Timestamps) (game : Game) (s : Service) :
  exists s',
    rawResponseTime timestamps game s
    = (Ok (rawTime timestamps game (clock s (ticks s))), s')
    /\ sameStores s s'.
Proof.
  unfold rawResponseTime, rawTime.
  destruct (truthy (synced_action timestamps) && truthy (questionStartTime game)).
  - exists s. split; [reflexivity | apply sameStores_refl].
  - destruct (truthy (questionStartTime game)).
    + eexists. split; [reflexivity | by repeat split].
    + exists s. split; [reflexivity | apply sameStores_refl].
Qed.

Lemma rawTime_init (timestamps : option Timestamps) (game : Game) (now : Z) :
  rawTime timestamps (initBuzzTracking game) now = rawTime timestamps game now.
Proof.
  unfold rawTime, initBuzzTracking. by destruct (currentQuestionBuzzes game).
Qed.

Lemma clampAnswerTime_range (raw : Z) : 0 <= clampAnswerTime raw <= 120000.
Proof.
  unfold clampAnswerTime.
  destruct (Z.ltb_spec raw 0);
    [destruct (Z.ltb_spec 120000 0) | destruct (Z.ltb_spec 120000 raw)]; lia.
Qed.

Lemma clampAnswerTime_cases (raw : Z) :
  clampAnswerTime raw
  = if raw <? 0 then 0 else if 120000 <? raw then 120000 else raw.
Proof.
  unfold clampAnswerTime. destruct (Z.ltb_spec raw 0); [|done].
  by destruct (Z.ltb_spec 120000 0); [lia|].
Qed.

(** ** [recordBuzz], case by case *)

(** "Has an unprocessed entry": the test of [find]. *)
Lemma find_unprocessed_some (buzzerID : string) (buzzes : list Buzz.t) :
  (exists b, b ∈ buzzes /\ Buzz.buzzerID b = buzzerID /\ Buzz.processed b = false)
  <-> is_Some (List.find (unprocessedFrom buzzerID) buzzes).
Proof.
  split.
  - intros (b & Hin & Hid & Hp).
    destruct (List.find _ buzzes) eqn:E; [by eexists|].
    apply list_elem_of_In in Hin.
    pose proof (find_none _ _ E b Hin) as Hn.
    unfold unprocessedFrom in Hn. rewrite Hp in Hn.
    rewrite bool_decide_eq_true_2 in Hn by done. discriminate.
  - intros [b E]. apply find_some in E as [Hin Hb].
    unfold unprocessedFrom in Hb. apply andb_prop in Hb as [H1 H2].
    exists b. split; [by apply list_elem_of_In|].
    split; [by apply bool_decide_eq_true_1 in H1 | by destruct (Buzz.processed b)].
Qed.

Lemma recordBuzz_excluded (s : Service) (gameId : string) (questionId : Z)
    (buzzerID : string) (timestamps : option Timestamps)
    (game : Game) (buzzes : list Buzz.t) (excluded : gset string) :
  activeGames s !! gameId = Some game ->
  currentQuestionBuzzes game = Some buzzes ->
  currentQuestionExcluded game = Some excluded ->
  buzzerID ∈ excluded ->
  recordBuzz gameId questionId buzzerID timestamps s
  = (Ok (buzzIgnored "Joueur exclu pour cette question"), s).
Proof.
  intros Hg Hb He Hin. unfold recordBuzz.
  rewrite (bind_ok _ _ _ _ _ (getGame_some _ _ _ Hg)).
  unfold initBuzzTracking. rewrite Hb.
  rewrite (bind_ok _ _ _ _ _ (putGame_same _ _ _ Hg)).
  rewrite He. by rewrite bool_decide_eq_true_2.
Qed.

Lemma recordBuzz_already (s : Service) (gameId : string) (questionId : Z)
    (buzzerID : string) (timestamps : option Timestamps)
    (game : Game) (buzzes : list Buzz.t) (excluded : gset string) :
  activeGames s !! gameId = Some game ->
  currentQuestionBuzzes game = Some buzzes ->
  currentQuestionExcluded game = Some excluded ->
  buzzerID ∉ excluded ->
  is_Some (List.find (unprocessedFrom buzzerID) buzzes) ->
  recordBuzz gameId questionId buzzerID timestamps s
  = (Ok (buzzIgnored "Déjà buzzé"), s).
Proof.
  intros Hg Hb He Hin [b Hf]. unfold recordBuzz.
  rewrite (bind_ok _ _ _ _ _ (getGame_some _ _ _ Hg)).
  unfold initBuzzTracking. rewrite Hb.
  rewrite (bind_ok _ _ _ _ _ (putGame_same _ _ _ Hg)).
  rewrite He, bool_decide_eq_false_2 by done.
  rewrite Hb. cbn [default from_option Datatypes.id]. by rewrite Hf.
Qed.

Lemma recordBuzz_locked (s : Service) (gameId : string) (questionId : Z)
    (buzzerID : string) (timestamps : option Timestamps)
    (game : Game) (buzzes : list Buzz.t) (excluded : gset string) :
  activeGames s !! gameId = Some game ->
  currentQuestionBuzzes game = Some buzzes ->
  currentQuestionExcluded game = Some excluded ->
  buzzerID ∉ excluded ->
  List.find (unprocessedFrom buzzerID) buzzes = None ->
  buzzerLocked game = true ->
  recordBuzz gameId questionId buzzerID timestamps s
  = (Ok (buzzIgnored "Buzzers verrouillés"), s).
Proof.
  intros Hg Hb He Hin Hf Hl. unfold recordBuzz.
  rewrite (bind_ok _ _ _ _ _ (getGame_some _ _ _ Hg)).
  unfold initBuzzTracking. rewrite Hb.
  rewrite (bind_ok _ _ _ _ _ (putGame_same _ _ _ Hg)).
  rewrite He, bool_decide_eq_false_2 by done.
  rewrite Hb. cbn [default from_option Datatypes.id]. by rewrite Hf, Hl.
Qed.

Lemma recordBuzz_accepted (s : Service) (gameId : string) (questionId : Z)
    (buzzerID : string) (timestamps : option Timestamps)
    (game : Game) (buzzes : list Buzz.t) (excluded : gset string) :
  activeGames s !! gameId = Some game ->
  currentQuestionBuzzes game = Some buzzes ->
  currentQuestionExcluded game = Some excluded ->
  buzzerID ∉ excluded ->
  List.find (unprocessedFrom buzzerID) buzzes = None ->
  buzzerLocked game = false ->
  exists now s',
    let responseTime := clampBuzzTime (rawTime timestamps game (clock s (ticks s))) in
    recordBuzz gameId questionId buzzerID timestamps s
    = (Ok (buzzPending responseTime (length buzzes + 1)), s')
    /\ activeGames s'
       = <[gameId := withBuzz game buzzes
                       (Buzz.mk buzzerID responseTime timestamps now false)]>
           (activeGames s)
    /\ questions s' = questions s /\ game_results s' = game_results s
    /\ onBuzzWinner s' = onBuzzWinner s /\ buzzWinnerCalls s' = buzzWinnerCalls s.
Proof.
  intros Hg Hb He Hin Hf Hl.
  destruct (rawResponseTime_run timestamps game s) as (s1 & Hraw & Hs1).
  destruct Hs1 as (Hc1 & Ha1 & Hq1 & Hr1 & Ho1 & Hw1).
  exists (clock s1 (ticks s1)). eexists. cbn zeta.
  unfold recordBuzz.
  rewrite (bind_ok _ _ _ _ _ (getGame_some _ _ _ Hg)).
  unfold initBuzzTracking. rewrite Hb.
  rewrite (bind_ok _ _ _ _ _ (putGame_same _ _ _ Hg)).
  rewrite He, bool_decide_eq_false_2 by done.
  rewrite Hb. cbn [default from_option Datatypes.id]. rewrite Hf, Hl.
  rewrite (bind_ok _ _ _ _ _ Hraw).
  rewrite (bind_ok _ _ _ _ _ (Date_now_run s1)).
  unfold bind, putGame, modify, ret. cbn.
  rewrite length_app. cbn [length]. rewrite Ha1.
  split; [reflexivity|]. by repeat split.
Qed.

(** ** [recordAnswer], case by case *)

Lemma recordAnswer_duplicate (s : Service) (gameId : string) (questionId : Z)
    (buzzerID : string) (answer : Json) (timestamps : option Timestamps)
    (game : Game) (previous : Answer.t) :
  activeGames s !! gameId = Some game ->
  currentQuestionAnswers game !! buzzerID = Some previous ->
  recordAnswer gameId questionId buzzerID answer timestamps s
  = (Ok duplicateAnswer, s).
Proof.
  intros Hg Ha. unfold recordAnswer.
  rewrite (bind_ok _ _ _ _ _ (getGame_some _ _ _ Hg)). by rewrite Ha.
Qed.

Lemma recordAnswer_fresh (s : Service) (gameId : string) (questionId : Z)
    (buzzerID : string) (answer : Json) (timestamps : option Timestamps)
    (game : Game) (question : Question) :
  activeGames s !! gameId = Some game ->
  currentQuestionAnswers game !! buzzerID = None ->
  questions s !! questionId = Some question ->
  exists r s',
    recordAnswer gameId questionId buzzerID answer timestamps s = (Ok r, s')
    /\ ar_duplicate r = false
    /\ ar_responseTime r
       = clampAnswerTime (rawTime timestamps game (clock s (ticks s))).
Proof.
  intros Hg Ha Hq.
  destruct (rawResponseTime_run timestamps game s) as (s1 & Hraw & Hs1).
  destruct Hs1 as (Hc1 & Ha1 & Hq1 & Hr1 & Ho1 & Hw1).
  unfold recordAnswer.
  rewrite (bind_ok _ _ _ _ _ (getGame_some _ _ _ Hg)). rewrite Ha.
  unfold gets at 1. unfold bind at 1. rewrite Hq.
  rewrite (bind_ok _ _ _ _ _ Hraw).
  rewrite (bind_ok _ _ _ _ _ (Date_now_run s1)).
  unfold bind, putGame, insertResult, modify, ret. cbn.
  eexists _, _. split; [reflexivity|]. by split.
Qed.

(** ** The stable sort *)

Section SortFacts.
Context {A : Type} (key : A -> Z).

(** The comparator [(a, b) => key(a) - key(b)]. *)
Let cmp (a b : A) : Z := key a - key b.

Lemma insert_sorted_perm (x : A) (l : list A) :
  insert_sorted cmp x l ≡ₚ x :: l.
Proof.
  induction l as [|y l IH]; cbn; [done|].
  destruct (0 <? cmp x y); [|done].
  rewrite IH. apply Permutation_swap.
Qed.

Lemma sort_perm (l : list A) : sort cmp l ≡ₚ l.
Proof.
  induction l as [|x l IH]; cbn; [done|].
  fold (sort cmp l). by rewrite insert_sorted_perm, IH.
Qed.

Lemma insert_sorted_ascending (x : A) (l : list A) :
  ascending key l -> ascending key (insert_sorted cmp x l).
Proof.
  induction 1 as [|y l Hy Hl IH]; cbn.
  - constructor; [|constructor]. intros y Hin. by apply elem_of_nil in Hin.
  - unfold cmp at 1. destruct (Z.ltb_spec 0 (key x - key y)).
    + constructor; [|exact IH].
      intros z Hz. rewrite insert_sorted_perm in Hz.
      apply elem_of_cons in Hz as [->|Hz]; [lia | by apply Hy].
    + constructor; [|by constructor].
      intros z Hz. apply elem_of_cons in Hz as [->|Hz]; [lia|].
      specialize (Hy z Hz). lia.
Qed.

Lemma sort_ascending (l : list A) : ascending key (sort cmp l).
Proof.
  induction l as [|x l IH]; cbn; [constructor|].
  by apply insert_sorted_ascending.
Qed.

(** The first element of the sorted array has the least key of the array. *)
Lemma sort_head_least (l : list A) (w : A) (others : list A) :
  sort cmp l = w :: others ->
  w ∈ l /\ forall x, x ∈ l -> key w <= key x.
Proof.
  intros E. pose proof (sort_ascending l) as Hasc.
  pose proof (sort_perm l) as Hperm. rewrite E in Hasc, Hperm.
  split.
  - rewrite <- Hperm. apply elem_of_cons. by left.
  - intros x Hx. rewrite <- Hperm in Hx.
    inversion Hasc as [|? ? Hle _]; subst.
    apply elem_of_cons in Hx as [->|Hx]; [lia | by apply Hle].
Qed.

Lemma sort_nil_inv (l : list A) : sort cmp l = [] -> l = [].
Proof.
  intros E. pose proof (sort_perm l) as Hperm. rewrite E in Hperm.
  by apply Permutation_nil in Hperm.
Qed.
End SortFacts.

(** ** Marking through references *)

Lemma elem_of_refs (buzzes : list Buzz.t) (i : nat) (b : Buzz.t) :
  (i, b) ∈ refs buzzes <-> buzzes !! i = Some b.
Proof.
  unfold refs. rewrite elem_of_lookup_imap. split.
  - intros (j & y & [= -> ->] & H). exact H.
  - intros H. by exists i, b.
Qed.

Lemma mark_mark (b : Buzz.t) : Buzz.mark (Buzz.mark b) = Buzz.mark b.
Proof. reflexivity. Qed.

Lemma foldl_markAt_lookup (rs : list (nat * Buzz.t)) (buzzes : list Buzz.t) (i : nat) :
  foldl markAt buzzes rs !! i
  = if bool_decide (i ∈ rs.*1) then Buzz.mark <$> buzzes !! i else buzzes !! i.
Proof.
  revert buzzes. induction rs as [|[j b] rs IH]; intros buzzes; cbn [foldl].
  - rewrite bool_decide_eq_false_2; [done|]. apply not_elem_of_nil.
  - rewrite IH. unfold markAt. cbn [fst fmap list_fmap].
    destruct (decide (i = j)) as [->|Hne].
    + rewrite list_lookup_alter_eq.
      rewrite (bool_decide_eq_true_2 (j ∈ j :: rs.*1)) by (apply elem_of_cons; by left).
      destruct (bool_decide (j ∈ rs.*1)); [|done].
      by destruct (buzzes !! j).
    + rewrite list_lookup_alter_ne by done.
      destruct (bool_decide (i ∈ rs.*1)) eqn:E.
      * apply bool_decide_eq_true_1 in E.
        rewrite bool_decide_eq_true_2; [done|]. apply elem_of_cons. by right.
      * apply bool_decide_eq_false_1 in E.
        rewrite bool_decide_eq_false_2; [done|].
        intros [?|?]%elem_of_cons; [done|contradiction].
Qed.

Lemma elem_of_pending (excluded : gset string) (buzzes : list Buzz.t)
    (i : nat) (b : Buzz.t) :
  (i, b) ∈ List.filter (fun r => eligible excluded r.2) (refs buzzes)
  <-> buzzes !! i = Some b /\ eligible excluded b = true.
Proof.
  rewrite list_elem_of_In, filter_In, <- list_elem_of_In, elem_of_refs. done.
Qed.

Lemma mark_sorted_pending (excluded : gset string) (buzzes : list Buzz.t)
    (sorted : list (nat * Buzz.t)) :
  sorted ≡ₚ List.filter (fun r => eligible excluded r.2) (refs buzzes) ->
  foldl markAt buzzes sorted = markEligible excluded buzzes.
Proof.
  intros Hperm. apply list_eq. intros i.
  rewrite foldl_markAt_lookup. unfold markEligible. rewrite list_lookup_fmap.
  destruct (buzzes !! i) as [b|] eqn:Hb; cbn.
  - destruct (eligible excluded b) eqn:He.
    + rewrite bool_decide_eq_true_2; [done|].
      apply list_elem_of_fmap. exists (i, b). split; [done|].
      rewrite Hperm. by apply elem_of_pending.
    + rewrite bool_decide_eq_false_2; [done|].
      intros ([j b'] & -> & Hin)%list_elem_of_fmap.
      rewrite Hperm in Hin. apply elem_of_pending in Hin as [Hl He'].
      cbn in Hb. congruence.
  - by destruct (bool_decide _).
Qed.

(** ** [evaluateBuzzes] *)

Lemma eligible_true (excluded : gset string) (b : Buzz.t) :
  eligible excluded b = true
  <-> Buzz.processed b = false /\ Buzz.buzzerID b ∉ excluded.
Proof.
  unfold eligible. rewrite andb_true_iff, !negb_true_iff, bool_decide_eq_false.
  done.
Qed.

Lemma evaluateBuzzes_locked (s : Service) (gameId : string) (questionId : Z)
    (game : Game) :
  activeGames s !! gameId = Some game ->
  buzzerLocked game = true ->
  evaluateBuzzes gameId questionId s = (Ok tt, s).
Proof.
  intros Hg Hl. unfold evaluateBuzzes.
  rewrite (bind_ok _ _ _ _ _ (getGame_some _ _ _ Hg)).
  destruct (currentQuestionBuzzes game); [|done]. by rewrite Hl.
Qed.

Lemma evaluateBuzzes_nobody (s : Service) (gameId : string) (questionId : Z)
    (game : Game) (buzzes : list Buzz.t) (excluded : gset string) :
  activeGames s !! gameId = Some game ->
  currentQuestionBuzzes game = Some buzzes ->
  currentQuestionExcluded game = Some excluded ->
  (forall b, b ∈ buzzes -> eligible excluded b = false) ->
  evaluateBuzzes gameId questionId s = (Ok tt, s).
Proof.
  intros Hg Hb He Hnone. unfold evaluateBuzzes.
  rewrite (bind_ok _ _ _ _ _ (getGame_some _ _ _ Hg)).
  rewrite Hb, He. destruct (buzzerLocked game); [done|].
  destruct (List.filter _ (refs buzzes)) as [|[i b] l] eqn:E; [done|].
  assert ((i, b) ∈ List.filter (fun r => eligible excluded r.2) (refs buzzes)) as Hin
    by (rewrite E; apply elem_of_cons; by left).
  apply elem_of_pending in Hin as [Hl Helig].
  apply list_elem_of_lookup_2 in Hl. rewrite (Hnone b Hl) in Helig. discriminate.
Qed.

Lemma evaluateBuzzes_elects (s : Service) (gameId : string) (questionId : Z)
    (game : Game) (buzzes : list Buzz.t) (excluded : gset string) :
  activeGames s !! gameId = Some game ->
  currentQuestionBuzzes game = Some buzzes ->
  currentQuestionExcluded game = Some excluded ->
  buzzerLocked game = false ->
  (exists b, b ∈ buzzes /\ eligible excluded b = true) ->
  exists winner s',
    evaluateBuzzes gameId questionId s = (Ok tt, s')
    /\ winner ∈ buzzes /\ eligible excluded winner = true
    /\ (forall b, b ∈ buzzes -> eligible excluded b = true ->
          Buzz.responseTime winner <= Buzz.responseTime b)
    /\ activeGames s' = <[gameId := elected excluded buzzes winner game]> (activeGames s)
    /\ buzzWinnerCalls s'
       = buzzWinnerCalls s
         ++ (if onBuzzWinner s then [(gameId, questionId, Buzz.mark winner)] else [])
    /\ clock s' = clock s /\ ticks s' = ticks s /\ questions s' = questions s
    /\ game_results s' = game_results s /\ onBuzzWinner s' = onBuzzWinner s.
Proof.
  intros Hg Hb He Hl (b0 & Hin0 & Hel0).
  set (pending := List.filter (fun r => eligible excluded r.2) (refs buzzes)).
  apply list_elem_of_lookup_1 in Hin0 as [i0 Hi0].
  assert ((i0, b0) ∈ pending) as Hp0 by by apply elem_of_pending.
  destruct (sort byResponseTime pending) as [|[iw winner] others] eqn:Esort.
  { apply (sort_nil_inv (fun r => Buzz.responseTime r.2)) in Esort.
    rewrite Esort in Hp0. by apply elem_of_nil in Hp0. }
  pose proof (sort_head_least (fun r => Buzz.responseTime r.2) pending _ _ Esort)
    as [Hwin Hleast].
  assert ((iw, winner) :: others ≡ₚ pending) as Hperm.
  { rewrite <- Esort. apply (sort_perm (fun r => Buzz.responseTime r.2)). }
  apply elem_of_pending in Hwin as [Hiw Helw].
  assert (foldl markAt (markAt buzzes (iw, winner)) others
          = markEligible excluded buzzes) as Hmarked.
  { change (foldl markAt (markAt buzzes (iw, winner)) others)
      with (foldl markAt buzzes ((iw, winner) :: others)).
    by apply mark_sorted_pending. }
  assert ((length pending =? 0)%nat = false) as Hlen.
  { apply Nat.eqb_neq. intros Hz. apply nil_length_inv in Hz.
    rewrite Hz in Hp0. by apply elem_of_nil in Hp0. }
  assert (forall b, b ∈ buzzes -> eligible excluded b = true ->
            Buzz.responseTime winner <= Buzz.responseTime b) as Hmin.
  { intros b Hin Hel. apply list_elem_of_lookup_1 in Hin as [i Hi].
    apply (Hleast (i, b)). by apply elem_of_pending. }
  apply list_elem_of_lookup_2 in Hiw.
  exists winner.
  destruct (onBuzzWinner s) eqn:Hcb; eexists;
    (split; [|split; [exact Hiw|split; [exact Helw|split; [exact Hmin|]]]]).
  1,3: unfold evaluateBuzzes;
       rewrite (bind_ok _ _ _ _ _ (getGame_some _ _ _ Hg));
       rewrite Hb, Hl, He; fold pending; rewrite Hlen, Esort;
       unfold bind, putGame, modify, gets, when, ret; cbn; rewrite Hcb;
       reflexivity.
  all: change (markAt buzzes (iw, winner)) with (alter Buzz.mark iw buzzes) in Hmarked;
       cbn; rewrite insert_insert_eq, Hmarked, ?app_nil_r; by repeat split.
Qed.

(** ** The lock invariant *)

Ltac run_monad :=
  unfold bind, ret, throw, gets, modify, when, putGame, getGame, Date_now,
    insertResult, rawResponseTime in *; cbn in *.

Ltac lookup_game g' Hg' :=
  repeat match type of Hg' with
  | <[?k := _]> _ !! ?k = Some _ => rewrite lookup_insert_eq in Hg'
  | <[?k := _]> _ !! ?j = Some _ =>
      destruct (decide (k = j)) as [->|];
      [rewrite lookup_insert_eq in Hg' | rewrite lookup_insert_ne in Hg' by done]
  end.

Lemma lockInv_initBuzzTracking (game : Game) :
  lockInv game -> lockInv (initBuzzTracking game).
Proof.
  intros H. unfold initBuzzTracking.
  destruct (currentQuestionBuzzes game) eqn:E; [exact H|].
  split; cbn; [intros; discriminate|]. intros _. by eexists.
Qed.

Lemma lockInv_updatePlayer (b : string) (p : Z) (c : bool) (t : Z) (game : Game) :
  lockInv game -> lockInv (updatePlayer b p c t game).
Proof. unfold updatePlayer. by destruct (players game !! b). Qed.

Lemma locked_updatePlayer (b : string) (p : Z) (c : bool) (t : Z) (game : Game) :
  buzzerLocked (updatePlayer b p c t game) = buzzerLocked game.
Proof. unfold updatePlayer. by destruct (players game !! b). Qed.

(** What a call can do to the map of games. *)
Lemma recordAnswer_games (s : Service) (gameId : string) (questionId : Z)
    (buzzerID : string) (answer : Json) (timestamps : option Timestamps) :
  activeGames (snd (recordAnswer gameId questionId buzzerID answer timestamps s))
  = activeGames s
  \/ exists game answers points isCorrect responseTime,
       activeGames s !! gameId = Some game
       /\ activeGames (snd (recordAnswer gameId questionId buzzerID answer timestamps s))
          = <[gameId := updatePlayer buzzerID points isCorrect responseTime
                          (set_currentQuestionAnswers answers game)]> (activeGames s).
Proof.
  remember (recordAnswer gameId questionId buzzerID answer timestamps s) as r eqn:Hr.
  unfold recordAnswer in Hr.
  destruct (activeGames s !! gameId) as [game|] eqn:Hg.
  2:{ left. rewrite (bind_throw _ _ _ _ _ (getGame_none _ _ Hg)) in Hr. by subst r. }
  rewrite (bind_ok _ _ _ _ _ (getGame_some _ _ _ Hg)) in Hr.
  destruct (currentQuestionAnswers game !! buzzerID); [left; by subst r|].
  unfold gets at 1 in Hr. unfold bind at 1 in Hr.
  destruct (questions s !! questionId) as [q|]; [|left; by subst r].
  destruct (rawResponseTime_run timestamps game s) as (s1 & Hraw & Hs1).
  destruct Hs1 as (Hc1 & Ha1 & Hq1 & Hr1 & Ho1 & Hw1).
  rewrite (bind_ok _ _ _ _ _ Hraw) in Hr.
  rewrite (bind_ok _ _ _ _ _ (Date_now_run s1)) in Hr.
  unfold bind, putGame, insertResult, modify, ret in Hr. cbn in Hr.
  rewrite insert_insert_eq, Ha1 in Hr.
  right. exists game. eexists _, _, _, _. split; [done|].
  subst r. reflexivity.
Qed.

Lemma recordBuzz_games (s : Service) (gameId : string) (questionId : Z)
    (buzzerID : string) (timestamps : option Timestamps) :
  activeGames (snd (recordBuzz gameId questionId buzzerID timestamps s))
  = activeGames s
  \/ exists game,
       activeGames s !! gameId = Some game
       /\ (activeGames (snd (recordBuzz gameId questionId buzzerID timestamps s))
           = <[gameId := initBuzzTracking game]> (activeGames s)
           \/ exists buzzes entry,
                currentQuestionBuzzes (initBuzzTracking game) = Some buzzes
                /\ buzzerLocked (initBuzzTracking game) = false
                /\ activeGames (snd (recordBuzz gameId questionId buzzerID timestamps s))
                   = <[gameId := withBuzz (initBuzzTracking game) buzzes entry]>
                       (activeGames s)).
Proof.
  remember (recordBuzz gameId questionId buzzerID timestamps s) as r eqn:Hr.
  unfold recordBuzz in Hr.
  destruct (activeGames s !! gameId) as [game|] eqn:Hg.
  2:{ left. rewrite (bind_throw _ _ _ _ _ (getGame_none _ _ Hg)) in Hr. by subst r. }
  rewrite (bind_ok _ _ _ _ _ (getGame_some _ _ _ Hg)) in Hr.
  right. exists game. split; [done|].
  set (s1 := snd (putGame gameId (initBuzzTracking game) s)) in *.
  assert (putGame gameId (initBuzzTracking game) s = (Ok tt, s1)) as Hput by reflexivity.
  rewrite (bind_ok _ _ _ _ _ Hput) in Hr.
  destruct (currentQuestionExcluded (initBuzzTracking game)) as [excluded|];
    [|left; by subst r].
  destruct (bool_decide (buzzerID ∈ excluded)); [left; by subst r|].
  destruct (currentQuestionBuzzes (initBuzzTracking game)) as [buzzes|] eqn:Hb.
  2:{ exfalso. unfold initBuzzTracking in Hb.
      by destruct (currentQuestionBuzzes game) eqn:E; rewrite ?E in Hb. }
  cbn [default from_option Datatypes.id] in Hr.
  destruct (List.find _ buzzes); [left; by subst r|].
  destruct (buzzerLocked (initBuzzTracking game)) eqn:Hl; [left; by subst r|].
  destruct (rawResponseTime_run timestamps (initBuzzTracking game) s1) as (s2 & Hraw & Hs2).
  destruct Hs2 as (Hc2 & Ha2 & Hq2 & Hr2 & Ho2 & Hw2).
  rewrite (bind_ok _ _ _ _ _ Hraw) in Hr.
  rewrite (bind_ok _ _ _ _ _ (Date_now_run s2)) in Hr.
  unfold bind, putGame, modify, ret in Hr. cbn in Hr.
  rewrite Ha2 in Hr. subst s1. cbn in Hr. rewrite insert_insert_eq in Hr.
  right. eexists buzzes, _. split; [done|]. split; [done|].
  subst r. reflexivity.
Qed.


Lemma nextQuestion_games (s : Service) (gameId : string) :
  activeGames (snd (nextQuestion gameId s)) = activeGames s
  \/ exists game game1,
       activeGames s !! gameId = Some game
       /\ activeGames (snd (nextQuestion gameId s)) = <[gameId := game1]> (activeGames s)
       /\ buzzerLocked game1 = buzzerLocked game
       /\ currentQuestionWinner game1 = currentQuestionWinner game
       /\ currentQuestionBuzzes game1 = currentQuestionBuzzes game
       /\ currentQuestionExcluded game1 = currentQuestionExcluded game.
Proof.
  remember (nextQuestion gameId s) as r eqn:Hr. unfold nextQuestion in Hr.
  destruct (activeGames s !! gameId) as [game|] eqn:Hg.
  2:{ left. rewrite (bind_throw _ _ _ _ _ (getGame_none _ _ Hg)) in Hr. by subst r. }
  rewrite (bind_ok _ _ _ _ _ (getGame_some _ _ _ Hg)) in Hr.
  right. exists game.
  unfold bind at 1 in Hr. unfold putGame at 1, modify at 1 in Hr.
  destruct (_ <=? _) in Hr.
  - unfold endGame in Hr.
    rewrite (bind_ok _ _ _ _ _ (getGame_some _ _ _ (lookup_insert_eq _ _ _))) in Hr.
    unfold bind, Date_now, putGame, modify, ret in Hr. cbn in Hr.
    rewrite insert_insert_eq in Hr. eexists. split; [done|].
    subst r. by repeat split.
  - eexists. split; [done|]. subst r. by repeat split.
Qed.

(** The election either leaves the games as they are or locks one game. *)
Lemma evaluateBuzzes_games (s : Service) (gameId : string) (questionId : Z) :
  activeGames (snd (evaluateBuzzes gameId questionId s)) = activeGames s
  \/ exists game buzzes excluded winner,
       activeGames s !! gameId = Some game
       /\ currentQuestionBuzzes game = Some buzzes
       /\ currentQuestionExcluded game = Some excluded
       /\ fst (evaluateBuzzes gameId questionId s) = Ok tt
       /\ activeGames (snd (evaluateBuzzes gameId questionId s))
          = <[gameId := elected excluded buzzes winner game]> (activeGames s).
Proof.
  destruct (activeGames s !! gameId) as [game|] eqn:Hg.
  2:{ left. unfold evaluateBuzzes.
      by rewrite (bind_throw _ _ _ _ _ (getGame_none _ _ Hg)). }
  destruct (buzzerLocked game) eqn:Hl.
  { left. by rewrite (evaluateBuzzes_locked s gameId questionId game Hg Hl). }
  destruct (currentQuestionBuzzes game) as [buzzes|] eqn:Hb.
  2:{ left. unfold evaluateBuzzes.
      rewrite (bind_ok _ _ _ _ _ (getGame_some _ _ _ Hg)). by rewrite Hb. }
  destruct (currentQuestionExcluded game) as [excluded|] eqn:He.
  2:{ left. unfold evaluateBuzzes.
      rewrite (bind_ok _ _ _ _ _ (getGame_some _ _ _ Hg)). rewrite Hb, Hl, He.
      by destruct (existsb _ buzzes). }
  destruct (existsb (eligible excluded) buzzes) eqn:Hex.
  - apply existsb_exists in Hex as (b & Hin & Hel). apply list_elem_of_In in Hin.
    destruct (evaluateBuzzes_elects s gameId questionId game buzzes excluded
                Hg Hb He Hl (ex_intro _ b (conj Hin Hel)))
      as (winner & s' & Hrun & _ & _ & _ & Hgames & _).
    right. exists game, buzzes, excluded, winner. rewrite Hrun. by repeat split.
  - left. rewrite (evaluateBuzzes_nobody s gameId questionId game buzzes excluded Hg Hb He);
      [done|].
    intros b Hin. apply list_elem_of_In in Hin.
    destruct (eligible excluded b) eqn:E; [|done].
    assert (existsb (eligible excluded) buzzes = true) as Hyes
      by (apply existsb_exists; by exists b).
    congruence.
Qed.

Lemma locked_initBuzzTracking (game : Game) :
  lockInv game -> buzzerLocked (initBuzzTracking game) = buzzerLocked game.
Proof.
  intros [H1 _]. unfold initBuzzTracking.
  destruct (currentQuestionBuzzes game) eqn:E; [done|]. cbn.
  destruct (buzzerLocked game) eqn:El; [|done].
  destruct (H1 eq_refl) as [_ [? ?]]. congruence.
Qed.

Lemma lockStep_same (gameId : string) (c : Call) (game : Game) :
  lockInv game -> lockStep gameId c game game.
Proof. intros H. split; [by left | exact H]. Qed.

Lemma lockInv_elected (excluded : gset string) (buzzes : list Buzz.t)
    (winner : Buzz.t) (game : Game) :
  currentQuestionExcluded game = Some excluded ->
  lockInv (elected excluded buzzes winner game).
Proof.
  intros He. split; cbn.
  - intros _. split; by eexists.
  - intros _. rewrite He. by eexists.
Qed.

Ltac split_run H :=
  repeat match type of H with
  | context [match activeGames ?s !! ?k with _ => _ end] =>
      destruct (activeGames s !! k) eqn:?; cbn in H
  | context [match ?x with _ => _ end] => destruct x eqn:?; cbn in H
  | context [if ?x then _ else _] => destruct x eqn:?; cbn in H
  end.

Ltac unchanged Hg Hg' :=
  rewrite Hg in Hg'; injection Hg' as <-; by apply lockStep_same.

Ltac same_game :=
  match goal with
  | H1 : activeGames ?s !! ?k = Some ?a, H2 : activeGames ?s !! ?k = Some ?b |- _ =>
      rewrite H1 in H2; injection H2 as <-
  end.

Lemma perform_lockStep (c : Call) (s : Service) (gameId : string) (game game' : Game) :
  gamesInv s ->
  activeGames s !! gameId = Some game ->
  activeGames (perform c s) !! gameId = Some game' ->
  lockStep gameId c game game'.
Proof.
  intros Hinv Hg Hg'. pose proof (Hinv _ _ Hg) as Hgame.
  destruct c; cbn [perform] in Hg'.
  - unfold createGame in Hg'. run_monad.
    destruct (decide (gameId0 = gameId)) as [->|Hne].
    + rewrite lookup_insert_eq in Hg'. injection Hg' as <-.
      split; [right; left; by split|]. split; cbn; [intros; discriminate|].
      intros [? ?]; discriminate.
    + rewrite lookup_insert_ne in Hg' by done. unchanged Hg Hg'.
  - unfold startGame in Hg'. run_monad. split_run Hg'.
    all: lookup_game game' Hg'; try unchanged Hg Hg'.
    all: injection Hg' as <-; same_game; split; [by left | exact Hgame].
  - unfold registerPlayer in Hg'. run_monad. split_run Hg'.
    all: lookup_game game' Hg'; try unchanged Hg Hg'.
    all: injection Hg' as <-; same_game; split; [by left | exact Hgame].
  - unfold renamePlayer in Hg'. run_monad. split_run Hg'.
    all: lookup_game game' Hg'; try unchanged Hg Hg'.
    all: injection Hg' as <-; same_game; split; [by left | exact Hgame].
  - unfold getCurrentQuestion in Hg'. run_monad. split_run Hg'.
    all: lookup_game game' Hg'; try unchanged Hg Hg'.
    all: injection Hg' as <-; same_game.
    all: split; [right; left; by split|].
    all: split; cbn; [intros; discriminate | intros _; by eexists].
  - destruct (recordAnswer_games s gameId0 questionId buzzerID answer timestamps)
      as [Hsame | (g & m & p & ok & t & Hg0 & Hnew)].
    + rewrite Hsame in Hg'. unchanged Hg Hg'.
    + rewrite Hnew in Hg'. lookup_game game' Hg'; try unchanged Hg Hg'.
      injection Hg' as <-; same_game.
      split; [left; by rewrite locked_updatePlayer | by apply lockInv_updatePlayer].
  - destruct (nextQuestion_games s gameId0)
      as [Hsame | (g & g1 & Hg0 & Hnew & Hl & Hw & Hb & He)].
    + rewrite Hsame in Hg'. unchanged Hg Hg'.
    + rewrite Hnew in Hg'. lookup_game game' Hg'; try unchanged Hg Hg'.
      injection Hg' as <-; same_game.
      split; [by left|]. unfold lockInv. by rewrite Hl, Hw, Hb, He.
  - unfold endGame in Hg'. run_monad. split_run Hg'.
    all: lookup_game game' Hg'; try unchanged Hg Hg'.
    all: injection Hg' as <-; same_game; split; [by left | exact Hgame].
  - destruct (recordBuzz_games s gameId0 questionId buzzerID timestamps)
      as [Hsame | (g & Hg0 & [Hnew | (buzzes & entry & Hb & Hl & Hnew)])].
    + rewrite Hsame in Hg'. unchanged Hg Hg'.
    + rewrite Hnew in Hg'. lookup_game game' Hg'; try unchanged Hg Hg'.
      injection Hg' as <-; same_game.
      split; [|by apply lockInv_initBuzzTracking].
      left. by apply locked_initBuzzTracking.
    + rewrite Hnew in Hg'. lookup_game game' Hg'; try unchanged Hg Hg'.
      injection Hg' as <-; same_game.
      pose proof (lockInv_initBuzzTracking _ Hgame) as [H1 H2].
      split.
      * left. cbn. by apply locked_initBuzzTracking.
      * split; cbn.
        -- intros Hl'. rewrite Hl in Hl'. discriminate.
        -- intros _. apply H2. rewrite Hb. by eexists.
  - destruct (evaluateBuzzes_games s gameId0 questionId)
      as [Hsame | (g & bs & ex & w & Hg0 & Hb & He & _ & Hnew)].
    + rewrite Hsame in Hg'. unchanged Hg Hg'.
    + rewrite Hnew in Hg'. lookup_game game' Hg'; try unchanged Hg Hg'.
      injection Hg' as <-; same_game.
      split; [right; right; by split | by apply lockInv_elected].
  - unfold buzzEvaluationTimeout, bind in Hg'.
    destruct (evaluateBuzzes_games s gameId0 questionId)
      as [Hsame | (g & bs & ex & w & Hg0 & Hb & He & Hok & Hnew)];
      destruct (evaluateBuzzes gameId0 questionId s) as [[[]|e] s1] eqn:Hrun;
      cbn [fst snd] in *; try discriminate.
    + unfold getGame in Hg'. rewrite Hsame in Hg'.
      destruct (activeGames s !! gameId0) as [g0|] eqn:Hg0; cbn in Hg'.
      * rewrite Hsame in Hg'. lookup_game game' Hg'; try unchanged Hg Hg'.
        injection Hg' as <-; same_game. split; [by left | exact Hgame].
      * rewrite Hsame in Hg'. unchanged Hg Hg'.
    + rewrite Hsame in Hg'. unchanged Hg Hg'.
    + unfold getGame in Hg'. rewrite Hnew, lookup_insert_eq in Hg'. cbn in Hg'.
      rewrite Hnew, insert_insert_eq in Hg'.
      lookup_game game' Hg'; try unchanged Hg Hg'.
      injection Hg' as <-; same_game.
      split; [right; right; by split|].
      apply (lockInv_elected ex bs w game He).
  - destruct (activeGames s !! gameId0) as [g0|] eqn:Hg0.
    + destruct (validateBuzz_run s gameId0 questionId buzzerID isCorrect g0 Hg0)
        as (s' & Hrun & Hnew & _).
      rewrite Hrun in Hg'. cbn [snd] in Hg'. rewrite Hnew in Hg'.
      lookup_game game' Hg'; try unchanged Hg Hg'.
      injection Hg' as <-; same_game.
      split; [left; by rewrite locked_updatePlayer | by apply lockInv_updatePlayer].
    + unfold validateBuzz in Hg'.
      rewrite (bind_throw _ _ _ _ _ (getGame_none _ _ Hg0)) in Hg'. cbn in Hg'. unchanged Hg Hg'.
  - unfold excludePlayer in Hg'. run_monad. split_run Hg'.
    all: lookup_game game' Hg'; try unchanged Hg Hg'.
    all: injection Hg' as <-; same_game.
    all: split; [right; left; by split|].
    all: split; cbn; [intros; discriminate | intros _; by eexists].
  - unfold getExcludedPlayers in Hg'. run_monad. split_run Hg'.
    all: unchanged Hg Hg'.
  - unfold handleTimeSyncRequest in Hg'. run_monad. unchanged Hg Hg'.
  - cbn in Hg'. unchanged Hg Hg'.
  - cbn in Hg'. unchanged Hg Hg'.
Qed.

(** A call cannot create a game that breaks the invariant either. *)
Lemma perform_new_game (c : Call) (s : Service) (gameId : string) (game' : Game) :
  activeGames s !! gameId = None ->
  activeGames (perform c s) !! gameId = Some game' ->
  lockInv game'.
Proof.
  intros Hg Hg'.
  destruct c; cbn [perform] in Hg'.
  - unfold createGame in Hg'. run_monad.
    destruct (decide (gameId0 = gameId)) as [->|Hne].
    + rewrite lookup_insert_eq in Hg'. injection Hg' as <-.
      split; cbn; [intros; discriminate|]. intros [? ?]; discriminate.
    + rewrite lookup_insert_ne in Hg' by done. congruence.
  - unfold startGame in Hg'. run_monad. split_run Hg'.
    all: lookup_game game' Hg'; congruence.
  - unfold registerPlayer in Hg'. run_monad. split_run Hg'.
    all: lookup_game game' Hg'; congruence.
  - unfold renamePlayer in Hg'. run_monad. split_run Hg'.
    all: lookup_game game' Hg'; congruence.
  - unfold getCurrentQuestion in Hg'. run_monad. split_run Hg'.
    all: lookup_game game' Hg'; congruence.
  - destruct (recordAnswer_games s gameId0 questionId buzzerID answer timestamps)
      as [Hsame | (g & m & p & ok & t & Hg0 & Hnew)].
    + congruence.
    + rewrite Hnew in Hg'. lookup_game game' Hg'; congruence.
  - destruct (nextQuestion_games s gameId0)
      as [Hsame | (g & g1 & Hg0 & Hnew & _)].
    + congruence.
    + rewrite Hnew in Hg'. lookup_game game' Hg'; congruence.
  - unfold endGame in Hg'. run_monad. split_run Hg'.
    all: lookup_game game' Hg'; congruence.
  - destruct (recordBuzz_games s gameId0 questionId buzzerID timestamps)
      as [Hsame | (g & Hg0 & [Hnew | (buzzes & entry & Hb & Hl & Hnew)])].
    + congruence.
    + rewrite Hnew in Hg'. lookup_game game' Hg'; congruence.
    + rewrite Hnew in Hg'. lookup_game game' Hg'; congruence.
  - destruct (evaluateBuzzes_games s gameId0 questionId)
      as [Hsame | (g & bs & ex & w & Hg0 & Hb & He & _ & Hnew)].
    + congruence.
    + rewrite Hnew in Hg'. lookup_game game' Hg'; congruence.
  - unfold buzzEvaluationTimeout, bind in Hg'.
    destruct (evaluateBuzzes_games s gameId0 questionId)
      as [Hsame | (g & bs & ex & w & Hg0 & Hb & He & Hok & Hnew)];
      destruct (evaluateBuzzes gameId0 questionId s) as [[[]|e] s1] eqn:Hrun;
      cbn [fst snd] in *; try discriminate.
    + unfold getGame in Hg'. rewrite Hsame in Hg'.
      destruct (activeGames s !! gameId0) as [g0|] eqn:Hg0; cbn in Hg'.
      * rewrite Hsame in Hg'. lookup_game game' Hg'; congruence.
      * congruence.
    + congruence.
    + unfold getGame in Hg'. rewrite Hnew, lookup_insert_eq in Hg'. cbn in Hg'.
      rewrite Hnew, insert_insert_eq in Hg'.
      lookup_game game' Hg'; congruence.
  - destruct (activeGames s !! gameId0) as [g0|] eqn:Hg0.
    + destruct (validateBuzz_run s gameId0 questionId buzzerID isCorrect g0 Hg0)
        as (s' & Hrun & Hnew & _).
      rewrite Hrun in Hg'. cbn [snd] in Hg'. rewrite Hnew in Hg'.
      lookup_game game' Hg'; congruence.
    + unfold validateBuzz in Hg'.
      rewrite (bind_throw _ _ _ _ _ (getGame_none _ _ Hg0)) in Hg'. cbn in Hg'. congruence.
  - unfold excludePlayer in Hg'. run_monad. split_run Hg'.
    all: lookup_game game' Hg'; congruence.
  - unfold getExcludedPlayers in Hg'. run_monad. split_run Hg'.
    all: congruence.
  - unfold handleTimeSyncRequest in Hg'. run_monad. congruence.
  - cbn in Hg'. congruence.
  - cbn in Hg'. congruence.
Qed.

Lemma perform_gamesInv (c : Call) (s : Service) :
  gamesInv s -> gamesInv (perform c s).
Proof.
  intros Hinv gameId game' Hg'.
  destruct (activeGames s !! gameId) as [game|] eqn:Hg.
  - by destruct (perform_lockStep c s gameId game game' Hinv Hg Hg').
  - by eapply perform_new_game.
Qed.

Lemma reachable_gamesInv (s : Service) : reachable s -> gamesInv s.
Proof.
  induction 1 as [s Hempty | s c _ IH].
  - intros gameId game Hg. rewrite Hempty in Hg. by rewrite lookup_empty in Hg.
  - by apply perform_gamesInv.
Qed.


(** C10. [validateBuzz] is a frame on the arbitration state: whatever
    [isCorrect] is, the game it leaves has the same [buzzerLocked],
    [currentQuestionWinner], exclusion set and buzz list (so the same
    [processed] flags); the game differs from the one before at most in its
    [players] map, there at most at [buzzerID], and there only in the
    cumulative statistics (score, counts, total, fastest and slowest time):
    the player's identity and name stay. Other games are not touched. *)
Theorem validateBuzz_frame (s : Service) (gameId : string) (questionId : Z)
    (buzzerID : string) (isCorrect : bool) (game : Game)
    (Hgame : activeGames s !! gameId = Some game) :
  exists r s' game',
    validateBuzz gameId questionId buzzerID isCorrect s = (Ok r, s')
    /\ activeGames s' !! gameId = Some game'
    /\ buzzerLocked game' = buzzerLocked game
    /\ currentQuestionWinner game' = currentQuestionWinner game
    /\ currentQuestionExcluded game' = currentQuestionExcluded game
    /\ currentQuestionBuzzes game' = currentQuestionBuzzes game
    /\ game' = set_players (players game') game
    /\ (forall other, other <> buzzerID ->
          players game' !! other = players game !! other)
    /\ players game' !! buzzerID
       = updateStats (vr_points r) isCorrect (vr_responseTime r)
           <$> players game !! buzzerID
    /\ (forall p, Player.buzzerID (updateStats (vr_points r) isCorrect (vr_responseTime r) p)
                  = Player.buzzerID p
               /\ Player.name (updateStats (vr_points r) isCorrect (vr_responseTime r) p)
                  = Player.name p)
    /\ (forall other, other <> gameId ->
          activeGames s' !! other = activeGames s !! other).
Proof.
  destruct (validateBuzz_run s gameId questionId buzzerID isCorrect game Hgame)
    as (s' & Hrun & Hgames & _).
  eexists _, s', _. split; [exact Hrun|].
  rewrite Hgames. split; [apply lookup_insert_eq|].
  cbn [vr_points vr_responseTime].
  repeat split.
  - unfold updatePlayer. by destruct (players game !! buzzerID).
  - unfold updatePlayer. by destruct (players game !! buzzerID).
  - unfold updatePlayer. by destruct (players game !! buzzerID).
  - unfold updatePlayer. by destruct (players game !! buzzerID).
  - apply updatePlayer_fields.
  - intros other Hne. by apply updatePlayer_lookup_ne.
  - apply updatePlayer_lookup.
  - intros other Hne. by rewrite lookup_insert_ne.
Qed.

Lemma validateBuzz_frame_witness :
  exists r s' game',
    validateBuzz "g" 42 "B2" true serviceLocked = (Ok r, s')
    /\ activeGames s' !! "g" = Some game'
    /\ buzzerLocked game' = true
    /\ currentQuestionWinner game' = Some "B2"
    /\ Player.score <$> players game' !! "B2" = Some 10.
Proof.
  destruct (validateBuzz_frame serviceLocked "g" 42 "B2" true (gameOf serviceLocked))
    as (r & s' & game' & Hrun & Hgame & Hlock & Hwinner & _ & _ & _ & _ & Hplayer & _).
  - vm_compute; reflexivity.
  - exists r, s', game'. split; [exact Hrun|]. split; [exact Hgame|].
    rewrite Hlock, Hwinner, Hplayer.
    assert (validateBuzz "g" 42 "B2" true serviceLocked
            = (Ok {| vr_isCorrect := true; vr_points := 10; vr_responseTime := 505 |},
               run (validateBuzz "g" 42 "B2" true) serviceLocked))
      as Hvalue by (vm_compute; reflexivity).
    rewrite Hvalue in Hrun. injection Hrun as <- _.
    repeat match goal with |- _ /\ _ => split end; vm_compute; reflexivity.
Defined.








Lemma reachable_serviceLocked : reachable serviceLocked.
Proof.
  apply (reachable_call _ (BuzzEvaluationTimeout "g" 42)).
  apply (reachable_call _ (RecordBuzz "g" 42 "B3" (synced 1541))).
  apply (reachable_call _ (RecordBuzz "g" 42 "B2" (synced 1506))).
  apply (reachable_call _ (RecordBuzz "g" 42 "B1" (synced 1521))).
  apply (reachable_call _ (GetCurrentQuestion "g")).
  apply (reachable_call _ (StartGame "g")).
  apply (reachable_call _ (RegisterPlayer "g" "B2" "Ada")).
  apply (reachable_call _ (CreateGame "g" "quiz" [42; 7] demoSettings)).
  by apply reachable_fresh.
Qed.




(** * Properties of the WebSocket server *)

(** ** Sending *)

Lemma now_run (w : Server) : now w = (Ok (timeOf w), ticked w).
Proof. reflexivity. Qed.

Lemma isOpen_ticked (w : Server) (ws : nat) : isOpen (ticked w) ws = isOpen w ws.
Proof. reflexivity. Qed.

Lemma isOpen_pushed (w : Server) (ws ws' : nat) (frame : Frame) :
  isOpen (pushed ws' frame w) ws = isOpen w ws.
Proof.
  unfold isOpen, pushed. cbn.
  destruct (decide (ws' = ws)) as [->|Hne].
  - rewrite lookup_alter_eq. by destruct (sockets w !! ws).
  - by rewrite lookup_alter_ne.
Qed.

Lemma isOpen_true (w : Server) (ws : nat) :
  isOpen w ws = true <->
  exists k, sockets w !! ws = Some k /\ readyState k = OPEN.
Proof.
  unfold isOpen. destruct (sockets w !! ws) as [k|]; split.
  - intros H. exists k. split; [done|]. by apply bool_decide_eq_true_1 in H.
  - intros (k' & [= <-] & H). by apply bool_decide_eq_true_2.
  - discriminate.
  - by intros (k' & H & _).
Qed.

Lemma sendToClient_open (w : Server) (ws : nat) (type : string) (payload : Json) :
  isOpen w ws = true ->
  sendToClient ws type payload w
  = (Ok tt, pushed ws (Text type (timeOf w) payload) (ticked w)).
Proof. intros H. unfold sendToClient, bind, gets. by rewrite H. Qed.

Lemma sendToClient_closed (w : Server) (ws : nat) (type : string) (payload : Json) :
  isOpen w ws = false -> sendToClient ws type payload w = (Ok tt, w).
Proof. intros H. unfold sendToClient, bind, gets. by rewrite H. Qed.

Lemma sendToAngular_open (w : Server) (c : nat) (type : string) (payload : Json) :
  angularClient w = Some c -> isOpen w c = true ->
  sendToAngular type payload w
  = (Ok tt, pushed c (Text type (timeOf w) payload) (ticked w)).
Proof.
  intros Hc Ho. unfold sendToAngular, bind, gets. rewrite Hc, Ho.
  by apply sendToClient_open.
Qed.

Lemma sendToAngular_silent (w : Server) (type : string) (payload : Json) :
  (forall c, angularClient w = Some c -> isOpen w c = false) ->
  sendToAngular type payload w = (Ok tt, w).
Proof.
  intros H. unfold sendToAngular, bind, gets.
  destruct (angularClient w) as [c|]; [|done]. by rewrite (H c).
Qed.

Lemma sendToBuzzer_open (w : Server) (buzzerID : string) (bd : BuzzerData)
    (type : string) (payload : Json) :
  registryGet buzzerID (buzzerClients w) = Some bd -> isOpen w (bd_ws bd) = true ->
  sendToBuzzer buzzerID type payload w
  = (Ok tt, pushed (bd_ws bd) (Text type (timeOf w) payload) (ticked w)).
Proof.
  intros Hr Ho. unfold sendToBuzzer, bind, gets. rewrite Hr, Ho.
  by apply sendToClient_open.
Qed.

(** A send helper either pushes one text frame or does nothing. *)
Lemma sendToBuzzer_cases (w : Server) (buzzerID : string) (type : string)
    (payload : Json) :
  sendToBuzzer buzzerID type payload w = (Ok tt, w)
  \/ exists ws,
       sendToBuzzer buzzerID type payload w
       = (Ok tt, pushed ws (Text type (timeOf w) payload) (ticked w)).
Proof.
  unfold sendToBuzzer, bind, gets.
  destruct (registryGet buzzerID (buzzerClients w)) as [bd|]; [|by left].
  destruct (isOpen w (bd_ws bd)) eqn:Ho; [|by left].
  right. exists (bd_ws bd). by apply sendToClient_open.
Qed.

Lemma sendToAngular_cases (w : Server) (type : string) (payload : Json) :
  sendToAngular type payload w = (Ok tt, w)
  \/ exists c,
       angularClient w = Some c /\ isOpen w c = true
       /\ sendToAngular type payload w
          = (Ok tt, pushed c (Text type (timeOf w) payload) (ticked w)).
Proof.
  unfold sendToAngular, bind, gets.
  destruct (angularClient w) as [c|] eqn:Hc; [|by left].
  destruct (isOpen w c) eqn:Ho; [|by left].
  right. exists c. split; [done|]. split; [done|]. by apply sendToClient_open.
Qed.

Lemma sentTo_ticked (w : Server) (ws : nat) : sentTo (ticked w) ws = sentTo w ws.
Proof. reflexivity. Qed.

Lemma sentTo_pushed_eq (w : Server) (ws : nat) (frame : Frame) :
  is_Some (sockets w !! ws) ->
  sentTo (pushed ws frame w) ws = sentTo w ws ++ [frame].
Proof.
  intros [k Hk]. unfold sentTo, pushed. cbn. rewrite lookup_alter_eq, Hk. done.
Qed.

Lemma sentTo_pushed_ne (w : Server) (ws ws' : nat) (frame : Frame) :
  ws' <> ws -> sentTo (pushed ws' frame w) ws = sentTo w ws.
Proof. intros Hne. unfold sentTo, pushed. cbn. by rewrite lookup_alter_ne. Qed.

(** ** Paths *)

Lemma append_cons (c : Ascii.ascii) (a b : string) :
  String c a +:+ b = String c (a +:+ b).
Proof. reflexivity. Qed.

Lemma append_nil (b : string) : "" +:+ b = b.
Proof. reflexivity. Qed.

Lemma append_assoc (a b c : string) : (a +:+ b) +:+ c = a +:+ (b +:+ c).
Proof.
  induction a as [|x a IH]; [done|]. rewrite !append_cons. by f_equal.
Qed.

Lemma append_empty_r (a : string) : a +:+ "" = a.
Proof. induction a as [|x a IH]; [done|]. rewrite append_cons. by f_equal. Qed.

Lemma noSlash_app (a b : string) : noSlash a -> noSlash b -> noSlash (a +:+ b).
Proof.
  induction a as [|x a IH]; [done|]. rewrite append_cons. cbn.
  intros [? ?] ?. split; auto.
Qed.

(** Cutting a path that is made of two paths joined by a slash. *)
Lemma splitPath_app (a b acc : string) :
  splitPath acc (a +:+ String "/" b) = splitPath acc a ++ splitPath "" b.
Proof.
  revert acc. induction a as [|c a IH]; intros acc; [done|].
  rewrite append_cons. cbn.
  destruct (Ascii.eqb c "/"); by rewrite IH.
Qed.

Lemma splitPath_noSlash (s acc : string) :
  noSlash s -> splitPath acc s = [acc +:+ s].
Proof.
  revert acc. induction s as [|c s IH]; intros acc; cbn.
  - intros _. by rewrite append_empty_r.
  - intros [Hc Hs]. apply Ascii.eqb_neq in Hc. rewrite Hc.
    rewrite IH by done. by rewrite append_assoc.
Qed.

Lemma splitPath_segments (s acc : string) :
  noSlash acc -> Forall noSlash (splitPath acc s).
Proof.
  revert acc. induction s as [|c s IH]; intros acc Hacc; cbn.
  - by constructor.
  - destruct (Ascii.eqb_spec c "/").
    + constructor; [done|]. by apply IH.
    + apply IH. apply noSlash_app; [done|]. cbn. by split.
Qed.

Lemma splitPath_concat (l : list string) :
  l <> [] -> Forall noSlash l -> splitPath "" (String.concat "/" l) = l.
Proof.
  induction l as [|x l IH]; [done|]. intros _ Hall.
  apply Forall_cons in Hall as [Hx Hl].
  destruct l as [|y l]; cbn [String.concat].
  - by rewrite splitPath_noSlash.
  - rewrite append_cons, append_nil.
    rewrite splitPath_app, splitPath_noSlash by done.
    cbn [app]. f_equal. by apply IH.
Qed.

Lemma normalizeStep_plain (allow : bool) (kept : list string) (seg : string) :
  Forall plain kept -> Forall plain (normalizeStep allow kept seg).
Proof.
  intros Hk. unfold normalizeStep.
  destruct (bool_decide (seg = "")) eqn:E1; cbn [orb]; [done|].
  destruct (bool_decide (seg = ".")) eqn:E2; [done|].
  apply bool_decide_eq_false_1 in E1, E2.
  destruct (bool_decide (seg = "..")) eqn:E3.
  - destruct kept as [|top below].
    + destruct allow; [|done]. by repeat constructor.
    + destruct (bool_decide (top = "..")).
      * destruct allow; [|done]. constructor; [done|exact Hk].
      * by apply Forall_cons in Hk as [_ ?].
  - by constructor.
Qed.

Lemma normalizeStep_noSlash (allow : bool) (kept : list string) (seg : string) :
  noSlash seg -> Forall noSlash kept -> Forall noSlash (normalizeStep allow kept seg).
Proof.
  intros Hs Hk. unfold normalizeStep.
  destruct (_ || _); [done|].
  destruct (bool_decide (seg = "..")).
  - destruct kept as [|top below].
    + destruct allow; [|done]. by repeat constructor.
    + destruct (bool_decide (top = "..")).
      * destruct allow; [|done]. constructor; [done|exact Hk].
      * by apply Forall_cons in Hk as [_ ?].
  - by constructor.
Qed.

Lemma foldl_normalizeStep_inv (P : string -> Prop) (allow : bool)
    (segs kept : list string) :
  (forall kept seg, P seg -> Forall P kept -> Forall P (normalizeStep allow kept seg)) ->
  Forall P segs -> Forall P kept ->
  Forall P (foldl (normalizeStep allow) kept segs).
Proof.
  intros Hstep. revert kept. induction segs as [|seg segs IH]; intros kept Hs Hk; cbn.
  - exact Hk.
  - apply Forall_cons in Hs as [Hseg Hs]. apply IH; [done|]. by apply Hstep.
Qed.

Lemma foldl_normalizeStep_plain (allow : bool) (segs kept : list string) :
  Forall plain kept -> Forall plain (foldl (normalizeStep allow) kept segs).
Proof.
  revert kept. induction segs as [|seg segs IH]; intros kept Hk; cbn; [done|].
  apply IH. by apply normalizeStep_plain.
Qed.

(** Normalising first, with the leading [..] kept, changes nothing for a
    later normalisation that drops them. *)
Lemma normalize_then_resolve (segs acc kept : list string) :
  Forall plain acc ->
  foldl (normalizeStep false) kept (rev (foldl (normalizeStep true) acc segs))
  = foldl (normalizeStep false) (foldl (normalizeStep false) kept (rev acc)) segs.
Proof.
  revert acc. induction segs as [|seg segs IH]; intros acc Hacc; cbn [foldl]; [done|].
  rewrite IH by by apply normalizeStep_plain.
  f_equal. unfold normalizeStep at 2 3.
  destruct (bool_decide (seg = "")) eqn:E1; cbn [orb]; [done|].
  destruct (bool_decide (seg = ".")) eqn:E2; [done|].
  destruct (bool_decide (seg = "..")) eqn:E3.
  - apply bool_decide_eq_true_1 in E3. subst seg.
    destruct acc as [|top below].
    + reflexivity.
    + destruct (bool_decide (top = "..")) eqn:E4.
      * cbn [rev]. by rewrite foldl_app.
      * apply Forall_cons in Hacc as [[Ht1 Ht2] _].
        apply bool_decide_eq_false_1 in E4.
        cbn [rev]. rewrite foldl_app. cbn [foldl].
        set (X := foldl (normalizeStep false) kept (rev below)).
        unfold normalizeStep.
        rewrite (bool_decide_eq_false_2 (top = "")) by done.
        rewrite (bool_decide_eq_false_2 (top = ".")) by done.
        rewrite (bool_decide_eq_false_2 (top = "..")) by done.
        cbn. by rewrite bool_decide_eq_false_2.
  - cbn [rev]. rewrite foldl_app. cbn [foldl]. unfold normalizeStep.
    by rewrite E1, E2, E3.
Qed.

Lemma concat_nonempty (x : string) (l : list string) :
  x <> "" -> String.concat "/" (x :: l) <> "".
Proof.
  intros Hx. destruct l; cbn; [done|]. destruct x; [done|].
  by rewrite append_cons.
Qed.

Lemma isAbsolute_concat (x : string) (l : list string) (tail : string) :
  x <> "" -> noSlash x -> isAbsolute (String.concat "/" (x :: l) +:+ tail) = false.
Proof.
  intros Hx Hs. destruct x as [|c x]; [done|]. destruct Hs as [Hc _].
  apply Ascii.eqb_neq in Hc.
  destruct l; cbn [String.concat]; rewrite !append_cons; cbn; by rewrite Hc.
Qed.

(** The segments kept when a relative path is resolved against [cwd]. *)
Lemma path_resolve_relative (cwd path : string) :
  isAbsolute path = false -> path <> "" ->
  path_resolve cwd path
  = "/" +:+ String.concat "/"
      (rev (foldl (normalizeStep false)
              (foldl (normalizeStep false) [] (splitPath "" cwd))
              (splitPath "" path))).
Proof.
  intros Hrel Hne. unfold path_resolve. rewrite Hrel.
  rewrite bool_decide_eq_false_2 by done.
  unfold normalizeString, normalizeSegments. do 2 f_equal. f_equal.
  rewrite append_cons, append_nil, splitPath_app.
  rewrite splitPath_app. cbn [splitPath].
  by rewrite !foldl_app.
Qed.

(** The test of [handleJinglePlay] compares two equal paths: resolving the
    normalised form of a relative path gives what resolving the path gives. *)
Lemma path_resolve_normalize (cwd path : string) :
  isAbsolute path = false ->
  path_resolve cwd (path_normalize path) = path_resolve cwd path.
Proof.
  intros Hrel.
  destruct (decide (path = "")) as [->|Hne].
  { unfold path_normalize. cbn [bool_decide decide_rel].
    rewrite path_resolve_relative by done.
    unfold path_resolve. cbn [isAbsolute].
    rewrite (bool_decide_eq_true_2 ("" = "")) by done.
    unfold normalizeString, normalizeSegments.
    rewrite append_cons, append_nil, splitPath_app. cbn [splitPath].
    by rewrite foldl_app. }
  rewrite (path_resolve_relative cwd path) by done.
  set (K0 := foldl (normalizeStep false) [] (splitPath "" cwd)).
  set (n := foldl (normalizeStep true) [] (splitPath "" path)).
  assert (Forall plain n) as Hplain by by apply foldl_normalizeStep_plain.
  assert (Forall noSlash n) as Hslash.
  { apply foldl_normalizeStep_inv; [apply normalizeStep_noSlash| |done].
    by apply splitPath_segments. }
  assert (foldl (normalizeStep false) K0 (rev n)
          = foldl (normalizeStep false) K0 (splitPath "" path)) as Hkey.
  { unfold n. by rewrite normalize_then_resolve. }
  unfold path_normalize. rewrite bool_decide_eq_false_2 by done.
  rewrite Hrel. cbn [negb]. unfold normalizeString, normalizeSegments. fold n.
  destruct (rev n) as [|x l] eqn:Hrev.
  - cbn [String.concat]. rewrite (bool_decide_eq_true_2 ("" = "")) by done.
    cbn [foldl] in Hkey. rewrite <- Hkey.
    destruct (endsWithSlash path); by rewrite path_resolve_relative.
  - assert (x <> "" /\ noSlash x /\ Forall noSlash l) as (Hx & Hxs & Hls).
    { apply Forall_rev in Hplain, Hslash. rewrite Hrev in Hplain, Hslash.
      apply Forall_cons in Hplain as [[? _] _].
      by apply Forall_cons in Hslash as [? ?]. }
    rewrite bool_decide_eq_false_2 by by apply concat_nonempty.
    rewrite <- Hkey.
    destruct (endsWithSlash path).
    + rewrite path_resolve_relative.
      * rewrite append_cons, append_nil, splitPath_app. cbn [splitPath].
        rewrite splitPath_concat by (done || by constructor).
        by rewrite foldl_app.
      * by apply isAbsolute_concat.
      * intros Hempty. apply (concat_nonempty x l Hx).
        destruct (String.concat "/" (x :: l)); [done|].
        by rewrite append_cons in Hempty.
    + rewrite path_resolve_relative.
      * by rewrite splitPath_concat by (done || by constructor).
      * rewrite <- (append_empty_r (String.concat "/" (x :: l))).
        by apply isAbsolute_concat.
      * by apply concat_nonempty.
Qed.



(** ** Duplicate registration *)

(** C2. Two transports register as "X". The first receives [CONNECTION_ACK]
    with player number 1; the second receives [CONNECTION_REJECTED] and is
    closed with code 4002, and the registry still holds the first buzzer
    alone. But [routeMessage] has already written "X" on the rejected
    transport, so when its close is handled [handleDisconnection] deletes the
    entry of "X", which belongs to the first transport: the registry is left
    empty, and the console is told that "X" disconnected. *)
Theorem duplicate_registration_unregisters_first :
  sentTo serverOneBuzzer 1
  = [Text "CONNECTION_ACK" 1008
       (JObj [("buzzerID", JStr "X"); ("name", JStr "En attente de nom");
              ("serverTime", JNum 1007); ("playerNumber", JNum 1)])]
  /\ sentTo serverDuplicate 2
     = [Text "CONNECTION_REJECTED" 1010
          (JObj [("reason", JStr "Buzzer ID already connected")])]
  /\ (closeCall <$> sockets serverDuplicate !! 2%nat)
     = Some (Some (4002, "Duplicate buzzer ID"))
  /\ (fst <$> buzzerClients serverDuplicate) = ["X"]
  /\ (bd_ws ∘ snd <$> buzzerClients serverDuplicate) = [1%nat]
  /\ (readyState <$> sockets serverDuplicateClosed !! 1%nat) = Some OPEN
  /\ buzzerClients serverDuplicateClosed = []
  /\ last (sentTo serverDuplicateClosed 0)
     = Some (Text "BUZZER_DISCONNECTED" 1011
               (JObj [("buzzerID", JStr "X"); ("totalBuzzers", JNum 0)])).
Proof. evaluate. Qed.

(** ** Duplicate answers *)

Lemma liftService_same {A} (c : M Service A) (w : Server) (a : A) :
  c (service w) = (Ok a, service w) -> liftService c w = (Ok a, w).
Proof. intros H. unfold liftService. rewrite H. by destruct w. Qed.

(** Whatever the state, a second answer is dropped by the service and yet
    forwarded by the handler: the console, when connected, is sent one more
    [ANSWER_RECEIVED], which reports a wrong answer worth nothing. *)
Lemma duplicate_answer_reaches_console (w : Server) (c : nat) (buzzerID gameId : string)
    (questionId : Z) (answer : Json) (timestamps : option Timestamps)
    (game : Game) (previous : Answer.t) :
  gameService w = true ->
  activeGames (service w) !! gameId = Some game ->
  currentQuestionAnswers game !! buzzerID = Some previous ->
  angularClient w = Some c -> isOpen w c = true ->
  exists w' stamp,
    handleMCQAnswer buzzerID gameId questionId answer timestamps w = (Ok tt, w')
    /\ activeGames (service w') = activeGames (service w)
    /\ game_results (service w') = game_results (service w)
    /\ last (sentTo w' c)
       = Some (Text "ANSWER_RECEIVED" stamp
                 (JObj [("buzzerID", JStr buzzerID);
                        ("questionId", JNum questionId);
                        ("answer", answer);
                        ("isCorrect", JBool false);
                        ("points", JNum 0);
                        ("responseTime", JNum 0);
                        ("timestamps", jsonOfTimestamps timestamps)])).
Proof.
  intros Hsvc Hg Ha Hc Ho.
  pose proof (recordAnswer_duplicate (service w) gameId questionId buzzerID answer
                timestamps game previous Hg Ha) as Hdup.
  unfold handleMCQAnswer. unfold gets at 1, bind at 1. rewrite Hsvc.
  unfold try_catch at 1, bind at 1. rewrite (liftService_same _ _ _ Hdup).
  cbn [ar_isCorrect ar_points ar_responseTime duplicateAnswer].
  assert (is_Some (sockets w !! c)) as Hsock.
  { apply isOpen_true in Ho as (k & Hk & _). by eexists. }
  destruct (sendToBuzzer_cases w buzzerID "ANSWER_RESULT"
              (JObj [("questionId", JNum questionId); ("isCorrect", JBool false);
                     ("points", JNum 0); ("responseTime", JNum 0)]))
    as [Hsend | (ws & Hsend)];
    rewrite (bind_ok _ _ _ _ _ Hsend).
  - rewrite (sendToAngular_open _ c _ _ Hc Ho).
    eexists _, _. split; [reflexivity|]. split; [reflexivity|]. split; [reflexivity|].
    rewrite sentTo_pushed_eq by done. apply last_snoc.
  - rewrite (sendToAngular_open _ c _ _).
    + eexists _, _. split; [reflexivity|]. split; [reflexivity|]. split; [reflexivity|].
      rewrite sentTo_pushed_eq; [apply last_snoc|].
      cbn. destruct (decide (ws = c)) as [->|Hne].
      * rewrite lookup_alter_eq. destruct Hsock as [k ->]. by eexists.
      * by rewrite lookup_alter_ne.
    + exact Hc.
    + by rewrite isOpen_pushed, isOpen_ticked.
Qed.

(** C4. The second answer of "X" to question 7: [recordAnswer] returns
    [{duplicate: true, isCorrect: false, points: 0, responseTime: 0}] and
    leaves the service as it was (answer map, player statistics and result
    rows), but [handleMCQAnswer] does not look at [duplicate]: the console is
    sent a second [ANSWER_RECEIVED] for the same buzzer and question. *)
Theorem duplicate_answer_forwarded :
  recordAnswer "g" 7 "X" (JNum 0) (synced 5001) (service serverAnswered)
  = (Ok duplicateAnswer, service serverAnswered)
  /\ activeGames (service serverAnsweredTwice) = activeGames (service serverAnswered)
  /\ game_results (service serverAnsweredTwice) = game_results (service serverAnswered)
  /\ sentTo serverAnsweredTwice 0
     = sentTo serverAnswered 0
       ++ [Text "ANSWER_RECEIVED" 1014
             (JObj [("buzzerID", JStr "X"); ("questionId", JNum 7);
                    ("answer", JNum 0); ("isCorrect", JBool false);
                    ("points", JNum 0); ("responseTime", JNum 0);
                    ("timestamps", jsonOfTimestamps (synced 5001))])]
  /\ last (sentTo serverAnswered 0)
     = Some (Text "ANSWER_RECEIVED" 1012
               (JObj [("buzzerID", JStr "X"); ("questionId", JNum 7);
                      ("answer", JNum 1); ("isCorrect", JBool true);
                      ("points", JNum 5); ("responseTime", JNum 3000);
                      ("timestamps", jsonOfTimestamps (synced 4001))])).
Proof. evaluate. Qed.

(** ** The path check of the jingle streamer *)

(** The guard of the "Invalid file path" branch is false for every stored
    path and every working directory. *)
Lemma path_check_never_rejects (dir path : string) :
  negb (isAbsolute path)
  && negb (bool_decide (path_resolve dir path
                        = path_resolve dir (path_normalize path)))
  = false.
Proof.
  destruct (isAbsolute path) eqn:Habs; [done|]. cbn [negb andb].
  rewrite bool_decide_eq_true_2; [done|]. by rewrite path_resolve_normalize.
Qed.

(** C8. The jingle record 8 holds the relative path [../../etc/passwd],
    which leaves the directory the server runs in. The request is not
    answered by [JINGLE_ERROR] "Invalid file path": the path is resolved to
    [/etc/passwd], the file is opened, the console is sent [JINGLE_STARTED]
    and the buzzer [JINGLE_START] followed by the content of the file. *)
Theorem traversal_path_is_streamed :
  isAbsolute "../../etc/passwd" = false
  /\ path_resolve (cwd serverOneBuzzer) "../../etc/passwd" = "/etc/passwd"
  /\ last (sentTo serverEscaped 0)
     = Some (Text "JINGLE_STARTED" 1011
               (JObj [("buzzerID", JStr "X"); ("jingleId", JNum 8);
                      ("name", JStr "escape"); ("fileSize", JNum 5)]))
  /\ (st_unread <$> streams serverEscaped) = [repeat "r"%byte 5]
  /\ "X" ∈ activeJingleStreams serverEscaped
  /\ drop 1 (sentTo (deliverAll [StreamReady 0; StreamReady 0] serverEscaped) 1)
     = [Text "JINGLE_START" 1010
          (JObj [("jingleId", JNum 8); ("name", JStr "escape");
                 ("format", JStr ""); ("fileSize", JNum 5)]);
        Binary (le32 8 ++ le32 0 ++ repeat "r"%byte 5);
        Text "JINGLE_END" 1012
          (JObj [("jingleId", JNum 8); ("totalChunks", JNum 1);
                 ("fileSize", JNum 5)])].
Proof. evaluate. Qed.

(** ** The jingle stream *)

Lemma chunked_concat (fuel : nat) (content : list byte) :
  (length content <= fuel)%nat -> concat (chunked fuel content) = content.
Proof.
  revert content. induction fuel as [|fuel IH]; intros content Hlen.
  - destruct content; [done|]. cbn in Hlen. lia.
  - destruct content as [|b content]; [done|].
    cbn [chunked concat]. rewrite IH.
    + apply take_drop.
    + rewrite length_drop. cbn [length] in *. unfold CHUNK_SIZE. lia.
Qed.

Lemma chunked_sizes (fuel : nat) (content : list byte) :
  Forall (fun c => (0 < length c <= CHUNK_SIZE)%nat) (chunked fuel content).
Proof.
  revert content. induction fuel as [|fuel IH]; intros content.
  - destruct content; constructor.
  - destruct content as [|b content]; [constructor|].
    cbn [chunked]. constructor; [|apply IH].
    rewrite length_take. cbn [length]. unfold CHUNK_SIZE. lia.
Qed.

(** The number of pieces is the size divided by [CHUNK_SIZE], rounded up. *)
Lemma chunked_count (fuel : nat) (content : list byte) :
  (length content <= fuel)%nat ->
  Z.of_nat (length (chunked fuel content))
  = (Z.of_nat (length content) + 4095) / 4096.
Proof.
  revert content. induction fuel as [|fuel IH]; intros content Hlen.
  - destruct content; [done|]. cbn in Hlen. lia.
  - destruct content as [|b content]; [done|].
    cbn [chunked].
    change (length (take CHUNK_SIZE (b :: content)
                    :: chunked fuel (drop CHUNK_SIZE (b :: content))))
      with (S (length (chunked fuel (drop CHUNK_SIZE (b :: content))))).
    rewrite Nat2Z.inj_succ, IH.
    2:{ rewrite length_drop. cbn [length] in *. unfold CHUNK_SIZE. lia. }
    rewrite length_drop. unfold CHUNK_SIZE.
    remember (length (b :: content)) as n eqn:Hn.
    assert (0 < n)%nat as Hpos by (subst n; cbn; lia).
    clear Hn IH Hlen.
    destruct (decide (n <= 4096)%nat) as [Hsmall|Hbig].
    + replace (n - 4096)%nat with 0%nat by lia.
      change ((Z.of_nat 0 + 4095) / 4096) with 0.
      apply Z.div_unique with (r := Z.of_nat n - 1); lia.
    + rewrite Nat2Z.inj_sub by lia.
      replace (Z.of_nat n + 4095)
        with ((Z.of_nat n - Z.of_nat 4096 + 4095) + 1 * 4096) by lia.
      rewrite Z.div_add by lia. lia.
Qed.

(** What the peer reads back from the header is what was written. *)
Lemma byteOf_value (z : Z) : Z.of_N (Byte.to_N (byteOf z)) = z mod 256.
Proof.
  unfold byteOf.
  destruct (Byte.of_N (Z.to_N (z mod 256))) as [b|] eqn:E.
  - apply Byte.to_of_N in E. cbn. rewrite E.
    apply Z2N.id. apply Z.mod_pos_bound. lia.
  - exfalso. apply Byte.of_N_None_iff in E.
    pose proof (Z.mod_pos_bound z 256 ltac:(lia)). lia.
Qed.

Lemma readUInt32LE_le32 (v : Z) :
  0 <= v < 4294967296 -> readUInt32LE (le32 v) = v.
Proof.
  intros Hv. unfold readUInt32LE, le32. rewrite !byteOf_value.
  Z.to_euclidean_division_equations. lia.
Qed.

Lemma le32_length (v : Z) : length (le32 v) = 4%nat.
Proof. reflexivity. Qed.

Lemma writeUInt32LE_ok (v : Z) (w : Server) :
  0 <= v < 4294967296 -> writeUInt32LE v w = (Ok (le32 v), w).
Proof.
  intros [H1 H2]. unfold writeUInt32LE.
  apply Z.leb_le in H1. apply Z.ltb_lt in H2. by rewrite H1, H2.
Qed.

Lemma streamStep_data (w : Server) (sid ws : nat) (buzzerID : string)
    (jingleId fileSize index : Z) (b : byte) (rest : list byte) (out : list Frame) :
  streaming w sid ws buzzerID jingleId fileSize index (b :: rest) out ->
  0 <= jingleId < 4294967296 -> 0 <= index < 4294967296 ->
  exists w',
    streamStep sid w = (Ok tt, w')
    /\ streaming w' sid ws buzzerID jingleId fileSize (index + 1)
         (drop CHUNK_SIZE (b :: rest))
         (out ++ [packet jingleId index (take CHUNK_SIZE (b :: rest))])
    /\ activeJingleStreams w' = activeJingleStreams w.
Proof.
  intros (Hs & (k & Hk & Ho & Hout) & (bd & Hbd & Hws) & Hc) Hj Hi.
  unfold streamStep. unfold gets at 1, bind at 1. rewrite Hs.
  cbn [st_destroyed st_ended orb st_unread].
  unfold bind at 1, updateStream at 1, modify at 1.
  set (w1 := set_streams _ w).
  assert (isOpen w1 ws = true) as Hopen by (apply isOpen_true; by exists k).
  unfold onStreamData. unfold gets at 1, bind at 1. cbn [st_ws]. rewrite Hopen.
  cbn [st_jingleId st_chunkIndex].
  rewrite (bind_ok _ _ _ _ _ (writeUInt32LE_ok jingleId w1 Hj)).
  rewrite (bind_ok _ _ _ _ _ (writeUInt32LE_ok index w1 Hi)).
  unfold bind, wsSend, updateSocket, updateStream, modify.
  eexists. split; [reflexivity|]. split; [|reflexivity].
  split; [|split; [|split]].
  - cbn. rewrite !list_lookup_alter_eq, Hs. reflexivity.
  - exists (set_sent (sent k ++ [packet jingleId index (take CHUNK_SIZE (b :: rest))]) k).
    cbn. rewrite lookup_alter_eq, Hk. cbn. by rewrite Hout.
  - exists bd. by split.
  - exact Hc.
Qed.

Lemma streamStep_end (w : Server) (sid ws : nat) (buzzerID : string)
    (jingleId fileSize index : Z) (out : list Frame) :
  streaming w sid ws buzzerID jingleId fileSize index [] out ->
  exists w' stamp,
    streamStep sid w = (Ok tt, w')
    /\ sentTo w' ws
       = out ++ [Text "JINGLE_END" stamp
                   (JObj [("jingleId", JNum jingleId);
                          ("totalChunks", JNum index);
                          ("fileSize", JNum fileSize)])]
    /\ buzzerID ∉ activeJingleStreams w'.
Proof.
  intros (Hs & (k & Hk & Ho & Hout) & (bd & Hbd & Hws) & Hc).
  unfold streamStep. unfold gets at 1, bind at 1. rewrite Hs.
  cbn [st_destroyed st_ended orb st_unread].
  unfold bind at 1, updateStream at 1, modify at 1.
  set (w1 := set_streams _ w).
  unfold onStreamEnd. unfold bind at 1, modify at 1.
  cbn [st_buzzerID st_jingleId st_chunkIndex st_fileSize].
  set (w2 := set_activeJingleStreams _ w1).
  assert (isOpen w2 (bd_ws bd) = true) as Hopen.
  { rewrite Hws. apply isOpen_true. by exists k. }
  rewrite (bind_ok _ _ _ _ _ (sendToBuzzer_open w2 buzzerID bd _ _ Hbd Hopen)).
  rewrite Hws.
  set (w3 := pushed ws _ (ticked w2)).
  assert (sentTo w3 ws
          = out ++ [Text "JINGLE_END" (timeOf w2)
                      (JObj [("jingleId", JNum jingleId);
                             ("totalChunks", JNum index);
                             ("fileSize", JNum fileSize)])]) as Hsent.
  { unfold w3. rewrite sentTo_pushed_eq by (cbn; by rewrite Hk).
    unfold sentTo. cbn. rewrite Hk. cbn. by rewrite Hout. }
  assert (buzzerID ∉ activeJingleStreams w3) as Hgone.
  { cbn. intros [_ Hn]%elem_of_difference. apply Hn. by apply elem_of_singleton. }
  destruct (sendToAngular_cases w3 "JINGLE_COMPLETED"
              (JObj [("buzzerID", JStr buzzerID); ("jingleId", JNum jingleId);
                     ("totalChunks", JNum index)]))
    as [Hsilent | (c & Hcl & _ & Hsend)].
  - exists w3, (timeOf w2). by rewrite Hsilent.
  - eexists _, (timeOf w2). rewrite Hsend. split; [reflexivity|].
    split; [|exact Hgone].
    rewrite sentTo_pushed_ne; [by rewrite sentTo_ticked|].
    intros ->. apply Hc. exact Hcl.
Qed.

(** A stream left to run sends the rest of the file, piece by piece with
    consecutive chunk numbers, and then the end message. *)
Lemma streamRun_sends (fuel : nat) :
  forall (w : Server) (sid ws : nat) (buzzerID : string)
         (jingleId fileSize index : Z) (unread : list byte) (out : list Frame),
    (length unread <= fuel)%nat ->
    streaming w sid ws buzzerID jingleId fileSize index unread out ->
    0 <= jingleId < 4294967296 -> 0 <= index ->
    index + Z.of_nat (length (chunked fuel unread)) <= 4294967296 ->
    exists w' stamp,
      streamRun (length (chunked fuel unread) + 1) sid w = (Ok tt, w')
      /\ sentTo w' ws
         = out ++ packets jingleId index (chunked fuel unread)
           ++ [Text "JINGLE_END" stamp
                 (JObj [("jingleId", JNum jingleId);
                        ("totalChunks",
                         JNum (index + Z.of_nat (length (chunked fuel unread))));
                        ("fileSize", JNum fileSize)])]
      /\ buzzerID ∉ activeJingleStreams w'.
Proof.
  induction fuel as [|fuel IH];
    intros w sid ws buzzerID jingleId fileSize index unread out Hlen Hst Hj Hi Hfit.
  - destruct unread; [|cbn in Hlen; lia].
    destruct (streamStep_end w sid ws buzzerID jingleId fileSize index out Hst)
      as (w' & stamp & Hstep & Hsent & Hgone).
    exists w', stamp. cbn [chunked length Nat.add streamRun packets app].
    rewrite (bind_ok _ _ _ _ _ Hstep). rewrite Z.add_0_r.
    by repeat split.
  - destruct unread as [|b rest].
    + destruct (streamStep_end w sid ws buzzerID jingleId fileSize index out Hst)
        as (w' & stamp & Hstep & Hsent & Hgone).
      exists w', stamp. cbn [chunked length Nat.add streamRun packets app].
      rewrite (bind_ok _ _ _ _ _ Hstep). rewrite Z.add_0_r.
      by repeat split.
    + cbn [chunked] in *.
      set (cs := chunked fuel (drop CHUNK_SIZE (b :: rest))) in *.
      cbn [length] in Hfit. rewrite Nat2Z.inj_succ in Hfit.
      destruct (streamStep_data w sid ws buzzerID jingleId fileSize index b rest out
                  Hst Hj ltac:(lia)) as (w1 & Hstep & Hst1 & _).
      assert (length (drop CHUNK_SIZE (b :: rest)) <= fuel)%nat as Hlen1.
      { rewrite length_drop. cbn [length] in *. unfold CHUNK_SIZE. lia. }
      assert (index + 1 + Z.of_nat (length (chunked fuel (drop CHUNK_SIZE (b :: rest))))
              <= 4294967296) as Hfit1 by (fold cs; lia).
      destruct (IH w1 sid ws buzzerID jingleId fileSize (index + 1)
                  (drop CHUNK_SIZE (b :: rest)) _ Hlen1 Hst1 Hj ltac:(lia) Hfit1)
        as (w' & stamp & Hrun & Hsent & Hgone).
      exists w', stamp. fold cs in Hrun, Hsent.
      cbn [length Nat.add streamRun]. rewrite (bind_ok _ _ _ _ _ Hstep).
      split; [exact Hrun|]. split; [|exact Hgone].
      rewrite Hsent. cbn [packets]. rewrite <- !app_assoc. cbn [app].
      rewrite Nat2Z.inj_succ.
      by replace (index + Z.succ (Z.of_nat (length cs)))
        with (index + 1 + Z.of_nat (length cs)) by lia.
Qed.

Lemma handleJinglePlay_starts (w : Server) (buzzerID : string) (jingleId : Z)
    (bd : BuzzerData) (k : Socket) (jingle : Jingle) (content : list byte) :
  buzzerID ∉ activeJingleStreams w ->
  registryGet buzzerID (buzzerClients w) = Some bd ->
  sockets w !! bd_ws bd = Some k -> readyState k = OPEN ->
  angularClient w <> Some (bd_ws bd) ->
  db w = true -> jingles w !! jingleId = Some jingle ->
  files w !! path_resolve (cwd w) (file_path jingle) = Some content ->
  exists w1 stamp format,
    handleJinglePlay buzzerID jingleId w = (Ok tt, w1)
    /\ streaming w1 (length (streams w)) (bd_ws bd) buzzerID jingleId
         (Z.of_nat (length content)) 0 content
         (sent k ++ [Text "JINGLE_START" stamp
                       (JObj [("jingleId", JNum jingleId);
                              ("name", JStr (j_name jingle));
                              ("format", JStr format);
                              ("fileSize", JNum (Z.of_nat (length content)))])])
    /\ buzzerID ∈ activeJingleStreams w1.
Proof.
  intros Hidle Hreg Hk Ho Hc Hdb Hj Hf.
  assert (isOpen w (bd_ws bd) = true) as Hopen by (apply isOpen_true; by exists k).
  unfold handleJinglePlay. unfold gets at 1, bind at 1.
  rewrite bool_decide_eq_false_2 by done.
  unfold gets at 1, bind at 1. unfold gets at 1, bind at 1.
  rewrite Hreg, Hopen. cbn [negb].
  unfold gets at 1, bind at 1. rewrite Hdb, Hj.
  unfold gets at 1, bind at 1.
  rewrite path_check_never_rejects.
  unfold gets at 1, bind at 1. rewrite Hf.
  rewrite (bind_ok _ _ _ _ _ (sendToBuzzer_open w buzzerID bd _ _ Hreg Hopen)).
  set (start := Text "JINGLE_START" _ _).
  set (w1 := pushed (bd_ws bd) start (ticked w)).
  assert (sockets w1 !! bd_ws bd = Some (set_sent (sent k ++ [start]) k)) as Hk1.
  { unfold w1. cbn. by rewrite lookup_alter_eq, Hk. }
  destruct (sendToAngular_cases w1 "JINGLE_STARTED"
              (JObj [("buzzerID", JStr buzzerID); ("jingleId", JNum jingleId);
                     ("name", JStr (j_name jingle));
                     ("fileSize", JNum (Z.of_nat (length content)))]))
    as [Hsilent | (c & Hcl & _ & Hsend)].
  - rewrite (bind_ok _ _ _ _ _ Hsilent). unfold bind, modify.
    eexists _, _, _. split; [reflexivity|]. split; [|cbn; set_solver].
    split; [|split; [|split]].
    + cbn. by rewrite lookup_app_r, Nat.sub_diag.
    + eexists. split; [exact Hk1|]. by split.
    + exists bd. by split.
    + exact Hc.
  - rewrite (bind_ok _ _ _ _ _ Hsend). unfold bind, modify.
    eexists _, _, _. split; [reflexivity|]. split; [|cbn; set_solver].
    split; [|split; [|split]].
    + cbn. by rewrite lookup_app_r, Nat.sub_diag.
    + exists (set_sent (sent k ++ [start]) k). split; [|by split].
      cbn. rewrite lookup_alter_ne; [by rewrite lookup_alter_eq, Hk|].
      intros ->. apply Hc. exact Hcl.
    + exists bd. by split.
    + exact Hc.
Qed.

Lemma handleJinglePlay_busy (w : Server) (buzzerID : string) (jingleId : Z) :
  buzzerID ∈ activeJingleStreams w ->
  exists w',
    handleJinglePlay buzzerID jingleId w = (Ok tt, w')
    /\ streams w' = streams w
    /\ activeJingleStreams w' = activeJingleStreams w
    /\ (forall ws, angularClient w <> Some ws -> sentTo w' ws = sentTo w ws)
    /\ (forall c, angularClient w = Some c -> isOpen w c = true ->
          exists stamp,
            sentTo w' c
            = sentTo w c
              ++ [Text "JINGLE_ERROR" stamp
                    (JObj [("buzzerID", JStr buzzerID); ("jingleId", JNum jingleId);
                           ("error", JStr "Buzzer is already playing a jingle")])]).
Proof.
  intros Hbusy. unfold handleJinglePlay. unfold gets at 1, bind at 1.
  rewrite bool_decide_eq_true_2 by done. unfold jingleError.
  destruct (sendToAngular_cases w "JINGLE_ERROR"
              (JObj [("buzzerID", JStr buzzerID); ("jingleId", JNum jingleId);
                     ("error", JStr "Buzzer is already playing a jingle")]))
    as [Hsilent | (c & Hcl & Hopen & Hsend)].
  - exists w. split; [exact Hsilent|]. repeat split; try done.
    intros c Hc Ho. exfalso.
    unfold sendToAngular, bind, gets in Hsilent. rewrite Hc, Ho in Hsilent.
    rewrite (sendToClient_open _ _ _ _ Ho) in Hsilent.
    inversion Hsilent as [Heq].
    apply (f_equal (fun w => ticks (service w))) in Heq. cbn in Heq. lia.
  - eexists. split; [exact Hsend|]. split; [reflexivity|]. split; [reflexivity|]. split.
    + intros ws Hne. rewrite sentTo_pushed_ne; [by rewrite sentTo_ticked|].
      intros ->. by apply Hne.
    + intros c' Hc' _. rewrite Hcl in Hc'. injection Hc' as <-.
      eexists. rewrite sentTo_pushed_eq; [by rewrite sentTo_ticked|].
      apply isOpen_true in Hopen as (k & Hk & _). cbn. by eexists.
Qed.

(** C7. A jingle whose file holds [N] bytes, played to a buzzer that is
    connected, open and not receiving a jingle already (the jingle identifier
    being a [uint32], as the header requires): after [JINGLE_START] the buzzer
    is sent the pieces of the file in order, [ceil(N / 4096)] binary frames
    numbered 0, 1, 2, ..., each made of the little-endian [jingleId], the
    little-endian chunk number and at most 4096 bytes of the file, and then
    [JINGLE_END] with [totalChunks = ceil(N / 4096)]; the buzzer is no longer
    marked as streaming. A [JINGLE_PLAY] for a buzzer that is in
    [activeJingleStreams] opens no stream and sends nothing to any buzzer;
    the console is sent [JINGLE_ERROR] "Buzzer is already playing a jingle". *)
Theorem jingle_streaming (w : Server) (buzzerID : string) (jingleId : Z)
    (bd : BuzzerData) (k : Socket) (jingle : Jingle) (content : list byte)
    (Hidle : buzzerID ∉ activeJingleStreams w)
    (Hreg : registryGet buzzerID (buzzerClients w) = Some bd)
    (Hsock : sockets w !! bd_ws bd = Some k)
    (Hopen : readyState k = OPEN)
    (Hconsole : angularClient w <> Some (bd_ws bd))
    (Hdb : db w = true)
    (Hjingle : jingles w !! jingleId = Some jingle)
    (Hfile : files w !! path_resolve (cwd w) (file_path jingle) = Some content)
    (Hid : 0 <= jingleId < 4294967296)
    (Hsize : Z.of_nat (length content) <= 4096 * 4294967296) :
  let N := Z.of_nat (length content) in
  let total := (N + 4095) / 4096 in
  (exists w1 w2 t0 t1 format,
     handleJinglePlay buzzerID jingleId w = (Ok tt, w1)
     /\ streamRun (Z.to_nat total + 1) (length (streams w)) w1 = (Ok tt, w2)
     /\ sentTo w2 (bd_ws bd)
        = sent k
          ++ [Text "JINGLE_START" t0
                (JObj [("jingleId", JNum jingleId); ("name", JStr (j_name jingle));
                       ("format", JStr format); ("fileSize", JNum N)])]
          ++ packets jingleId 0 (chunks content)
          ++ [Text "JINGLE_END" t1
                (JObj [("jingleId", JNum jingleId); ("totalChunks", JNum total);
                       ("fileSize", JNum N)])]
     /\ buzzerID ∉ activeJingleStreams w2)
  /\ Z.of_nat (length (chunks content)) = total
  /\ concat (chunks content) = content
  /\ Forall (fun c => (0 < length c <= 4096)%nat) (chunks content)
  /\ (forall index chunk,
        0 <= index < 4294967296 ->
        exists header,
          packet jingleId index chunk = Binary (header ++ chunk)
          /\ length header = 8%nat
          /\ readUInt32LE (take 4 header) = jingleId
          /\ readUInt32LE (drop 4 header) = index)
  /\ (forall busy,
        buzzerID ∈ activeJingleStreams busy ->
        exists busy',
          handleJinglePlay buzzerID jingleId busy = (Ok tt, busy')
          /\ streams busy' = streams busy
          /\ (forall ws, angularClient busy <> Some ws ->
                sentTo busy' ws = sentTo busy ws)
          /\ (forall c, angularClient busy = Some c -> isOpen busy c = true ->
                exists stamp,
                  sentTo busy' c
                  = sentTo busy c
                    ++ [Text "JINGLE_ERROR" stamp
                          (JObj [("buzzerID", JStr buzzerID);
                                 ("jingleId", JNum jingleId);
                                 ("error", JStr "Buzzer is already playing a jingle")])])).
Proof.
  intros N total.
  assert (Z.of_nat (length (chunks content)) = total) as Hcount
    by by apply chunked_count.
  split; [|split; [exact Hcount|split; [by apply chunked_concat|split;
           [apply chunked_sizes|split]]]].
  - destruct (handleJinglePlay_starts w buzzerID jingleId bd k jingle content
                Hidle Hreg Hsock Hopen Hconsole Hdb Hjingle Hfile)
      as (w1 & t0 & format & Hplay & Hstream & _).
    assert (total <= 4294967296) as Htotal.
    { unfold total.
      assert ((N + 4095) / 4096 < 4294967296 + 1); [|lia].
      apply Z.div_lt_upper_bound; lia. }
    destruct (streamRun_sends (length content) w1 (length (streams w)) (bd_ws bd)
                buzzerID jingleId N 0 content _ (le_n _) Hstream Hid (Z.le_refl 0))
      as (w2 & t1 & Hrun & Hsent & Hgone).
    { fold (chunks content). lia. }
    fold (chunks content) in Hrun, Hsent.
    exists w1, w2, t0, t1, format. split; [exact Hplay|]. split.
    + rewrite <- Hcount, Nat2Z.id. exact Hrun.
    + split; [|exact Hgone]. rewrite Hsent, Z.add_0_l, Hcount.
      by rewrite <- !app_assoc.
  - intros index chunk Hindex. exists (le32 jingleId ++ le32 index).
    split; [unfold packet; by rewrite <- app_assoc|]. split; [reflexivity|].
    split.
    + change (take 4 (le32 jingleId ++ le32 index)) with (le32 jingleId).
      by apply readUInt32LE_le32.
    + change (drop 4 (le32 jingleId ++ le32 index)) with (le32 index).
      by apply readUInt32LE_le32.
  - intros busy Hbusy.
    destruct (handleJinglePlay_busy busy buzzerID jingleId Hbusy)
      as (busy' & Hrun & Hstreams & _ & Hquiet & Herror).
    by exists busy'.
Qed.

Lemma jingle_streaming_witness :
  exists w1 w2 t0 t1 format,
    handleJinglePlay "X" 7 serverOneBuzzer = (Ok tt, w1)
    /\ streamRun 4 0 w1 = (Ok tt, w2)
    /\ sentTo w2 1
       = sentTo serverOneBuzzer 1
         ++ [Text "JINGLE_START" t0
               (JObj [("jingleId", JNum 7); ("name", JStr "intro");
                      ("format", JStr format); ("fileSize", JNum 10000)])]
         ++ packets 7 0 (chunks (repeat "A"%byte (100 * 100)))
         ++ [Text "JINGLE_END" t1
               (JObj [("jingleId", JNum 7); ("totalChunks", JNum 3);
                      ("fileSize", JNum 10000)])].
Proof.
  destruct (jingle_streaming serverOneBuzzer "X" 7
              {| bd_ws := 1;
                 bd_info :=
                   {| info_name := "En attente de nom"; macAddress := "unknown";
                      connectedAt := 1006; playerNumber := 1; info_ip := "10.0.0.2";
                      battery := JNull; wifiRSSI := JNull; latency := JNull |} |}
              (default (newSocket "") (sockets serverOneBuzzer !! 1%nat))
              {| j_id := 7; j_name := "intro"; file_path := "jingles/intro.MP3";
                 j_duration := None; j_description := None |}
              (repeat "A"%byte (100 * 100)))
    as [(w1 & w2 & t0 & t1 & format & Hplay & Hrun & Hsent & _) _].
  - intros Hin. vm_compute in Hin. discriminate.
  - vm_compute; reflexivity.
  - vm_compute; reflexivity.
  - vm_compute; reflexivity.
  - vm_compute. discriminate.
  - vm_compute; reflexivity.
  - vm_compute; reflexivity.
  - vm_compute; reflexivity.
  - lia.
  - vm_compute. discriminate.
  - assert ((Z.to_nat ((Z.of_nat (length (repeat "A"%byte (100 * 100))) + 4095) / 4096)
               + 1)%nat = 4%nat) as Hsteps by (vm_compute; reflexivity).
    assert (length (streams serverOneBuzzer) = 0%nat) as Hfirst
      by (vm_compute; reflexivity).
    assert ((Z.of_nat (length (repeat "A"%byte (100 * 100))) + 4095) / 4096 = 3)
      as Htotal by (vm_compute; reflexivity).
    assert (Z.of_nat (length (repeat "A"%byte (100 * 100))) = 10000)
      as Hsize by (vm_compute; reflexivity).
    assert (sent (default (newSocket "") (sockets serverOneBuzzer !! 1%nat))
            = sentTo serverOneBuzzer 1) as Hbefore by (vm_compute; reflexivity).
    cbv zeta in Hrun, Hsent. cbn [bd_ws j_name] in Hsent.
    rewrite Hsteps, Hfirst in Hrun. rewrite Htotal, Hsize, Hbefore in Hsent.
    exists w1, w2, t0, t1, format. split; [exact Hplay|]. split; [exact Hrun|].
    exact Hsent.
Defined.

(** ** Further properties of the game service *)

(** X1. Every method of the service that is given the identifier of a game
    it does not hold throws [Game not found: <id>] and leaves the service,
    clock included, as it was. *)
Theorem unknown_game_throws (s : Service) (gameId : string)
    (Hnone : activeGames s !! gameId = None) :
  let e := "Game not found: " +:+ gameId in
  getGame gameId s = (Throw e, s)
  /\ startGame gameId s = (Throw e, s)
  /\ (forall buzzerID playerName,
        registerPlayer gameId buzzerID playerName s = (Throw e, s))
  /\ (forall buzzerID newName, renamePlayer gameId buzzerID newName s = (Throw e, s))
  /\ getCurrentQuestion gameId s = (Throw e, s)
  /\ (forall questionId buzzerID answer timestamps,
        recordAnswer gameId questionId buzzerID answer timestamps s = (Throw e, s))
  /\ nextQuestion gameId s = (Throw e, s)
  /\ endGame gameId s = (Throw e, s)
  /\ (forall questionId buzzerID timestamps,
        recordBuzz gameId questionId buzzerID timestamps s = (Throw e, s))
  /\ (forall questionId, evaluateBuzzes gameId questionId s = (Throw e, s))
  /\ (forall questionId buzzerID isCorrect,
        validateBuzz gameId questionId buzzerID isCorrect s = (Throw e, s))
  /\ (forall questionId buzzerID,
        excludePlayer gameId questionId buzzerID s = (Throw e, s))
  /\ (forall questionId, getExcludedPlayers gameId questionId s = (Throw e, s)).
Proof.
  intros e. pose proof (getGame_none s gameId Hnone) as Hget.
  repeat split; try exact Hget; intros;
    by apply (bind_throw _ _ _ _ _ Hget).
Qed.

Lemma unknown_game_throws_witness :
  startGame "h" serviceAsked = (Throw "Game not found: h", serviceAsked)
  /\ recordBuzz "h" 42 "B1" None serviceAsked
     = (Throw "Game not found: h", serviceAsked).
Proof.
  destruct (unknown_game_throws serviceAsked "h") as (_ & Hstart & _ & _ & _ & _ & _ & _ & Hbuzz & _).
  - vm_compute; reflexivity.
  - split; [exact Hstart|]. exact (Hbuzz 42 "B1" None).
Defined.

(** X2. [startGame] on a game in status [created] puts it in status
    [started] at question index 0, stamps [startedAt] with the clock and
    returns it; on a game in any other status it throws
    [Game already started] and changes nothing. So a game is started at most
    once: a second [startGame] always fails. *)
Theorem startGame_once (s : Service) (gameId : string) (game : Game)
    (Hgame : activeGames s !! gameId = Some game) :
  (status game = created ->
     let game' :=
       set_startedAt (Some (clock s (ticks s)))
         (set_currentQuestionIndex 0 (set_status started game)) in
     let s' :=
       set_activeGames (<[gameId := game']> (activeGames s))
         (set_ticks (S (ticks s)) s) in
     startGame gameId s = (Ok game', s')
     /\ startGame gameId s' = (Throw "Game already started", s'))
  /\ (status game <> created ->
        startGame gameId s = (Throw "Game already started", s)).
Proof.
  split.
  - intros Hcreated game' s'.
    assert (startGame gameId s = (Ok game', s')) as Hfirst.
    { unfold startGame. rewrite (bind_ok _ _ _ _ _ (getGame_some _ _ _ Hgame)).
      rewrite Hcreated. reflexivity. }
    split; [exact Hfirst|].
    assert (activeGames s' !! gameId = Some game') as Hgame'
      by apply lookup_insert_eq.
    unfold startGame. by rewrite (bind_ok _ _ _ _ _ (getGame_some _ _ _ Hgame')).
  - intros Hstatus. unfold startGame.
    rewrite (bind_ok _ _ _ _ _ (getGame_some _ _ _ Hgame)).
    by destruct (status game).
Qed.

Lemma startGame_once_witness :
  fst (startGame "g" serviceCreated) = Ok (gameOf serviceStarted)
  /\ startGame "g" serviceStarted = (Throw "Game already started", serviceStarted).
Proof.
  destruct (startGame_once serviceCreated "g" (gameOf serviceCreated)) as [Hfirst _].
  - vm_compute; reflexivity.
  - destruct Hfirst as [Hfirst Hsecond]; [vm_compute; reflexivity|].
    split.
    + rewrite Hfirst. vm_compute; reflexivity.
    + assert (set_activeGames
                (<["g" := set_startedAt (Some (clock serviceCreated (ticks serviceCreated)))
                            (set_currentQuestionIndex 0
                               (set_status started (gameOf serviceCreated)))]>
                   (activeGames serviceCreated))
                (set_ticks (S (ticks serviceCreated)) serviceCreated)
              = serviceStarted) as Hs by (vm_compute; reflexivity).
      rewrite Hs in Hsecond. exact Hsecond.
Defined.

(** X3. [registerPlayer] enters the buzzer in the game with its name and a
    blank record: score, counts and times at zero and no fastest time.
    Whatever the game held for this buzzer is overwritten, so registering a
    buzzer again resets its statistics. Other players, the rest of the game
    and the other games stay as they are. *)
Theorem registerPlayer_resets (s : Service) (gameId buzzerID playerName : string)
    (game : Game) (Hgame : activeGames s !! gameId = Some game) :
  exists s' game',
    registerPlayer gameId buzzerID playerName s = (Ok tt, s')
    /\ activeGames s' !! gameId = Some game'
    /\ players game' !! buzzerID = Some (Player.mk buzzerID playerName 0 0 0 0 None 0)
    /\ (forall other, other <> buzzerID ->
          players game' !! other = players game !! other)
    /\ game' = set_players (players game') game
    /\ (forall other, other <> gameId ->
          activeGames s' !! other = activeGames s !! other)
    /\ ticks s' = ticks s /\ game_results s' = game_results s.
Proof.
  eexists _, _. split.
  { unfold registerPlayer. rewrite (bind_ok _ _ _ _ _ (getGame_some _ _ _ Hgame)).
    reflexivity. }
  cbn. split; [apply lookup_insert_eq|]. cbn.
  split; [apply lookup_insert_eq|].
  split; [intros other Hne; by rewrite lookup_insert_ne|].
  split; [reflexivity|].
  split; [intros other Hne; by rewrite lookup_insert_ne|done].
Qed.

Lemma registerPlayer_resets_witness :
  exists s' game',
    registerPlayer "g" "B2" "Bob" serviceAnswered = (Ok tt, s')
    /\ activeGames s' !! "g" = Some game'
    /\ (Player.score <$> players (gameOf serviceAnswered) !! "B2") = Some 5
    /\ players game' !! "B2" = Some (Player.mk "B2" "Bob" 0 0 0 0 None 0).
Proof.
  destruct (registerPlayer_resets serviceAnswered "g" "B2" "Bob" (gameOf serviceAnswered))
    as (s' & game' & Hrun & Hgame' & Hplayer & _).
  - vm_compute; reflexivity.
  - exists s', game'. split; [exact Hrun|]. split; [exact Hgame'|].
    split; [vm_compute; reflexivity|exact Hplayer].
Defined.

(** X4. [renamePlayer] changes the name of a registered player and nothing
    else: its score, counts and times, the other players and the rest of the
    game are kept. For a buzzer the game does not know it throws
    [Player not found] and changes nothing. *)
Theorem renamePlayer_keeps_stats (s : Service) (gameId buzzerID newName : string)
    (game : Game) (Hgame : activeGames s !! gameId = Some game) :
  (players game !! buzzerID = None ->
     renamePlayer gameId buzzerID newName s = (Throw "Player not found", s))
  /\ (forall p, players game !! buzzerID = Some p ->
        exists s' game' p',
          renamePlayer gameId buzzerID newName s = (Ok tt, s')
          /\ activeGames s' !! gameId = Some game'
          /\ players game' !! buzzerID = Some p'
          /\ Player.name p' = newName
          /\ Player.buzzerID p' = Player.buzzerID p
          /\ Player.score p' = Player.score p
          /\ Player.correctAnswers p' = Player.correctAnswers p
          /\ Player.totalAnswers p' = Player.totalAnswers p
          /\ Player.totalResponseTime p' = Player.totalResponseTime p
          /\ Player.fastestResponseTime p' = Player.fastestResponseTime p
          /\ Player.slowestResponseTime p' = Player.slowestResponseTime p
          /\ (forall other, other <> buzzerID ->
                players game' !! other = players game !! other)
          /\ game' = set_players (players game') game
          /\ (forall other, other <> gameId ->
                activeGames s' !! other = activeGames s !! other)).
Proof.
  split.
  - intros Hnone. unfold renamePlayer.
    rewrite (bind_ok _ _ _ _ _ (getGame_some _ _ _ Hgame)). by rewrite Hnone.
  - intros p Hp. eexists _, _, _. split.
    { unfold renamePlayer. rewrite (bind_ok _ _ _ _ _ (getGame_some _ _ _ Hgame)).
      rewrite Hp. reflexivity. }
    cbn. split; [apply lookup_insert_eq|]. cbn.
    split; [apply lookup_insert_eq|]. cbn.
    repeat (split; [reflexivity|]).
    split; [intros other Hne; by rewrite lookup_insert_ne|].
    split; [reflexivity|].
    intros other Hne. by rewrite lookup_insert_ne.
Qed.

Lemma renamePlayer_keeps_stats_witness :
  renamePlayer "g" "B9" "Zed" serviceAnswered = (Throw "Player not found", serviceAnswered)
  /\ exists s' game' p',
       renamePlayer "g" "B2" "Grace" serviceAnswered = (Ok tt, s')
       /\ activeGames s' !! "g" = Some game'
       /\ players game' !! "B2" = Some p'
       /\ Player.name p' = "Grace" /\ Player.score p' = 5.
Proof.
  destruct (renamePlayer_keeps_stats serviceAnswered "g" "B9" "Zed" (gameOf serviceAnswered))
    as [Hnone _]; [vm_compute; reflexivity|].
  split; [apply Hnone; vm_compute; reflexivity|].
  destruct (renamePlayer_keeps_stats serviceAnswered "g" "B2" "Grace" (gameOf serviceAnswered))
    as [_ Hsome]; [vm_compute; reflexivity|].
  destruct (Hsome (Player.mk "B2" "Ada" 5 1 1 3000 (Some 3000) 3000))
    as (s' & game' & p' & Hrun & Hgame' & Hp' & Hname & _ & Hscore & _);
    [vm_compute; reflexivity|].
  exists s', game', p'. by repeat split.
Defined.

(** X5. [getCurrentQuestion] with a question index outside the list of the
    game (a game not started yet, or one that has run past its last
    question) returns [null] and changes nothing, the question start time
    included. With an index inside the list it returns the row of the
    question table for that identifier ([undefined] when there is none),
    stamps [questionStartTime] with the clock and resets the per-question
    state: no answers, no buzzes, nobody excluded, no winner, buzzers
    unlocked; players, status and index are kept. *)
Theorem getCurrentQuestion_resets (s : Service) (gameId : string) (game : Game)
    (Hgame : activeGames s !! gameId = Some game) :
  let index := currentQuestionIndex game in
  (index < 0 \/ Z.of_nat (length (questionIds game)) <= index ->
     getCurrentQuestion gameId s = (Ok None, s))
  /\ (forall questionId,
        0 <= index -> questionIds game !! Z.to_nat index = Some questionId ->
        exists s' game',
          getCurrentQuestion gameId s = (Ok (questions s !! questionId), s')
          /\ activeGames s' !! gameId = Some game'
          /\ questionStartTime game' = Some (clock s (ticks s))
          /\ currentQuestionAnswers game' = ∅
          /\ currentQuestionBuzzes game' = Some []
          /\ currentQuestionExcluded game' = Some ∅
          /\ currentQuestionWinner game' = None
          /\ buzzerLocked game' = false
          /\ buzzEvaluationTimer game' = false
          /\ players game' = players game
          /\ status game' = status game
          /\ currentQuestionIndex game' = index
          /\ questionIds game' = questionIds game
          /\ (forall other, other <> gameId ->
                activeGames s' !! other = activeGames s !! other)).
Proof.
  intros index. split.
  - intros Hout. unfold getCurrentQuestion.
    rewrite (bind_ok _ _ _ _ _ (getGame_some _ _ _ Hgame)). fold index.
    destruct (index <? 0) eqn:E1; [reflexivity|].
    destruct (Z.of_nat (length (questionIds game)) <=? index) eqn:E2; [reflexivity|].
    apply Z.ltb_ge in E1. apply Z.leb_gt in E2. lia.
  - intros questionId Hpos Hid.
    assert (index < Z.of_nat (length (questionIds game))) as Hlt.
    { apply lookup_lt_Some in Hid. lia. }
    eexists _, _. split.
    { unfold getCurrentQuestion.
      rewrite (bind_ok _ _ _ _ _ (getGame_some _ _ _ Hgame)). fold index.
      replace (index <? 0) with false by (symmetry; apply Z.ltb_ge; lia).
      replace (Z.of_nat (length (questionIds game)) <=? index) with false
        by (symmetry; apply Z.leb_gt; lia).
      cbn [orb]. unfold gets, bind at 1. rewrite Hid.
      reflexivity. }
    cbn. split; [apply lookup_insert_eq|]. cbn.
    repeat (split; [reflexivity|]).
    intros other Hne. by rewrite lookup_insert_ne.
Qed.

Lemma getCurrentQuestion_resets_witness :
  getCurrentQuestion "g" serviceCreated = (Ok None, serviceCreated)
  /\ exists s' game',
       getCurrentQuestion "g" serviceLocked = (Ok (questions serviceLocked !! 42), s')
       /\ activeGames s' !! "g" = Some game'
       /\ buzzerLocked (gameOf serviceLocked) = true
       /\ buzzerLocked game' = false
       /\ currentQuestionBuzzes game' = Some [].
Proof.
  destruct (getCurrentQuestion_resets serviceCreated "g" (gameOf serviceCreated))
    as [Hout _]; [vm_compute; reflexivity|].
  split; [apply Hout; left; vm_compute; reflexivity|].
  destruct (getCurrentQuestion_resets serviceLocked "g" (gameOf serviceLocked))
    as [_ Hin]; [vm_compute; reflexivity|].
  destruct (Hin 42) as (s' & game' & Hrun & Hgame' & _ & _ & Hbuzzes & _ & _ & Hlock & _).
  - vm_compute. discriminate.
  - vm_compute; reflexivity.
  - exists s', game'. split; [exact Hrun|]. split; [exact Hgame'|].
    split; [vm_compute; reflexivity|]. by split.
Defined.

(** One [nextQuestion] on the game. *)
Lemma nextQuestion_step (s : Service) (gameId : string) (game : Game) :
  activeGames s !! gameId = Some game ->
  exists game',
    activeGames (perform (NextQuestion gameId) s) !! gameId = Some game'
    /\ currentQuestionIndex game' = currentQuestionIndex game + 1
    /\ questionIds game' = questionIds game
    /\ status game'
       = (if Z.of_nat (length (questionIds game)) <=? currentQuestionIndex game + 1
          then ended else status game)
    /\ questionStartTime game' = None
    /\ currentQuestionAnswers game' = ∅
    /\ players game' = players game
    /\ fst (nextQuestion gameId s)
       = Ok (if Z.of_nat (length (questionIds game)) <=? currentQuestionIndex game + 1
             then ("ended", None)
             else ("next", Some (currentQuestionIndex game + 1))).
Proof.
  intros Hgame. cbn [perform].
  remember (nextQuestion gameId s) as r eqn:Hr. unfold nextQuestion in Hr.
  rewrite (bind_ok _ _ _ _ _ (getGame_some _ _ _ Hgame)) in Hr.
  unfold bind at 1 in Hr. unfold putGame at 1, modify at 1 in Hr.
  cbn [currentQuestionIndex set_currentQuestionAnswers set_questionStartTime
       set_currentQuestionIndex questionIds] in Hr.
  revert Hr. destruct (_ <=? _); intros Hr.
  - unfold endGame in Hr.
    rewrite (bind_ok _ _ _ _ _ (getGame_some _ _ _ (lookup_insert_eq _ _ _))) in Hr.
    unfold bind, Date_now, putGame, modify, ret in Hr. cbn in Hr. subst r. cbn.
    eexists. split; [apply lookup_insert_eq|]. by repeat split.
  - subst r. cbn. eexists. split; [apply lookup_insert_eq|]. by repeat split.
Qed.

(** X6. [nextQuestion] moves the game one question forward, forgets the
    answers and the start time of the question, and ends the game as soon as
    the index reaches the number of questions: after [k >= 1] calls a game
    that was at index [i] is at index [i + k], and its status is [ended] if
    [i + k] is at least the number of its questions, and what it was
    otherwise. The call that ends the game returns [ended], the others return
    [next] with the new index. *)
Theorem nextQuestion_ends_game (k : nat) (s : Service) (gameId : string) (game : Game)
    (Hgame : activeGames s !! gameId = Some game)
    (Hk : (0 < k)%nat) :
  let total := Z.of_nat (length (questionIds game)) in
  let reached := currentQuestionIndex game + Z.of_nat k in
  exists game',
    activeGames (Nat.iter k (perform (NextQuestion gameId)) s) !! gameId = Some game'
    /\ currentQuestionIndex game' = reached
    /\ questionIds game' = questionIds game
    /\ status game' = (if total <=? reached then ended else status game)
    /\ questionStartTime game' = None
    /\ currentQuestionAnswers game' = ∅
    /\ players game' = players game
    /\ fst (nextQuestion gameId (Nat.iter (k - 1) (perform (NextQuestion gameId)) s))
       = Ok (if total <=? reached then ("ended", None) else ("next", Some reached)).
Proof.
  intros total reached. subst total reached.
  destruct k as [|k]; [lia|clear Hk].
  replace (S k - 1)%nat with k by lia.
  assert (exists g,
            activeGames (Nat.iter k (perform (NextQuestion gameId)) s) !! gameId = Some g
            /\ currentQuestionIndex g = currentQuestionIndex game + Z.of_nat k
            /\ questionIds g = questionIds game
            /\ players g = players game
            /\ (status g = status game
                \/ status g = ended
                   /\ Z.of_nat (length (questionIds game))
                      <= currentQuestionIndex game + Z.of_nat k)) as (g & Hg & Hi & Hq & Hp & Hs).
  { induction k as [|k IH].
    - exists game. cbn [Nat.iter]. split; [done|]. split; [lia|].
      repeat split; try reflexivity. by left.
    - destruct IH as (g & Hg & Hi & Hq & Hp & Hs).
      destruct (nextQuestion_step _ _ _ Hg) as (g' & Hg' & Hi' & Hq' & Hs' & _ & _ & Hp' & _).
      exists g'. cbn [Nat.iter]. split; [exact Hg'|].
      split; [lia|]. split; [congruence|]. split; [congruence|].
      rewrite Hq, Hi in Hs'. rewrite Hs'.
      destruct (Z.of_nat (length (questionIds game))
                <=? currentQuestionIndex game + Z.of_nat k + 1) eqn:E.
      + right. split; [done|]. apply Z.leb_le in E. lia.
      + destruct Hs as [Hs|[Hs Hle]]; [by left|]. right. split; [done|lia]. }
  destruct (nextQuestion_step _ _ _ Hg) as (g' & Hg' & Hi' & Hq' & Hs' & Ht' & Ha' & Hp' & Hr').
  exists g'. cbn [Nat.iter]. split; [exact Hg'|].
  replace (currentQuestionIndex game + Z.of_nat (S k))
    with (currentQuestionIndex game + Z.of_nat k + 1) by lia.
  rewrite Hq, Hi in Hs', Hr'.
  split; [lia|]. split; [congruence|]. split.
  { rewrite Hs'. destruct (_ <=? _) eqn:E; [done|].
    destruct Hs as [Hs|[_ Hle]]; [done|]. apply Z.leb_gt in E. lia. }
  split; [done|]. split; [done|]. split; [congruence|exact Hr'].
Qed.

Lemma nextQuestion_ends_game_witness :
  (status <$> activeGames (Nat.iter 1 (perform (NextQuestion "g")) serviceStarted) !! "g")
  = Some started
  /\ (status <$> activeGames (Nat.iter 2 (perform (NextQuestion "g")) serviceStarted) !! "g")
     = Some ended.
Proof.
  split.
  - destruct (nextQuestion_ends_game 1 serviceStarted "g" (gameOf serviceStarted))
      as (g & Hg & _ & _ & Hs & _); [vm_compute; reflexivity|lia|].
    rewrite Hg. cbn [fmap option_fmap option_map]. rewrite Hs. vm_compute; reflexivity.
  - destruct (nextQuestion_ends_game 2 serviceStarted "g" (gameOf serviceStarted))
      as (g & Hg & _ & _ & Hs & _); [vm_compute; reflexivity|lia|].
    rewrite Hg. cbn [fmap option_fmap option_map]. rewrite Hs. vm_compute; reflexivity.
Defined.

(** X7. An answer from a buzzer that has not answered yet. For a question
    that is not in the table [recordAnswer] throws [Question not found] and
    changes nothing. Otherwise the answer to an [MCQ] question is correct
    when it is the number stored as [correct_answer]; for a [BUZZER] question
    it is correct when nobody has answered before. A correct answer earns
    [points || 10] (so a question worth 0 points earns 10), a wrong one 0.
    The answer is entered in the answer map, one row with the same verdict,
    points and time is appended to [game_results], and the statistics of the
    buzzer, if it is a player of the game, are updated. From then on every
    answer of this buzzer is a duplicate, whatever question it names. *)
Theorem recordAnswer_scoring (s : Service) (gameId : string) (questionId : Z)
    (buzzerID : string) (answer : Json) (timestamps : option Timestamps) (game : Game)
    (Hgame : activeGames s !! gameId = Some game)
    (Hfresh : currentQuestionAnswers game !! buzzerID = None) :
  (questions s !! questionId = None ->
     recordAnswer gameId questionId buzzerID answer timestamps s
     = (Throw "Question not found", s))
  /\ (forall question,
        questions s !! questionId = Some question ->
        let isCorrect :=
          match q_type question with
          | MCQ =>
              match answer, correct_answer question with
              | JNum a, Some c => bool_decide (a = c)
              | JNull, None => true
              | _, _ => false
              end
          | BUZZER => bool_decide (currentQuestionAnswers game = ∅)
          end in
        let points :=
          if isCorrect
          then match q_points question with
               | Some p => if bool_decide (p = 0) then 10 else p
               | None => 10
               end
          else 0 in
        let responseTime :=
          clampAnswerTime (rawTime timestamps game (clock s (ticks s))) in
        exists s' game' stamp row,
          recordAnswer gameId questionId buzzerID answer timestamps s
          = (Ok {| ar_isCorrect := isCorrect; ar_points := points;
                   ar_responseTime := responseTime; ar_duplicate := false |}, s')
          /\ activeGames s' !! gameId = Some game'
          /\ currentQuestionAnswers game'
             = <[buzzerID := Answer.mk answer isCorrect points responseTime stamp]>
                 (currentQuestionAnswers game)
          /\ players game' !! buzzerID
             = updateStats points isCorrect responseTime <$> players game !! buzzerID
          /\ (forall other, other <> buzzerID ->
                players game' !! other = players game !! other)
          /\ game_results s' = game_results s ++ [row]
          /\ r_game_id row = gameId /\ r_question_id row = questionId
          /\ r_buzzer_id row = buzzerID /\ r_answer row = answer
          /\ r_is_correct row = (if isCorrect then 1 else 0)
          /\ r_points row = points /\ r_response_time row = responseTime
          /\ (forall questionId' answer' timestamps',
                recordAnswer gameId questionId' buzzerID answer' timestamps' s'
                = (Ok duplicateAnswer, s'))).
Proof.
  split.
  - intros Hq. unfold recordAnswer.
    rewrite (bind_ok _ _ _ _ _ (getGame_some _ _ _ Hgame)), Hfresh.
    unfold gets, bind at 1. by rewrite Hq.
  - intros question Hq isCorrect points responseTime.
    assert (isCorrect
            = match q_type question with
              | MCQ => strict_eq_answer answer (correct_answer question)
              | BUZZER => bool_decide (size (currentQuestionAnswers game) = 0%nat)
              end) as HisCorrect.
    { unfold isCorrect. destruct (q_type question).
      - unfold strict_eq_answer. destruct answer; try reflexivity.
        destruct (correct_answer question); [|reflexivity].
        destruct (Z.eqb_spec n z) as [->|Hne];
          [by rewrite bool_decide_eq_true_2|by rewrite bool_decide_eq_false_2].
      - apply bool_decide_ext. symmetry. apply map_size_empty_iff. }
    assert (points = if isCorrect then or_default (q_points question) 10 else 0)
      as Hpoints.
    { unfold points. destruct isCorrect; [|reflexivity]. unfold or_default.
      destruct (q_points question) as [p|]; [|reflexivity].
      destruct (Z.eqb_spec p 0) as [->|Hne]; [reflexivity|].
      by rewrite bool_decide_eq_false_2. }
    clearbody isCorrect points.
    destruct (rawResponseTime_run timestamps game s) as (s1 & Hraw & Hs1).
    destruct Hs1 as (Hc1 & Ha1 & Hq1 & Hr1 & Ho1 & Hw1).
    remember (recordAnswer gameId questionId buzzerID answer timestamps s) as r eqn:Hr.
    unfold recordAnswer in Hr.
    rewrite (bind_ok _ _ _ _ _ (getGame_some _ _ _ Hgame)), Hfresh in Hr.
    unfold gets at 1 in Hr. unfold bind at 1 in Hr. rewrite Hq in Hr.
    rewrite (bind_ok _ _ _ _ _ Hraw) in Hr.
    rewrite (bind_ok _ _ _ _ _ (Date_now_run s1)) in Hr.
    unfold bind, putGame, insertResult, modify, ret in Hr. cbn in Hr.
    rewrite insert_insert_eq, Ha1, Hr1, <- HisCorrect, <- Hpoints in Hr.
    fold responseTime in Hr.
    eexists _, _, _, _. split; [subst r; reflexivity|].
    cbn. split; [apply lookup_insert_eq|].
    split; [unfold updatePlayer; cbn; by destruct (players game !! buzzerID)|].
    split; [by rewrite updatePlayer_lookup|].
    split; [intros other Hne; by rewrite updatePlayer_lookup_ne|].
    split; [reflexivity|]. cbn.
    repeat (split; [reflexivity|]).
    intros questionId' answer' timestamps'.
    eapply recordAnswer_duplicate.
    + cbn. apply lookup_insert_eq.
    + unfold updatePlayer. cbn.
      destruct (players game !! buzzerID); cbn; apply lookup_insert_eq.
Qed.

Lemma recordAnswer_scoring_witness :
  recordAnswer "g" 99 "B2" (JNum 1) (synced 4001) serviceAsked
  = (Throw "Question not found", serviceAsked)
  /\ exists s',
       recordAnswer "g" 7 "B2" (JNum 1) (synced 4001) serviceAsked
       = (Ok {| ar_isCorrect := true; ar_points := 5; ar_responseTime := 3000;
                ar_duplicate := false |}, s')
       /\ recordAnswer "g" 42 "B2" (JNum 0) None s' = (Ok duplicateAnswer, s').
Proof.
  destruct (recordAnswer_scoring serviceAsked "g" 99 "B2" (JNum 1) (synced 4001)
              (gameOf serviceAsked)) as [Hnone _];
    [vm_compute; reflexivity|vm_compute; reflexivity|].
  split; [apply Hnone; vm_compute; reflexivity|].
  destruct (recordAnswer_scoring serviceAsked "g" 7 "B2" (JNum 1) (synced 4001)
              (gameOf serviceAsked)) as [_ Hsome];
    [vm_compute; reflexivity|vm_compute; reflexivity|].
  destruct (Hsome {| q_id := 7; q_text := "2 + 2?"; q_type := MCQ;
                     q_answers := JArr [JStr "3"; JStr "4"]; correct_answer := Some 1;
                     q_category := None; q_points := Some 5 |})
    as (s' & game' & stamp & row & Hrun & _ & _ & _ & _ & _ & _ & _ & _ & _ & _ & _ & _ & Hdup);
    [vm_compute; reflexivity|].
  exists s'. split; [|apply Hdup].
  rewrite Hrun. do 2 f_equal; vm_compute; reflexivity.
Defined.

(** ** The statistics of the players *)

Lemma clampBuzzTime_nonneg (raw : Z) : 0 <= clampBuzzTime raw.
Proof. unfold clampBuzzTime. destruct (Z.ltb_spec raw 0); lia. Qed.

Lemma updateStats_playerInv (points : Z) (isCorrect : bool) (t : Z) (p : Player.t) :
  0 <= t -> playerInv p -> playerInv (updateStats points isCorrect t p).
Proof.
  unfold playerInv, updateStats. cbn. intros Ht [Hc Hf]. split.
  - destruct isCorrect; lia.
  - destruct (Player.fastestResponseTime p) as [f|].
    + destruct Hf as (Hn & Hfs & Htot).
      destruct (Z.ltb_spec t f); destruct (Z.ltb_spec (Player.slowestResponseTime p) t);
        repeat split; nia.
    + destruct Hf as (Hn & Htot & Hs). rewrite Hn, Htot, Hs.
      destruct (Z.ltb_spec 0 t); repeat split; lia.
Qed.

Lemma statsInv_ext (game game' : Game) :
  players game' = players game ->
  currentQuestionBuzzes game' = currentQuestionBuzzes game
  \/ currentQuestionBuzzes game' = Some [] ->
  currentQuestionAnswers game' = currentQuestionAnswers game
  \/ currentQuestionAnswers game' = ∅ ->
  statsInv game -> statsInv game'.
Proof.
  intros Hp Hb Ha (H1 & H2 & H3). split; [|split].
  - intros b p H. rewrite Hp in H. by apply H1.
  - intros buzzes b H Hin. destruct Hb as [Hb|Hb]; rewrite Hb in H.
    + by apply (H2 _ _ H).
    + injection H as <-. by apply elem_of_nil in Hin.
  - intros b a H. destruct Ha as [Ha|Ha]; rewrite Ha in H; [by apply (H3 _ _ H)|].
    by rewrite lookup_empty in H.
Qed.

Lemma statsInv_updatePlayer (b : string) (points : Z) (isCorrect : bool) (t : Z)
    (game : Game) :
  0 <= t -> statsInv game -> statsInv (updatePlayer b points isCorrect t game).
Proof.
  intros Ht (H1 & H2 & H3). unfold updatePlayer.
  destruct (players game !! b) as [p|] eqn:Hp; [|done].
  split; [|split; [exact H2|exact H3]].
  intros b' p'. cbn. destruct (decide (b = b')) as [<-|Hne].
  - rewrite lookup_insert_eq. intros [= <-].
    destruct (H1 _ _ Hp) as [Hid Hinv]. split; [exact Hid|].
    by apply updateStats_playerInv.
  - rewrite lookup_insert_ne by done. apply H1.
Qed.

Lemma statsInv_initBuzzTracking (game : Game) :
  statsInv game -> statsInv (initBuzzTracking game).
Proof.
  intros H. unfold initBuzzTracking.
  destruct (currentQuestionBuzzes game) eqn:E; [exact H|].
  apply (statsInv_ext game); [reflexivity|by right|by left|exact H].
Qed.

Lemma statsInv_elected (excluded : gset string) (buzzes : list Buzz.t)
    (winner : Buzz.t) (game : Game) :
  currentQuestionBuzzes game = Some buzzes ->
  statsInv game -> statsInv (elected excluded buzzes winner game).
Proof.
  intros Hb (H1 & H2 & H3). split; [exact H1|split; [|exact H3]].
  intros buzzes' b. cbn. intros [= <-] Hin.
  unfold markEligible in Hin. apply list_elem_of_fmap in Hin as (b0 & -> & Hin).
  pose proof (H2 _ _ Hb Hin). by destruct (eligible excluded b0).
Qed.

Lemma validatedTime_nonneg (game : Game) (buzzerID : string) :
  statsInv game -> 0 <= validatedTime game buzzerID.
Proof.
  intros (_ & H2 & _). unfold validatedTime.
  destruct (currentQuestionBuzzes game) as [buzzes|] eqn:Hb; [|lia].
  destruct (List.find _ buzzes) as [b|] eqn:Hfind; [|lia].
  apply find_some in Hfind as [Hin _]. apply list_elem_of_In in Hin.
  by apply (H2 buzzes).
Qed.

(** A fresh answer, run to its end. *)
Lemma recordAnswer_fresh_run (s : Service) (gameId : string) (questionId : Z)
    (buzzerID : string) (answer : Json) (timestamps : option Timestamps)
    (game : Game) (question : Question) :
  activeGames s !! gameId = Some game ->
  currentQuestionAnswers game !! buzzerID = None ->
  questions s !! questionId = Some question ->
  let isCorrect :=
    match q_type question with
    | MCQ => strict_eq_answer answer (correct_answer question)
    | BUZZER => bool_decide (size (currentQuestionAnswers game) = 0%nat)
    end in
  let points := if isCorrect then or_default (q_points question) 10 else 0 in
  let responseTime := clampAnswerTime (rawTime timestamps game (clock s (ticks s))) in
  exists s' stamp row,
    recordAnswer gameId questionId buzzerID answer timestamps s
    = (Ok {| ar_isCorrect := isCorrect; ar_points := points;
             ar_responseTime := responseTime; ar_duplicate := false |}, s')
    /\ activeGames s'
       = <[gameId := updatePlayer buzzerID points isCorrect responseTime
                       (set_currentQuestionAnswers
                          (<[buzzerID := Answer.mk answer isCorrect points responseTime stamp]>
                             (currentQuestionAnswers game)) game)]>
           (activeGames s)
    /\ game_results s' = game_results s ++ [row]
    /\ r_game_id row = gameId /\ r_question_id row = questionId
    /\ r_buzzer_id row = buzzerID /\ r_answer row = answer
    /\ r_is_correct row = (if isCorrect then 1 else 0)
    /\ r_points row = points /\ r_response_time row = responseTime.
Proof.
  intros Hgame Hfresh Hq isCorrect points responseTime.
  destruct (rawResponseTime_run timestamps game s) as (s1 & Hraw & Hs1).
  destruct Hs1 as (Hc1 & Ha1 & Hq1 & Hr1 & Ho1 & Hw1).
  remember (recordAnswer gameId questionId buzzerID answer timestamps s) as r eqn:Hr.
  unfold recordAnswer in Hr.
  rewrite (bind_ok _ _ _ _ _ (getGame_some _ _ _ Hgame)), Hfresh in Hr.
  unfold gets at 1 in Hr. unfold bind at 1 in Hr. rewrite Hq in Hr.
  rewrite (bind_ok _ _ _ _ _ Hraw) in Hr.
  rewrite (bind_ok _ _ _ _ _ (Date_now_run s1)) in Hr.
  unfold bind, putGame, insertResult, modify, ret in Hr. cbn in Hr.
  rewrite insert_insert_eq, Ha1, Hr1 in Hr.
  fold isCorrect points responseTime in Hr.
  eexists _, _, _. split; [subst r; reflexivity|]. cbn. by repeat split.
Qed.

(** The entry [recordBuzz] appends has a response time that is not negative. *)
Lemma recordBuzz_games_time (s : Service) (gameId : string) (questionId : Z)
    (buzzerID : string) (timestamps : option Timestamps) :
  activeGames (snd (recordBuzz gameId questionId buzzerID timestamps s))
  = activeGames s
  \/ exists game,
       activeGames s !! gameId = Some game
       /\ (activeGames (snd (recordBuzz gameId questionId buzzerID timestamps s))
           = <[gameId := initBuzzTracking game]> (activeGames s)
           \/ exists buzzes entry,
                currentQuestionBuzzes (initBuzzTracking game) = Some buzzes
                /\ activeGames (snd (recordBuzz gameId questionId buzzerID timestamps s))
                   = <[gameId := withBuzz (initBuzzTracking game) buzzes entry]>
                       (activeGames s)
                /\ 0 <= Buzz.responseTime entry).
Proof.
  remember (recordBuzz gameId questionId buzzerID timestamps s) as r eqn:Hr.
  unfold recordBuzz in Hr.
  destruct (activeGames s !! gameId) as [game|] eqn:Hg.
  2:{ left. rewrite (bind_throw _ _ _ _ _ (getGame_none _ _ Hg)) in Hr. by subst r. }
  rewrite (bind_ok _ _ _ _ _ (getGame_some _ _ _ Hg)) in Hr.
  right. exists game. split; [done|].
  set (s1 := snd (putGame gameId (initBuzzTracking game) s)) in *.
  assert (putGame gameId (initBuzzTracking game) s = (Ok tt, s1)) as Hput by reflexivity.
  rewrite (bind_ok _ _ _ _ _ Hput) in Hr.
  destruct (currentQuestionExcluded (initBuzzTracking game)) as [excluded|];
    [|left; by subst r].
  destruct (bool_decide (buzzerID ∈ excluded)); [left; by subst r|].
  destruct (currentQuestionBuzzes (initBuzzTracking game)) as [buzzes|] eqn:Hb.
  2:{ exfalso. unfold initBuzzTracking in Hb.
      by destruct (currentQuestionBuzzes game) eqn:E; rewrite ?E in Hb. }
  cbn [default from_option Datatypes.id] in Hr.
  destruct (List.find _ buzzes); [left; by subst r|].
  destruct (buzzerLocked (initBuzzTracking game)) eqn:Hl; [left; by subst r|].
  destruct (rawResponseTime_run timestamps (initBuzzTracking game) s1) as (s2 & Hraw & Hs2).
  destruct Hs2 as (Hc2 & Ha2 & Hq2 & Hr2 & Ho2 & Hw2).
  rewrite (bind_ok _ _ _ _ _ Hraw) in Hr.
  rewrite (bind_ok _ _ _ _ _ (Date_now_run s2)) in Hr.
  unfold bind, putGame, modify, ret in Hr. cbn in Hr.
  rewrite Ha2 in Hr. subst s1. cbn in Hr. rewrite insert_insert_eq in Hr.
  right. eexists buzzes, _. split; [done|]. split; [subst r; reflexivity|].
  cbn. apply clampBuzzTime_nonneg.
Qed.

Lemma statsInv_withBuzz (game : Game) (buzzes : list Buzz.t) (entry : Buzz.t) :
  currentQuestionBuzzes game = Some buzzes ->
  0 <= Buzz.responseTime entry ->
  statsInv game -> statsInv (withBuzz game buzzes entry).
Proof.
  intros Hb Ht (H1 & H2 & H3). split; [exact H1|split; [|exact H3]].
  intros buzzes' b. cbn. intros [= <-] Hin.
  apply elem_of_app in Hin as [Hin|Hin]; [by apply (H2 buzzes)|].
  apply list_elem_of_singleton in Hin. by subst b.
Qed.

Lemma statsInv_insert (m : gmap string Game) (gameId : string) (game1 : Game) :
  (forall g game, m !! g = Some game -> statsInv game) ->
  statsInv game1 ->
  forall g game, <[gameId := game1]> m !! g = Some game -> statsInv game.
Proof.
  intros Hm H1 g game. destruct (decide (gameId = g)) as [->|Hne].
  - rewrite lookup_insert_eq. by intros [= <-].
  - rewrite lookup_insert_ne by done. apply Hm.
Qed.

Ltac stats_simple Hinv Hg' :=
  run_monad; split_run Hg';
  try (by eapply Hinv);
  (eapply statsInv_insert in Hg'; [exact Hg'|exact Hinv|]);
  match goal with
  | H : activeGames _ !! _ = Some ?g |- _ =>
      apply (statsInv_ext g);
      [reflexivity|first [by left|by right]|first [by left|by right]|by eapply Hinv]
  end.

(** Every call keeps the statistics consistent. *)
Lemma perform_statsInv (c : Call) (s : Service) :
  (forall g game, activeGames s !! g = Some game -> statsInv game) ->
  forall g game', activeGames (perform c s) !! g = Some game' -> statsInv game'.
Proof.
  intros Hinv g game' Hg'.
  destruct c; cbn [perform] in Hg'.
  - unfold createGame in Hg'. run_monad.
    eapply statsInv_insert in Hg'; [exact Hg'|exact Hinv|].
    split; [|split]; cbn; intros *; try by rewrite lookup_empty. discriminate.
  - unfold startGame in Hg'. stats_simple Hinv Hg'.
  - unfold registerPlayer in Hg'. run_monad. split_run Hg'; [|by eapply Hinv].
    eapply statsInv_insert in Hg'; [exact Hg'|exact Hinv|].
    destruct (Hinv _ _ Heqo) as (H1 & H2 & H3).
    split; [|split; [exact H2|exact H3]]. intros b p. cbn.
    destruct (decide (buzzerID = b)) as [<-|Hne].
    + rewrite lookup_insert_eq. intros [= <-]. split; [done|].
      split; cbn; [lia|done].
    + rewrite lookup_insert_ne by done. apply H1.
  - unfold renamePlayer in Hg'. run_monad. split_run Hg'; try by eapply Hinv.
    eapply statsInv_insert in Hg'; [exact Hg'|exact Hinv|].
    destruct (Hinv _ _ Heqo) as (H1 & H2 & H3).
    split; [|split; [exact H2|exact H3]]. intros b p. cbn.
    destruct (decide (buzzerID = b)) as [<-|Hne].
    + rewrite lookup_insert_eq. intros [= <-]. exact (H1 _ _ Heqo0).
    + rewrite lookup_insert_ne by done. apply H1.
  - unfold getCurrentQuestion in Hg'. stats_simple Hinv Hg'.
  - destruct (activeGames s !! gameId) as [game|] eqn:Hgame.
    2:{ unfold recordAnswer in Hg'.
        rewrite (bind_throw _ _ _ _ _ (getGame_none _ _ Hgame)) in Hg'.
        by eapply Hinv. }
    destruct (currentQuestionAnswers game !! buzzerID) as [previous|] eqn:Hprev.
    { rewrite (recordAnswer_duplicate _ _ _ _ _ _ _ _ Hgame Hprev) in Hg'.
      by eapply Hinv. }
    destruct (questions s !! questionId) as [question|] eqn:Hq.
    2:{ unfold recordAnswer in Hg'.
        rewrite (bind_ok _ _ _ _ _ (getGame_some _ _ _ Hgame)), Hprev in Hg'.
        unfold gets, bind at 1 in Hg'. rewrite Hq in Hg'. by eapply Hinv. }
    destruct (recordAnswer_fresh_run s gameId questionId buzzerID answer timestamps
                game question Hgame Hprev Hq) as (s' & stamp & row & Hrun & Hnew & _).
    rewrite Hrun in Hg'. cbn [snd] in Hg'. rewrite Hnew in Hg'.
    eapply statsInv_insert in Hg'; [exact Hg'|exact Hinv|].
    pose proof (clampAnswerTime_range (rawTime timestamps game (clock s (ticks s)))) as Ht.
    apply statsInv_updatePlayer; [lia|].
    destruct (Hinv _ _ Hgame) as (H1 & H2 & H3).
    split; [exact H1|split; [exact H2|]]. intros b a. cbn.
    destruct (decide (buzzerID = b)) as [<-|Hne].
    + rewrite lookup_insert_eq. by intros [= <-].
    + rewrite lookup_insert_ne by done. apply H3.
  - destruct (activeGames s !! gameId) as [game|] eqn:Hgame.
    2:{ unfold nextQuestion in Hg'.
        rewrite (bind_throw _ _ _ _ _ (getGame_none _ _ Hgame)) in Hg'.
        by eapply Hinv. }
    destruct (nextQuestion_games s gameId)
      as [Hsame | (g0 & g1 & Hg0 & Hnew & _ & _ & Hb & _)].
    { rewrite Hsame in Hg'. by eapply Hinv. }
    rewrite Hgame in Hg0. injection Hg0 as <-.
    destruct (nextQuestion_step s gameId game Hgame)
      as (g2 & Hg2 & _ & _ & _ & _ & Ha & Hp & _).
    cbn [perform] in Hg2. rewrite Hnew, lookup_insert_eq in Hg2. injection Hg2 as <-.
    rewrite Hnew in Hg'.
    eapply statsInv_insert in Hg'; [exact Hg'|exact Hinv|].
    apply (statsInv_ext game); [exact Hp|by left|by right|by eapply Hinv].
  - unfold endGame in Hg'. stats_simple Hinv Hg'.
  - destruct (recordBuzz_games_time s gameId questionId buzzerID timestamps)
      as [Hsame | (game & Hgame & [Hnew | (buzzes & entry & Hb & Hnew & Ht)])].
    + rewrite Hsame in Hg'. by eapply Hinv.
    + rewrite Hnew in Hg'.
      eapply statsInv_insert in Hg'; [exact Hg'|exact Hinv|].
      apply statsInv_initBuzzTracking. by eapply Hinv.
    + rewrite Hnew in Hg'.
      eapply statsInv_insert in Hg'; [exact Hg'|exact Hinv|].
      apply statsInv_withBuzz; [exact Hb|exact Ht|].
      apply statsInv_initBuzzTracking. by eapply Hinv.
  - destruct (evaluateBuzzes_games s gameId questionId)
      as [Hsame | (game & bs & ex & w & Hgame & Hb & He & _ & Hnew)].
    + rewrite Hsame in Hg'. by eapply Hinv.
    + rewrite Hnew in Hg'.
      eapply statsInv_insert in Hg'; [exact Hg'|exact Hinv|].
      apply statsInv_elected; [exact Hb|by eapply Hinv].
  - unfold buzzEvaluationTimeout, bind in Hg'.
    assert (forall g game, activeGames (snd (evaluateBuzzes gameId questionId s)) !! g
                           = Some game -> statsInv game) as Hinv1.
    { intros g1 game1 Hg1.
      destruct (evaluateBuzzes_games s gameId questionId)
        as [Hsame | (game & bs & ex & w & Hgame & Hb & He & _ & Hnew)].
      - rewrite Hsame in Hg1. by eapply Hinv.
      - rewrite Hnew in Hg1.
        eapply statsInv_insert in Hg1; [exact Hg1|exact Hinv|].
        apply statsInv_elected; [exact Hb|by eapply Hinv]. }
    destruct (evaluateBuzzes gameId questionId s) as [[[]|e] s1];
      cbn [fst snd] in *; [|by eapply Hinv1].
    unfold getGame in Hg'.
    destruct (activeGames s1 !! gameId) as [game1|] eqn:Hgame1; cbn in Hg';
      [|by eapply Hinv1].
    eapply statsInv_insert in Hg'; [exact Hg'|exact Hinv1|].
    apply (statsInv_ext game1); [reflexivity|by left|by left|by eapply Hinv1].
  - destruct (activeGames s !! gameId) as [game|] eqn:Hgame.
    + destruct (validateBuzz_run s gameId questionId buzzerID isCorrect game Hgame)
        as (s' & Hrun & Hnew & _).
      rewrite Hrun in Hg'. cbn [snd] in Hg'. rewrite Hnew in Hg'.
      eapply statsInv_insert in Hg'; [exact Hg'|exact Hinv|].
      apply statsInv_updatePlayer; [|by eapply Hinv].
      apply validatedTime_nonneg. by eapply Hinv.
    + unfold validateBuzz in Hg'.
      rewrite (bind_throw _ _ _ _ _ (getGame_none _ _ Hgame)) in Hg'.
      by eapply Hinv.
  - unfold excludePlayer in Hg'. stats_simple Hinv Hg'.
  - unfold getExcludedPlayers in Hg'. run_monad. split_run Hg'; by eapply Hinv.
  - unfold handleTimeSyncRequest in Hg'. run_monad. by eapply Hinv.
  - cbn in Hg'. by eapply Hinv.
  - cbn in Hg'. by eapply Hinv.
Qed.

Lemma reachable_statsInv (s : Service) :
  reachable s -> forall g game, activeGames s !! g = Some game -> statsInv game.
Proof.
  induction 1 as [s Hempty | s c Hreach IH].
  - intros g game. by rewrite Hempty, lookup_empty.
  - by apply perform_statsInv.
Qed.

Lemma roundDiv_between (a n low high : Z) :
  0 < n -> low * n <= a <= high * n -> low <= roundDiv a n <= high.
Proof.
  intros Hn [Hlow Hhigh]. unfold roundDiv. split.
  - apply Z.div_le_lower_bound; lia.
  - assert ((2 * a + n) / (2 * n) < high + 1); [|lia].
    apply Z.div_lt_upper_bound; lia.
Qed.

Lemma reachable_serviceAnswered : reachable serviceAnswered.
Proof.
  apply (reachable_call _ (RecordAnswer "g" 7 "B2" (JNum 1) (synced 4001))).
  apply (reachable_call _ (GetCurrentQuestion "g")).
  apply (reachable_call _ (StartGame "g")).
  apply (reachable_call _ (RegisterPlayer "g" "B2" "Ada")).
  apply (reachable_call _ (CreateGame "g" "quiz" [42; 7] demoSettings)).
  by apply reachable_fresh.
Qed.



(** ** The ranking *)

(** The sort with a comparator that is a total preorder. *)
Section SortOrder.
Context {A : Type} (cmp : A -> A -> Z).
Hypothesis cmp_trans : forall a b c, cmp a b <= 0 -> cmp b c <= 0 -> cmp a c <= 0.
Hypothesis cmp_total : forall a b, 0 < cmp a b -> cmp b a <= 0.

Lemma insert_sorted_permutation (x : A) (l : list A) :
  insert_sorted cmp x l ≡ₚ x :: l.
Proof.
  induction l as [|y l IH]; cbn; [done|].
  destruct (0 <? cmp x y); [|done].
  rewrite IH. apply Permutation_swap.
Qed.

Lemma sort_permutation (l : list A) : sort cmp l ≡ₚ l.
Proof.
  induction l as [|x l IH]; cbn; [done|].
  fold (sort cmp l). by rewrite insert_sorted_permutation, IH.
Qed.

Lemma insert_sorted_ordered (x : A) (l : list A) :
  StronglySorted (fun a b => cmp a b <= 0) l ->
  StronglySorted (fun a b => cmp a b <= 0) (insert_sorted cmp x l).
Proof.
  induction l as [|y l IH]; cbn; intros Hl.
  - by repeat constructor.
  - apply StronglySorted_inv in Hl as [Hl Hy].
    destruct (Z.ltb_spec 0 (cmp x y)) as [Hgt|Hle].
    + constructor; [by apply IH|].
      rewrite insert_sorted_permutation. constructor; [by apply cmp_total|done].
    + constructor; [by constructor|].
      constructor; [done|].
      eapply Forall_impl; [exact Hy|]. intros z Hz. by apply (cmp_trans _ y).
Qed.

Lemma sort_ordered (l : list A) : StronglySorted (fun a b => cmp a b <= 0) (sort cmp l).
Proof.
  induction l as [|x l IH]; cbn; [constructor|by apply insert_sorted_ordered].
Qed.
End SortOrder.

Lemma StronglySorted_lookup {A} (R : relation A) (l : list A) (i j : nat) (a b : A) :
  StronglySorted R l -> (i < j)%nat -> l !! i = Some a -> l !! j = Some b -> R a b.
Proof.
  intros Hl. revert i j. induction Hl as [|x l Hl IH Hx]; intros i j Hij Hi Hj.
  - by rewrite lookup_nil in Hi.
  - destruct j as [|j]; [lia|]. cbn in Hj. destruct i as [|i]; cbn in Hi.
    + injection Hi as <-. rewrite Forall_forall in Hx. apply Hx.
      by eapply list_elem_of_lookup_2.
    + apply (IH i j); [lia|done|done].
Qed.

(** [byRank a b <= 0]: [a] is not ranked after [b]. *)
Lemma byRank_le (a b : RankingEntry) :
  byRank a b <= 0
  <-> rk_score b < rk_score a
      \/ rk_score a = rk_score b
         /\ (rk_avgResponseTime a < rk_avgResponseTime b
             \/ rk_avgResponseTime a = rk_avgResponseTime b
                /\ rk_fastestResponseTime a <= rk_fastestResponseTime b).
Proof.
  unfold byRank.
  destruct (Z.eqb_spec (rk_score b) (rk_score a));
    destruct (Z.eqb_spec (rk_avgResponseTime a) (rk_avgResponseTime b)); cbn; lia.
Qed.

Lemma byRank_trans (a b c : RankingEntry) :
  byRank a b <= 0 -> byRank b c <= 0 -> byRank a c <= 0.
Proof. rewrite !byRank_le. lia. Qed.

Lemma byRank_total (a b : RankingEntry) : 0 < byRank a b -> byRank b a <= 0.
Proof.
  intros H. assert (~ byRank a b <= 0) as Hn by lia.
  rewrite byRank_le in *. lia.
Qed.


(** ** Buzzes with the same response time *)

Section SortFirst.
Context {A : Type} (key : A -> Z).

(** The comparator [(a, b) => key(a) - key(b)], as in [SortFacts]. *)
Let cmp (a b : A) : Z := key a - key b.

(** The head of the sorted array is the first of the elements with the
    least key. *)
Lemma sort_head_first (l : list A) (w : A) (others : list A) :
  sort cmp l = w :: others ->
  exists before after,
    l = before ++ w :: after
    /\ (forall x, x ∈ before -> key w < key x)
    /\ (forall x, x ∈ after -> key w <= key x).
Proof.
  revert w others. induction l as [|x l IH]; intros w others Hsort; [done|].
  cbn in Hsort. fold (sort cmp l) in Hsort.
  destruct (sort cmp l) as [|h t] eqn:E.
  - apply (sort_nil_inv key) in E. subst l. cbn in Hsort. injection Hsort as <- <-.
    exists [], []. split; [done|]. split; intros y Hy; by apply elem_of_nil in Hy.
  - cbn in Hsort. unfold cmp at 1 in Hsort.
    destruct (Z.ltb_spec 0 (key x - key h)) as [Hgt|Hle].
    + injection Hsort as <- <-.
      destruct (IH h t eq_refl) as (before & after & -> & Hbefore & Hafter).
      exists (x :: before), after. split; [done|]. split; [|exact Hafter].
      intros y Hy. apply elem_of_cons in Hy as [->|Hy]; [lia|by apply Hbefore].
    + injection Hsort as <- <-.
      exists [], l. split; [done|]. split; [intros y Hy; by apply elem_of_nil in Hy|].
      intros y Hy. destruct (sort_head_least key l h t E) as [_ Hleast].
      specialize (Hleast y Hy). lia.
Qed.
End SortFirst.

Lemma StronglySorted_filter {A} (R : relation A) (P : A -> bool) (l : list A) :
  StronglySorted R l -> StronglySorted R (List.filter P l).
Proof.
  induction 1 as [|x l Hl IH Hx]; cbn; [constructor|].
  destruct (P x); [|exact IH]. constructor; [exact IH|].
  rewrite Forall_forall in *. intros y Hy.
  apply list_elem_of_In, filter_In in Hy as [Hy _]. apply Hx. by apply list_elem_of_In.
Qed.

Lemma refs_from_sorted (buzzes : list Buzz.t) (k : nat) :
  StronglySorted (fun a b : nat * Buzz.t => (a.1 < b.1)%nat)
    (imap (fun i => pair (k + i)%nat) buzzes).
Proof.
  revert k. induction buzzes as [|b buzzes IH]; intros k; [constructor|].
  rewrite imap_cons. constructor.
  - assert (imap ((fun i => pair (k + i)%nat) ∘ S) buzzes
            = imap (fun i => pair (S k + i)%nat) buzzes) as ->.
    { apply imap_ext. intros i x _. cbn. f_equal. lia. }
    apply IH.
  - rewrite Forall_forall. intros [j y] Hy.
    apply elem_of_lookup_imap in Hy as (i & x & Heq & _). cbn in Heq.
    injection Heq as -> ->. cbn. lia.
Qed.

Lemma refs_sorted (buzzes : list Buzz.t) :
  StronglySorted (fun a b : nat * Buzz.t => (a.1 < b.1)%nat) (refs buzzes).
Proof. apply (refs_from_sorted buzzes 0). Qed.



(** ** The time service *)


(** X12. [validateTimestamp] accepts a timestamp exactly when it is within
    [maxDrift] of the clock, on either side and the bound included; without a
    second argument the bound is 60000 ms. It reads the clock once and
    touches nothing else. *)
Theorem validateTimestamp_window (s : Service) (timestamp : Z) (maxDrift : option Z) :
  let now := clock s (ticks s) in
  let bound := default 60000 maxDrift in
  validateTimestamp timestamp maxDrift s
  = (Ok (bool_decide (now - bound <= timestamp <= now + bound)),
     set_ticks (S (ticks s)) s).
Proof.
  intros now bound. unfold validateTimestamp.
  rewrite (bind_ok _ _ _ _ _ (Date_now_run s)). fold now bound.
  destruct (Z.ltb_spec bound (Z.abs (now - timestamp))).
  - by rewrite bool_decide_eq_false_2 by lia.
  - by rewrite bool_decide_eq_true_2 by lia.
Qed.

(** ** The router *)

Lemma deliver_received (w : Server) (ws : nat) (k : Socket) (message : Message) :
  sockets w !! ws = Some k ->
  deliver (Received ws message) w
  = try_catch
      (if negb (_identified k)
       then
         match message with
         | ANGULAR_CONNECT =>
             updateSocket ws (fun k =>
               set_clientType (Some angular) (set_identified true k)) ;;;
             handleAngularConnection ws
         | BUZZER_REGISTER buzzerID macAddress =>
             updateSocket ws (fun k =>
               set_buzzerID (Some buzzerID)
                 (set_clientType (Some buzzer) (set_identified true k))) ;;;
             handleBuzzerRegistration ws buzzerID macAddress
         | _ => handlePreIdentificationMessage ws message
         end
       else
         match _clientType k with
         | Some angular => handleAngularMessage ws message
         | Some buzzer => handleBuzzerMessage (default "" (_buzzerID k)) ws message
         | None => ret tt
         end)
      (fun _ => ret tt) w.
Proof.
  intros Hsock. cbn [deliver]. unfold try_catch, routeMessage, gets, bind.
  by rewrite Hsock.
Qed.





Lemma heartbeat_run (w : Server) (ws : nat) (k : Socket) :
  sockets w !! ws = Some k ->
  deliver (HeartbeatAt ws) w
  = (Ok tt,
     set_sockets
       (<[ws := if isAlive k then set_isAlive false k else set_readyState CLOSED k]>
          (sockets w)) w).
Proof.
  intros Hsock. cbn [deliver]. unfold gets, bind. rewrite Hsock.
  destruct (isAlive k); cbn; unfold updateSocket, modify; do 2 f_equal;
    apply map_eq; intros i; destruct (decide (ws = i)) as [<-|Hne];
    by rewrite ?lookup_alter_eq, ?lookup_insert_eq, ?Hsock,
         ?lookup_alter_ne, ?lookup_insert_ne.
Qed.

Lemma pong_run (w : Server) (ws : nat) (k : Socket) :
  sockets w !! ws = Some k ->
  deliver (Pong ws) w = (Ok tt, set_sockets (<[ws := set_isAlive true k]> (sockets w)) w).
Proof.
  intros Hsock. cbn [deliver]. unfold updateSocket, modify. do 2 f_equal.
  apply map_eq; intros i; destruct (decide (ws = i)) as [<-|Hne];
    by rewrite ?lookup_alter_eq, ?lookup_insert_eq, ?Hsock,
         ?lookup_alter_ne, ?lookup_insert_ne.
Qed.

(** X15. The heartbeat. A transport that is marked alive is pinged and
    marked not alive; its [pong] marks it alive again. A transport still
    marked not alive at the next heartbeat is terminated: it is no longer
    open, so nothing is sent to it any more. A transport therefore survives
    two heartbeats in a row only if a [pong] came in between. *)
Theorem heartbeat_two_strikes (w : Server) (ws : nat) (k : Socket)
    (Hsock : sockets w !! ws = Some k)
    (Hopen : readyState k = OPEN) :
  (isAlive k = true ->
     sockets (deliverAll [HeartbeatAt ws] w) !! ws = Some (set_isAlive false k)
     /\ isOpen (deliverAll [HeartbeatAt ws] w) ws = true
     /\ isOpen (deliverAll [HeartbeatAt ws; HeartbeatAt ws] w) ws = false
     /\ sockets (deliverAll [HeartbeatAt ws; Pong ws; HeartbeatAt ws] w) !! ws
        = Some (set_isAlive false k)
     /\ isOpen (deliverAll [HeartbeatAt ws; Pong ws; HeartbeatAt ws] w) ws = true)
  /\ (isAlive k = false ->
        isOpen (deliverAll [HeartbeatAt ws] w) ws = false
        /\ forall type payload,
             sendToClient ws type payload (deliverAll [HeartbeatAt ws] w)
             = (Ok tt, deliverAll [HeartbeatAt ws] w)).
Proof.
  pose proof (heartbeat_run w ws k Hsock) as Hfirst.
  split.
  - intros Halive. rewrite Halive in Hfirst. cbn [deliverAll].
    rewrite Hfirst. cbn [snd].
    set (w1 := set_sockets (<[ws := set_isAlive false k]> (sockets w)) w).
    assert (sockets w1 !! ws = Some (set_isAlive false k)) as Hsock1
      by apply lookup_insert_eq.
    split; [exact Hsock1|].
    split; [unfold isOpen; rewrite Hsock1; cbn; by rewrite Hopen|].
    split.
    + rewrite (heartbeat_run w1 ws _ Hsock1). cbn.
      unfold isOpen. cbn. by rewrite lookup_insert_eq.
    + rewrite (pong_run w1 ws _ Hsock1). cbn [snd].
      set (w2 := set_sockets _ w1).
      assert (sockets w2 !! ws = Some (set_isAlive true (set_isAlive false k))) as Hsock2
        by apply lookup_insert_eq.
      rewrite (heartbeat_run w2 ws _ Hsock2). cbn [snd isAlive set_isAlive].
      unfold isOpen. cbn. rewrite !lookup_insert_eq. cbn. by rewrite Hopen.
  - intros Hdead. rewrite Hdead in Hfirst.
    assert (isOpen (deliverAll [HeartbeatAt ws] w) ws = false) as Hclosed.
    { cbn [deliverAll]. rewrite Hfirst. unfold isOpen. cbn.
      by rewrite lookup_insert_eq. }
    split; [exact Hclosed|]. intros type payload. by apply sendToClient_closed.
Qed.

Lemma heartbeat_two_strikes_witness :
  isOpen (deliverAll [HeartbeatAt 1; HeartbeatAt 1] serverOneBuzzer) 1 = false
  /\ isOpen (deliverAll [HeartbeatAt 1; Pong 1; HeartbeatAt 1] serverOneBuzzer) 1 = true.
Proof.
  destruct (heartbeat_two_strikes serverOneBuzzer 1
              (default (newSocket "") (sockets serverOneBuzzer !! 1%nat)))
    as [Halive _]; [vm_compute; reflexivity|vm_compute; reflexivity|].
  destruct Halive as (_ & _ & Hdead & _ & Hkept); [vm_compute; reflexivity|].
  by split.
Defined.

(** ** The registry of buzzers *)

Lemma registryGet_None (buzzerID : string) (reg : list (string * BuzzerData)) :
  registryGet buzzerID reg = None <-> forall e, e ∈ reg -> e.1 <> buzzerID.
Proof.
  unfold registryGet. induction reg as [|e reg IH]; cbn.
  - split; [|done]. intros _ e He. by apply elem_of_nil in He.
  - destruct (bool_decide_reflect (e.1 = buzzerID)) as [Heq|Hne]; cbn.
    + split; [done|]. intros H. exfalso. apply (H e); [by left|done].
    + rewrite IH. split.
      * intros H e' He'. apply elem_of_cons in He' as [->|He']; [done|by apply H].
      * intros H e' He'. apply H. by right.
Qed.

Lemma registrySet_fresh (buzzerID : string) (data : BuzzerData)
    (reg : list (string * BuzzerData)) :
  registryGet buzzerID reg = None ->
  registrySet buzzerID data reg = reg ++ [(buzzerID, data)].
Proof.
  rewrite registryGet_None. induction reg as [|e reg IH]; intros H; cbn; [done|].
  rewrite bool_decide_eq_false_2 by (apply H; by left).
  rewrite IH; [done|]. intros e' He'. apply H. by right.
Qed.

Lemma registryGet_app_fresh (buzzerID : string) (data : BuzzerData)
    (reg : list (string * BuzzerData)) (other : string) :
  registryGet other (reg ++ [(buzzerID, data)])
  = match registryGet other reg with
    | Some d => Some d
    | None => if bool_decide (buzzerID = other) then Some data else None
    end.
Proof.
  unfold registryGet. induction reg as [|e reg IH]; cbn.
  - by destruct (bool_decide (buzzerID = other)).
  - by destruct (bool_decide (e.1 = other)).
Qed.

Lemma isOpen_ext (w w' : Server) (ws : nat) :
  sockets w' !! ws = sockets w !! ws -> isOpen w' ws = isOpen w ws.
Proof. intros H. unfold isOpen. by rewrite H. Qed.

Lemma sentTo_ext (w w' : Server) (ws : nat) :
  sockets w' !! ws = sockets w !! ws -> sentTo w' ws = sentTo w ws.
Proof. intros H. unfold sentTo. by rewrite H. Qed.

(** X16. A transport that has not identified itself and sends
    [BUZZER_REGISTER] with an identifier the registry does not hold is
    entered at the end of the registry with the player number
    [size + 1], the name "En attente de nom", its MAC address (or "unknown"
    when the message has none) and its address; the transport is marked as
    the buzzer of this identifier and sent [CONNECTION_ACK] with that player
    number; the console, when one is open, is sent [BUZZER_CONNECTED] with
    the new size of the registry. Earlier entries and the games are not
    touched. *)
Theorem registration_assigns_next_number (w : Server) (ws : nat) (k : Socket)
    (buzzerID : string) (mac : option string)
    (Hsock : sockets w !! ws = Some k)
    (Hunidentified : _identified k = false)
    (Hopen : readyState k = OPEN)
    (Hnew : registryGet buzzerID (buzzerClients w) = None) :
  let number := Z.of_nat (length (buzzerClients w)) + 1 in
  let info :=
    {| info_name := "En attente de nom";
       macAddress := match mac with
                     | Some m => if bool_decide (m = "") then "unknown" else m
                     | None => "unknown"
                     end;
       connectedAt := clock (service w) (ticks (service w));
       playerNumber := number; info_ip := _ip k;
       battery := JNull; wifiRSSI := JNull; latency := JNull |} in
  exists w' k',
    deliver (Received ws (BUZZER_REGISTER buzzerID mac)) w = (Ok tt, w')
    /\ buzzerClients w' = buzzerClients w ++ [(buzzerID, {| bd_ws := ws; bd_info := info |})]
    /\ registryGet buzzerID (buzzerClients w') = Some {| bd_ws := ws; bd_info := info |}
    /\ sockets w' !! ws = Some k'
    /\ _identified k' = true /\ _clientType k' = Some buzzer
    /\ _buzzerID k' = Some buzzerID /\ readyState k' = OPEN
    /\ (angularClient w <> Some ws ->
          sent k'
          = sent k
            ++ [Text "CONNECTION_ACK" (clock (service w) (S (S (ticks (service w)))))
                  (JObj [("buzzerID", JStr buzzerID);
                         ("name", JStr "En attente de nom");
                         ("serverTime", JNum (clock (service w) (S (ticks (service w)))));
                         ("playerNumber", JNum number)])])
    /\ (forall c,
          angularClient w = Some c -> c <> ws -> isOpen w c = true ->
          sentTo w' c
          = sentTo w c
            ++ [Text "BUZZER_CONNECTED" (clock (service w) (S (S (S (ticks (service w))))))
                  (JObj [("buzzer",
                          JObj [("id", JStr buzzerID);
                                ("name", JStr "En attente de nom");
                                ("connectedAt", JNum (clock (service w) (ticks (service w))))]);
                         ("totalBuzzers", JNum number)])])
    /\ angularClient w' = angularClient w
    /\ activeGames (service w') = activeGames (service w).
Proof.
  intros number info.
  rewrite (deliver_received w ws k _ Hsock), Hunidentified. cbn [negb].
  unfold try_catch.
  set (w0 := set_sockets
               (alter (fun k => set_buzzerID (Some buzzerID)
                                  (set_clientType (Some buzzer) (set_identified true k)))
                  ws (sockets w)) w).
  assert (updateSocket ws
            (fun k => set_buzzerID (Some buzzerID)
                        (set_clientType (Some buzzer) (set_identified true k))) w
          = (Ok tt, w0)) as Hmark by reflexivity.
  rewrite (bind_ok _ _ _ _ _ Hmark).
  set (k0 := set_buzzerID (Some buzzerID)
               (set_clientType (Some buzzer) (set_identified true k))).
  assert (sockets w0 !! ws = Some k0) as Hsock0.
  { unfold w0. cbn. by rewrite lookup_alter_eq, Hsock. }
  unfold handleBuzzerRegistration. unfold gets at 1, bind at 1.
  change (buzzerClients w0) with (buzzerClients w).
  unfold registryHas. rewrite Hnew.
  rewrite bool_decide_eq_false_2 by (intros [? ?]; discriminate).
  rewrite (bind_ok _ _ _ _ _ (now_run w0)).
  unfold gets at 1, bind at 1.
  replace (from_option _ip "" (sockets (ticked w0) !! ws)) with (_ip k)
    by (cbn; by rewrite lookup_alter_eq, Hsock).
  change (timeOf w0) with (clock (service w) (ticks (service w))).
  change (macOrUnknown mac) with (macAddress info).
  fold number. fold info.
  unfold modify at 1, bind at 1.
  set (w1 := set_buzzerClients _ (ticked w0)).
  rewrite (bind_ok _ _ _ _ _ (now_run w1)).
  assert (isOpen (ticked w1) ws = true) as Hopen1.
  { apply isOpen_true. exists k0. split; [|exact Hopen].
    cbn. by rewrite lookup_alter_eq, Hsock. }
  rewrite (bind_ok _ _ _ _ _ (sendToClient_open _ _ _ _ Hopen1)).
  set (ack := Text "CONNECTION_ACK" _ _).
  set (w2 := pushed ws ack (ticked (ticked w1))).
  unfold gets at 1, bind at 1.
  assert (buzzerClients w2
          = buzzerClients w ++ [(buzzerID, {| bd_ws := ws; bd_info := info |})]) as Hreg2.
  { cbn. by apply registrySet_fresh. }
  rewrite Hreg2, length_app, Nat.add_comm. cbn [length Nat.add].
  replace (Z.of_nat (S (length (buzzerClients w)))) with number by (unfold number; lia).
  assert (sockets w2 !! ws = Some (set_sent (sent k ++ [ack]) k0)) as Hsock2.
  { cbn. by rewrite !lookup_alter_eq, Hsock. }
  cbn [info_name connectedAt playerNumber].
  destruct (sendToAngular_cases w2 "BUZZER_CONNECTED"
              (JObj [("buzzer",
                      JObj [("id", JStr buzzerID); ("name", JStr "En attente de nom");
                            ("connectedAt", JNum (clock (service w) (ticks (service w))))]);
                     ("totalBuzzers", JNum number)]))
    as [Hsilent | (c & Hc & Hopenc & Hsend)].
  - rewrite Hsilent. exists w2, (set_sent (sent k ++ [ack]) k0).
    split; [reflexivity|]. split; [exact Hreg2|].
    split. { rewrite Hreg2, registryGet_app_fresh, Hnew. by rewrite bool_decide_eq_true_2. }
    split; [exact Hsock2|]. do 4 (split; [done|]).
    split; [done|]. split; [|done].
    intros c Hc Hne Hopenc. exfalso.
    unfold sendToAngular in Hsilent. unfold gets at 1, bind at 1 in Hsilent.
    change (angularClient w2) with (angularClient w) in Hsilent. rewrite Hc in Hsilent.
    unfold gets at 1, bind at 1 in Hsilent.
    assert (isOpen w2 c = true) as Hopen2.
    { rewrite <- Hopenc. apply isOpen_ext. cbn. by rewrite !lookup_alter_ne. }
    rewrite Hopen2, (sendToClient_open _ _ _ _ Hopen2) in Hsilent.
    apply (f_equal (fun r => ticks (service (snd r)))) in Hsilent.
    cbn in Hsilent. lia.
  - rewrite Hsend. change (angularClient w2) with (angularClient w) in Hc.
    destruct (decide (c = ws)) as [->|Hne].
    + exists (pushed ws (Text "BUZZER_CONNECTED" (timeOf w2)
                          (JObj [("buzzer",
                                  JObj [("id", JStr buzzerID);
                                        ("name", JStr "En attente de nom");
                                        ("connectedAt",
                                         JNum (clock (service w) (ticks (service w))))]);
                                 ("totalBuzzers", JNum number)])) (ticked w2)).
      eexists. split; [reflexivity|]. split; [exact Hreg2|].
      split. { cbn -[registryGet]. change (registrySet _ _ _) with (buzzerClients w2).
               rewrite Hreg2, registryGet_app_fresh, Hnew.
               by rewrite bool_decide_eq_true_2. }
      split. { cbn. by rewrite !lookup_alter_eq, Hsock. }
      do 4 (split; [done|]). split; [by intros []|]. split; [|done].
      intros c' Hc' Hne'. congruence.
    + eexists _, (set_sent (sent k ++ [ack]) k0).
      split; [reflexivity|]. split; [exact Hreg2|].
      split. { cbn -[registryGet]. change (registrySet _ _ _) with (buzzerClients w2).
               rewrite Hreg2, registryGet_app_fresh, Hnew.
               by rewrite bool_decide_eq_true_2. }
      split. { cbn. rewrite lookup_alter_ne by done. by rewrite !lookup_alter_eq, Hsock. }
      do 4 (split; [done|]). split; [done|]. split; [|done].
      intros c' Hc' Hne' Hopen'. assert (c' = c) as -> by congruence.
      rewrite sentTo_pushed_eq.
      2:{ apply isOpen_true in Hopenc as (kc & Hkc & _). by exists kc. }
      f_equal. apply sentTo_ext. cbn. by rewrite !lookup_alter_ne.
Qed.

Lemma registration_assigns_next_number_witness :
  exists w' info,
    deliver (Received 2 (BUZZER_REGISTER "Y" None)) serverOneBuzzer = (Ok tt, w')
    /\ registryGet "Y" (buzzerClients w') = Some {| bd_ws := 2; bd_info := info |}
    /\ playerNumber info = 2 /\ macAddress info = "unknown".
Proof.
  destruct (registration_assigns_next_number serverOneBuzzer 2 (newSocket "10.0.0.3")
              "Y" None) as (w' & k' & Hrun & _ & Hget & _).
  - vm_compute; reflexivity.
  - reflexivity.
  - reflexivity.
  - vm_compute; reflexivity.
  - eexists w', _. split; [exact Hrun|]. split; [exact Hget|].
    split; [vm_compute; reflexivity|reflexivity].
Defined.

Lemma registryGet_delete (buzzerID other : string) (reg : list (string * BuzzerData)) :
  registryGet other (registryDelete buzzerID reg)
  = if bool_decide (buzzerID = other) then None else registryGet other reg.
Proof.
  unfold registryGet, registryDelete. induction reg as [|e reg IH]; cbn.
  - by destruct (bool_decide (buzzerID = other)).
  - destruct (bool_decide_reflect (e.1 = buzzerID)) as [Heq|Hne]; cbn.
    + rewrite IH. destruct (bool_decide_reflect (buzzerID = other)) as [Heq'|Hne']; [done|].
      rewrite bool_decide_eq_false_2 by congruence. done.
    + destruct (bool_decide_reflect (e.1 = other)) as [Heq'|Hne']; cbn.
      * rewrite bool_decide_eq_false_2 by congruence. done.
      * exact IH.
Qed.

Lemma closed_run (w : Server) (ws : nat) (k : Socket) :
  sockets w !! ws = Some k ->
  deliver (Closed ws) w
  = (match _clientType k with
     | Some angular => modify (set_angularClient None)
     | Some buzzer =>
         match truthyId (_buzzerID k) with
         | Some buzzerID =>
             modify (fun w =>
               set_buzzerClients (registryDelete buzzerID (buzzerClients w)) w) ;;;
             size <- gets (fun w => length (buzzerClients w)) ;;
             sendToAngular "BUZZER_DISCONNECTED"
               (JObj [("buzzerID", JStr buzzerID);
                      ("totalBuzzers", JNum (Z.of_nat size))])
         | None => ret tt
         end
     | None => ret tt
     end) (set_sockets (<[ws := set_readyState CLOSED k]> (sockets w)) w).
Proof.
  intros Hsock. cbn [deliver]. unfold updateSocket, modify at 1, bind at 1.
  assert (alter (set_readyState CLOSED) ws (sockets w)
          = <[ws := set_readyState CLOSED k]> (sockets w)) as ->.
  { apply map_eq; intros i; destruct (decide (ws = i)) as [<-|Hne];
      by rewrite ?lookup_alter_eq, ?lookup_insert_eq, ?Hsock,
           ?lookup_alter_ne, ?lookup_insert_ne. }
  unfold handleDisconnection. unfold gets at 1, bind at 1. cbn [sockets set_sockets].
  by rewrite lookup_insert_eq.
Qed.



(** ** Jingle requests that are refused *)

Lemma sendToAngular_tells (type : string) (payload : Json) (w : Server) :
  exists w',
    sendToAngular type payload w = (Ok tt, w')
    /\ onlyTellsConsole type payload w w'.
Proof.
  destruct (sendToAngular_cases w type payload) as [Hsilent | (c & Hc & Hopen & Hsend)].
  - exists w. split; [exact Hsilent|]. do 7 (split; [done|]).
    intros c Hc Hopen. exfalso.
    unfold sendToAngular, bind, gets in Hsilent. rewrite Hc, Hopen in Hsilent.
    rewrite (sendToClient_open _ _ _ _ Hopen) in Hsilent.
    apply (f_equal (fun r => ticks (service (snd r)))) in Hsilent.
    cbn in Hsilent. lia.
  - eexists. split; [exact Hsend|]. do 5 (split; [done|]). split; [|split].
    + intros ws Hne. cbn. rewrite lookup_alter_ne; [done|]. intros ->. by apply Hne.
    + intros c' Hc' Hclosed. congruence.
    + intros c' Hc' _. assert (c' = c) as -> by congruence.
      eexists. rewrite sentTo_pushed_eq; [by rewrite sentTo_ticked|].
      apply isOpen_true in Hopen as (k & Hk & _). by exists k.
Qed.



(** ** What the handlers keep *)

Section Keeps.
Context {S : Type} (I : S -> Prop).

Lemma keeps_ret {A} (a : A) : keeps I (ret a).
Proof. by intros s Hs. Qed.

Lemma keeps_throw {A} (e : string) : keeps I (throw (A := A) e).
Proof. by intros s Hs. Qed.

Lemma keeps_gets {A} (f : S -> A) : keeps I (gets f).
Proof. by intros s Hs. Qed.

Lemma keeps_modify (f : S -> S) : (forall s, I s -> I (f s)) -> keeps I (modify f).
Proof. intros Hf s Hs. by apply Hf. Qed.

Lemma keeps_bind {A B} (c : M S A) (k : A -> M S B) :
  keeps I c -> (forall a, keeps I (k a)) -> keeps I (bind c k).
Proof.
  intros Hc Hk s Hs. unfold bind. specialize (Hc s Hs).
  destruct (c s) as [[a|e] s']; cbn in *; [by apply Hk|done].
Qed.

Lemma keeps_try_catch {A} (c : M S A) (h : string -> M S A) :
  keeps I c -> (forall e, keeps I (h e)) -> keeps I (try_catch c h).
Proof.
  intros Hc Hh s Hs. unfold try_catch. specialize (Hc s Hs).
  destruct (c s) as [[a|e] s']; cbn in *; [done|by apply Hh].
Qed.

Lemma keeps_when (b : bool) (c : M S unit) : keeps I c -> keeps I (when b c).
Proof. intros Hc. destruct b; [exact Hc|apply keeps_ret]. Qed.

Lemma keeps_forEachM {A} (l : list A) (f : A -> M S unit) :
  (forall x, keeps I (f x)) -> keeps I (forEachM l f).
Proof.
  intros Hf. induction l as [|x l IH]; cbn; [apply keeps_ret|].
  apply keeps_bind; [apply Hf|by intros _].
Qed.
End Keeps.

(** Steps through a computation built from the monad's operations. *)
Ltac keeps_step :=
  match goal with
  | |- keeps _ (bind _ _) => apply keeps_bind; [|intros ?]
  | |- keeps _ (ret _) => apply keeps_ret
  | |- keeps _ (throw _) => apply keeps_throw
  | |- keeps _ (gets _) => apply keeps_gets
  | |- keeps _ (try_catch _ _) => apply keeps_try_catch; [|intros ?]
  | |- keeps _ (when _ _) => apply keeps_when
  | |- keeps _ (forEachM _ _) => apply keeps_forEachM; intros ?
  | |- keeps _ (match ?x with _ => _ end) => destruct x
  | |- keeps _ (let '(_, _) := ?x in _) => destruct x
  end.

(** The changes of a transport the handlers make outside [ws.send]. *)
Lemma socketStep_field (f : Socket -> Socket) :
  (forall k, sent (f k) = sent k) -> (forall k, readyState (f k) = readyState k) ->
  socketStep f.
Proof. intros Hsent Hstate k. split; [apply Hsent|left; apply Hstate]. Qed.

Lemma socketStep_closing (code : Z) (why : string) :
  socketStep (fun k =>
    match readyState k with
    | OPEN | CONNECTING => set_closeCall (Some (code, why)) (set_readyState CLOSING k)
    | _ => k
    end).
Proof.
  intros k. unfold gone. destruct (readyState k) eqn:E; cbn; rewrite ?E; split; auto.
Qed.

Lemma socketStep_closed : socketStep (set_readyState CLOSED).
Proof. intros k. split; [done|]. right. by right. Qed.

(** A property of the server that is kept by the changes of a transport
    that send and open nothing, by [sendToClient], and by every change of the
    registry, the console reference and the service. *)
Section ServerFrame.
Context (I : Server -> Prop).
Hypothesis I_updateSocket : forall ws f, socketStep f -> keeps I (updateSocket ws f).
Hypothesis I_sendToClient :
  forall ws type payload, keeps I (sendToClient ws type payload).
Hypothesis I_angularClient : forall w v, I w -> I (set_angularClient v w).
Hypothesis I_buzzerClients : forall w v, I w -> I (set_buzzerClients v w).
Hypothesis I_service : forall w v, I w -> I (set_service v w).

Lemma keeps_liftService {A} (c : M Service A) : keeps I (liftService c).
Proof.
  intros w Hw. unfold liftService. destruct (c (service w)) as [o s']. cbn.
  by apply I_service.
Qed.

Lemma keeps_now : keeps I now.
Proof. apply keeps_liftService. Qed.

Lemma keeps_wsClose (ws : nat) (code : Z) (why : string) : keeps I (wsClose ws code why).
Proof. apply I_updateSocket, socketStep_closing. Qed.

Lemma keeps_sendToClient (ws : nat) (type : string) (payload : Json) :
  keeps I (sendToClient ws type payload).
Proof. apply I_sendToClient. Qed.

Lemma keeps_sendToAngular (type : string) (payload : Json) :
  keeps I (sendToAngular type payload).
Proof.
  unfold sendToAngular. repeat keeps_step; auto using keeps_sendToClient.
Qed.

Lemma keeps_sendToBuzzer (buzzerID type : string) (payload : Json) :
  keeps I (sendToBuzzer buzzerID type payload).
Proof.
  unfold sendToBuzzer. repeat keeps_step; auto using keeps_sendToClient.
Qed.

Lemma keeps_broadcastToBuzzers (type : string) (payload : Json) :
  keeps I (broadcastToBuzzers type payload).
Proof.
  unfold broadcastToBuzzers. repeat keeps_step; auto using keeps_sendToBuzzer.
Qed.

Lemma keeps_sendBuzzerListToAngular : keeps I sendBuzzerListToAngular.
Proof.
  unfold sendBuzzerListToAngular. repeat keeps_step; auto using keeps_sendToAngular.
Qed.

Lemma keeps_handleAngularConnection (ws : nat) : keeps I (handleAngularConnection ws).
Proof.
  unfold handleAngularConnection.
  repeat keeps_step;
    auto using keeps_now, keeps_sendToClient, keeps_sendBuzzerListToAngular.
  apply keeps_modify. intros w Hw. by apply I_angularClient.
Qed.

Lemma keeps_handleBuzzerRegistration (ws : nat) (buzzerID : string)
    (macAddress : option string) :
  keeps I (handleBuzzerRegistration ws buzzerID macAddress).
Proof.
  unfold handleBuzzerRegistration.
  repeat keeps_step;
    auto using keeps_now, keeps_sendToClient, keeps_sendToAngular, keeps_wsClose.
  apply keeps_modify. intros w Hw. by apply I_buzzerClients.
Qed.

Lemma keeps_handleDisconnection (ws : nat) : keeps I (handleDisconnection ws).
Proof.
  unfold handleDisconnection.
  repeat keeps_step; auto using keeps_sendToAngular;
    apply keeps_modify; intros w Hw; auto.
Qed.

Lemma keeps_handlePreIdentificationMessage (ws : nat) (message : Message) :
  keeps I (handlePreIdentificationMessage ws message).
Proof.
  unfold handlePreIdentificationMessage.
  repeat keeps_step; auto using keeps_now, keeps_sendToClient.
Qed.

Lemma keeps_handleStatusUpdate (buzzerID : string) (bat rssi heap : Json) :
  keeps I (handleStatusUpdate buzzerID bat rssi heap).
Proof.
  unfold handleStatusUpdate.
  repeat keeps_step; auto using keeps_sendToAngular;
    apply keeps_modify; intros w Hw; auto.
Qed.

Lemma keeps_handleMCQAnswer (buzzerID gameId : string) (questionId : Z)
    (answer : Json) (timestamps : option Timestamps) :
  keeps I (handleMCQAnswer buzzerID gameId questionId answer timestamps).
Proof.
  unfold handleMCQAnswer.
  repeat keeps_step;
    auto using keeps_sendToAngular, keeps_sendToBuzzer, keeps_liftService.
Qed.

Lemma keeps_handleBuzzerBuzz (buzzerID gameId : string) (questionId : Z)
    (timestamps : option Timestamps) :
  keeps I (handleBuzzerBuzz buzzerID gameId questionId timestamps).
Proof.
  unfold handleBuzzerBuzz.
  repeat keeps_step; auto using keeps_sendToBuzzer, keeps_liftService.
Qed.

Lemma keeps_handleBuzzerMessage (buzzerID : string) (ws : nat) (message : Message) :
  keeps I (handleBuzzerMessage buzzerID ws message).
Proof.
  unfold handleBuzzerMessage.
  repeat keeps_step;
    auto using keeps_now, keeps_sendToClient, keeps_handleStatusUpdate,
      keeps_handleMCQAnswer, keeps_handleBuzzerBuzz.
Qed.

Lemma keeps_handlePlayerRename (buzzerID newName : string) :
  keeps I (handlePlayerRename buzzerID newName).
Proof.
  unfold handlePlayerRename.
  repeat keeps_step; auto using keeps_sendToBuzzer.
  apply keeps_modify; intros w Hw; auto.
Qed.

Lemma keeps_handleGameStart (gameId name : string) (totalQuestions : Json) :
  keeps I (handleGameStart gameId name totalQuestions).
Proof. apply keeps_broadcastToBuzzers. Qed.

Lemma keeps_handleBuzzerForceDisconnect (buzzerID : string) :
  keeps I (handleBuzzerForceDisconnect buzzerID).
Proof.
  unfold handleBuzzerForceDisconnect. repeat keeps_step; auto using keeps_wsClose.
Qed.

Lemma keeps_handleBuzzCorrect (gameId : string) (questionId : Z) (buzzerID : string) :
  keeps I (handleBuzzCorrect gameId questionId buzzerID).
Proof.
  unfold handleBuzzCorrect.
  repeat keeps_step;
    auto using keeps_sendToBuzzer, keeps_sendToAngular, keeps_broadcastToBuzzers,
      keeps_liftService.
Qed.

Lemma keeps_onBuzzWinnerCallback (call : string * Z * Buzz.t) :
  keeps I (onBuzzWinnerCallback call).
Proof.
  destruct call as [[gameId questionId] winner]. unfold onBuzzWinnerCallback.
  repeat keeps_step; auto using keeps_sendToAngular, keeps_broadcastToBuzzers.
Qed.

(** Every event, given the three things that depend on the property: a new
    connection, a jingle request and a step of a jingle stream. *)
Lemma keeps_deliver (e : Event) :
  (forall ws ip,
     e = Connection ws ip ->
     keeps I (modify (fun w => set_sockets (<[ws := newSocket ip]> (sockets w)) w))) ->
  (forall w hasDb hasService v,
     I w ->
     I {| sockets := sockets w; angularClient := angularClient w;
          buzzerClients := buzzerClients w; db := hasDb; gameService := hasService;
          service := v; jingles := jingles w; files := files w; cwd := cwd w;
          activeJingleStreams := activeJingleStreams w; streams := streams w |}) ->
  (forall buzzerID jingleId, keeps I (handleJinglePlay buzzerID jingleId)) ->
  (forall sid, keeps I (streamStep sid)) ->
  keeps I (deliver e).
Proof.
  intros Hconnection Hdeps Hjingle Hstream. destruct e; cbn [deliver].
  - by apply Hconnection.
  - apply keeps_try_catch; [|intros; apply keeps_ret].
    unfold routeMessage. apply keeps_bind; [apply keeps_gets|]. intros [k|];
      [|apply keeps_ret].
    destruct (negb (_identified k)).
    + destruct message;
        auto using keeps_handlePreIdentificationMessage;
        (apply keeps_bind; [by apply I_updateSocket, socketStep_field|intros _]);
        auto using keeps_handleAngularConnection, keeps_handleBuzzerRegistration.
    + destruct (_clientType k) as [[]|]; [|apply keeps_handleBuzzerMessage|apply keeps_ret].
      unfold handleAngularMessage.
      destruct message;
        auto using keeps_ret, keeps_sendBuzzerListToAngular, keeps_handlePlayerRename,
          keeps_handleGameStart, keeps_handleBuzzerForceDisconnect,
          keeps_handleBuzzCorrect.
  - apply keeps_bind; [apply I_updateSocket, socketStep_closed|intros _].
    apply keeps_handleDisconnection.
  - by apply I_updateSocket, socketStep_field.
  - repeat keeps_step; auto using keeps_wsClose.
  - repeat keeps_step;
      [apply I_updateSocket, socketStep_closed|by apply I_updateSocket, socketStep_field].
  - repeat keeps_step; auto using keeps_liftService, keeps_onBuzzWinnerCallback.
  - apply Hstream.
  - apply keeps_modify. intros w Hw.
    destruct hasService; by apply Hdeps.
Qed.
End ServerFrame.

(** A property that does not look at the transports or the service is kept
    by every change of a transport and by [sendToClient]. *)
Section SocketBlind.
Context (I : Server -> Prop).
Hypothesis I_sockets : forall w v, I w -> I (set_sockets v w).
Hypothesis I_service : forall w v, I w -> I (set_service v w).

Lemma blind_updateSocket (ws : nat) (f : Socket -> Socket) : keeps I (updateSocket ws f).
Proof. apply keeps_modify. intros w Hw. by apply I_sockets. Qed.

Lemma blind_sendToClient (ws : nat) (type : string) (payload : Json) :
  keeps I (sendToClient ws type payload).
Proof.
  unfold sendToClient. repeat keeps_step.
  - intros w Hw. unfold now, liftService. destruct (Date_now (service w)). cbn.
    by apply I_service.
  - apply blind_updateSocket.
Qed.
End SocketBlind.

(** ** A jingle stream that loses its buzzer *)

Lemma deliverAll_keeps (I : Server -> Prop) (es : list Event) (w : Server) :
  (forall e, keeps I (deliver e)) -> I w -> I (deliverAll es w).
Proof.
  intros Hkeeps. revert w. induction es as [|e es IH]; intros w Hw; [exact Hw|].
  cbn [deliverAll]. apply IH. by apply Hkeeps.
Qed.

Section Stuck.
Context (buzzerID : string).

Lemma stuck_updateSocket (ws : nat) (f : Socket -> Socket) :
  keeps (stuckStreaming buzzerID) (updateSocket ws f).
Proof. by apply blind_updateSocket. Qed.

Lemma stuck_sendToClient (ws : nat) (type : string) (payload : Json) :
  keeps (stuckStreaming buzzerID) (sendToClient ws type payload).
Proof. by apply blind_sendToClient. Qed.

Lemma stuck_sendToAngular (type : string) (payload : Json) :
  keeps (stuckStreaming buzzerID) (sendToAngular type payload).
Proof.
  apply keeps_sendToAngular; auto using stuck_sendToClient.
Qed.

Lemma stuck_sendToBuzzer (b type : string) (payload : Json) :
  keeps (stuckStreaming buzzerID) (sendToBuzzer b type payload).
Proof.
  apply keeps_sendToBuzzer; auto using stuck_sendToClient.
Qed.

Lemma stuck_updateStream (sid : nat) (f : JingleStream -> JingleStream) :
  (forall t, st_buzzerID (f t) = st_buzzerID t) ->
  (forall t, st_destroyed t || st_ended t = true ->
             st_destroyed (f t) || st_ended (f t) = true) ->
  keeps (stuckStreaming buzzerID) (updateStream sid f).
Proof.
  intros Hid Hdead. apply keeps_modify. intros w [Hin Hall]. split; [exact Hin|].
  intros sid' t'. cbn. destruct (decide (sid = sid')) as [<-|Hne].
  - rewrite list_lookup_alter_eq. destruct (streams w !! sid) as [t|] eqn:Ht; [|done].
    cbn. intros [= <-] Hb. apply Hdead. apply (Hall sid t Ht). by rewrite <- Hid.
  - rewrite list_lookup_alter_ne by done. apply Hall.
Qed.

Lemma stuck_forget (other : string) :
  other <> buzzerID ->
  keeps (stuckStreaming buzzerID)
    (modify (fun w => set_activeJingleStreams (activeJingleStreams w ∖ {[other]}) w)).
Proof.
  intros Hne. apply keeps_modify. intros w [Hin Hall]. split; [|exact Hall].
  cbn. apply elem_of_difference. split; [exact Hin|].
  intros Hother. apply elem_of_singleton in Hother. congruence.
Qed.

Lemma stuck_handleJinglePlay (other : string) (jingleId : Z) :
  keeps (stuckStreaming buzzerID) (handleJinglePlay other jingleId).
Proof.
  pose proof stuck_sendToAngular as Hconsole.
  pose proof stuck_sendToBuzzer as Hbuzzer.
  intros w Hw. unfold handleJinglePlay. unfold gets at 1, bind at 1.
  destruct (bool_decide_reflect (other ∈ activeJingleStreams w)) as [Hbusy|Hidle].
  { by apply Hconsole. }
  assert (other <> buzzerID) as Hne by (intros ->; by destruct Hw).
  clear Hidle. refine ((_ : keeps (stuckStreaming buzzerID) _) w Hw). clear w Hw.
  unfold jingleError. repeat keeps_step; auto.
  - apply keeps_modify. intros w [Hin Hall]. split; [|exact Hall].
    cbn. apply elem_of_union. by right.
  - apply keeps_modify. intros w [Hin Hall]. split; [exact Hin|].
    intros sid t. cbn. intros Ht Hb.
    apply lookup_app_Some in Ht as [Ht|[_ Ht]]; [by apply (Hall sid t)|].
    apply list_lookup_singleton_Some in Ht as [_ <-]. cbn in Hb. congruence.
Qed.

Lemma stuck_streamStep (sid : nat) : keeps (stuckStreaming buzzerID) (streamStep sid).
Proof.
  pose proof stuck_sendToAngular as Hconsole.
  pose proof stuck_sendToBuzzer as Hbuzzer.
  intros w Hw. unfold streamStep. unfold gets at 1, bind at 1.
  destruct (streams w !! sid) as [t|] eqn:Ht; [|exact Hw].
  destruct (st_destroyed t || st_ended t) eqn:Hdead; [exact Hw|].
  assert (st_buzzerID t <> buzzerID) as Hne.
  { intros Heq. destruct Hw as [_ Hall]. rewrite (Hall sid t Ht Heq) in Hdead.
    discriminate. }
  clear Ht. refine ((_ : keeps (stuckStreaming buzzerID) _) w Hw). clear w Hw.
  unfold onStreamEnd, onStreamData, writeUInt32LE.
  repeat keeps_step; auto using stuck_forget.
  all: try (apply stuck_updateStream; [done|];
            intros t'; cbn; destruct (st_destroyed t'), (st_ended t'); done).
  all: apply stuck_updateSocket.
Qed.

Lemma stuck_deliver (e : Event) : keeps (stuckStreaming buzzerID) (deliver e).
Proof.
  apply keeps_deliver; try done;
    auto using stuck_sendToClient, stuck_handleJinglePlay, stuck_streamStep.
  - intros ws f _. apply stuck_updateSocket.
  - intros ws ip _. by apply keeps_modify.
Qed.
End Stuck.



(** ** Broadcasts *)

Lemma registryGet_elem (reg : list (string * BuzzerData)) (e : string * BuzzerData) :
  NoDup reg.*1 -> e ∈ reg -> registryGet e.1 reg = Some e.2.
Proof.
  unfold registryGet. induction reg as [|x reg IH]; intros Hnodup He.
  - by apply elem_of_nil in He.
  - cbn in Hnodup. apply NoDup_cons in Hnodup as [Hx Hnodup]. cbn.
    apply elem_of_cons in He as [->|He].
    + by rewrite bool_decide_eq_true_2.
    + rewrite bool_decide_eq_false_2; [by apply IH|].
      intros Heq. apply Hx. rewrite Heq. apply list_elem_of_fmap. by exists e.
Qed.

Lemma broadcastFrames_absent (clock : nat -> Z) (type : string) (payload : Json)
    (tick : nat) (targets : list nat) (ws : nat) :
  ws ∉ targets -> broadcastFrames clock type payload tick targets ws = [].
Proof.
  revert tick. induction targets as [|target rest IH]; intros tick Hnot; [done|].
  cbn. apply not_elem_of_cons in Hnot as [Hne Hnot].
  rewrite bool_decide_eq_false_2 by done. by apply IH.
Qed.

Lemma broadcastFrames_once (clock : nat -> Z) (type : string) (payload : Json)
    (tick : nat) (targets : list nat) (ws : nat) :
  NoDup targets -> ws ∈ targets ->
  exists position,
    targets !! position = Some ws
    /\ broadcastFrames clock type payload tick targets ws
       = [Text type (clock (tick + position)%nat) payload].
Proof.
  revert tick. induction targets as [|target rest IH]; intros tick Hnodup Hin.
  - by apply elem_of_nil in Hin.
  - apply NoDup_cons in Hnodup as [Hfresh Hnodup]. cbn.
    destruct (bool_decide_reflect (target = ws)) as [->|Hne].
    + exists 0%nat. split; [done|].
      rewrite broadcastFrames_absent by done. by rewrite Nat.add_0_r.
    + apply elem_of_cons in Hin as [->|Hin]; [done|].
      destruct (IH (S tick) Hnodup Hin) as (position & Hpos & Hframes).
      exists (S position). split; [done|]. rewrite Hframes. cbn. do 3 f_equal. lia.
Qed.

(** The loop of [broadcastToBuzzers], from any point of the registry on. *)
Lemma broadcast_loop (type : string) (payload : Json) (w0 : Server)
    (entries : list (string * BuzzerData)) :
  forall w,
    (forall e, e ∈ entries -> registryGet e.1 (buzzerClients w0) = Some e.2) ->
    buzzerClients w = buzzerClients w0 ->
    (forall ws, isOpen w ws = isOpen w0 ws) ->
    exists w',
      forEachM entries (fun e => sendToBuzzer e.1 type payload) w = (Ok tt, w')
      /\ (forall ws,
            sentTo w' ws
            = sentTo w ws
              ++ broadcastFrames (clock (service w)) type payload (ticks (service w))
                   ((fun e => bd_ws e.2)
                      <$> List.filter (fun e => isOpen w0 (bd_ws e.2)) entries) ws)
      /\ (forall ws,
            ws ∉ (fun e => bd_ws e.2)
                   <$> List.filter (fun e => isOpen w0 (bd_ws e.2)) entries ->
            sockets w' !! ws = sockets w !! ws)
      /\ (forall ws, isOpen w' ws = isOpen w ws)
      /\ buzzerClients w' = buzzerClients w
      /\ angularClient w' = angularClient w
      /\ streams w' = streams w
      /\ activeJingleStreams w' = activeJingleStreams w
      /\ activeGames (service w') = activeGames (service w)
      /\ clock (service w') = clock (service w)
      /\ ticks (service w')
         = (ticks (service w)
            + length (List.filter (fun e => isOpen w0 (bd_ws e.2)) entries))%nat.
Proof.
  induction entries as [|e entries IH]; intros w Hentries Hreg Hopen.
  - exists w. cbn. split; [done|]. split; [by intros ws; rewrite app_nil_r|].
    do 8 (split; [done|]). lia.
  - cbn [forEachM]. unfold bind at 1, sendToBuzzer at 1.
    unfold gets at 1, bind at 1. rewrite Hreg, (Hentries e) by (by left).
    rewrite <- Hreg.
    unfold gets at 1, bind at 1. rewrite Hopen. cbn [List.filter].
    destruct (isOpen w0 (bd_ws e.2)) eqn:Heopen.
    + assert (isOpen w (bd_ws e.2) = true) as Heopen' by by rewrite Hopen.
      rewrite (sendToClient_open _ _ _ _ Heopen').
      set (w1 := pushed (bd_ws e.2) (Text type (timeOf w) payload) (ticked w)).
      destruct (IH w1) as (w' & Hrun & Hsent & Hothers & Hopen' & Hreg' & Hang & Hstr
                           & Hact & Hgames & Hclock & Hticks).
      { intros e' He'. apply Hentries. by right. }
      { exact Hreg. }
      { intros ws. unfold w1. by rewrite isOpen_pushed, isOpen_ticked. }
      exists w'. split; [exact Hrun|]. split.
      { intros ws. rewrite Hsent. cbn [fmap list_fmap broadcastFrames].
        change (ticks (service w1)) with (S (ticks (service w))).
        change (clock (service w1)) with (clock (service w)).
        rewrite app_assoc. f_equal. unfold w1.
        destruct (bool_decide_reflect (bd_ws e.2 = ws)) as [<-|Hne].
        - rewrite sentTo_pushed_eq, sentTo_ticked; [done|].
          apply isOpen_true in Heopen' as (k & Hk & _). by exists k.
        - by rewrite sentTo_pushed_ne, sentTo_ticked, app_nil_r. }
      split.
      { intros ws Hnot. cbn [fmap list_fmap] in Hnot.
        apply not_elem_of_cons in Hnot as [Hne Hnot].
        rewrite Hothers by done. unfold w1. cbn. by rewrite lookup_alter_ne. }
      split. { intros ws. rewrite Hopen'. unfold w1.
               by rewrite isOpen_pushed, isOpen_ticked. }
      split; [exact Hreg'|]. split; [exact Hang|]. split; [exact Hstr|].
      split; [exact Hact|]. split; [exact Hgames|]. split; [exact Hclock|].
      rewrite Hticks. cbn. lia.
    + destruct (IH w) as (w' & Hrun & Hrest); [|done|done|].
      { intros e' He'. apply Hentries. by right. }
      exists w'. split; [exact Hrun|]. exact Hrest.
Qed.

(** One run of [broadcastToBuzzers]. *)
Lemma broadcast_run (w : Server) (type : string) (payload : Json) :
  NoDup (buzzerClients w).*1 ->
  exists w',
    broadcastToBuzzers type payload w = (Ok tt, w')
    /\ (forall ws,
          sentTo w' ws
          = sentTo w ws
            ++ broadcastFrames (clock (service w)) type payload (ticks (service w))
                 (recipients w) ws)
    /\ (forall ws, ws ∉ recipients w -> sockets w' !! ws = sockets w !! ws)
    /\ buzzerClients w' = buzzerClients w
    /\ angularClient w' = angularClient w
    /\ streams w' = streams w
    /\ activeJingleStreams w' = activeJingleStreams w
    /\ activeGames (service w') = activeGames (service w)
    /\ ticks (service w') = (ticks (service w) + length (recipients w))%nat.
Proof.
  intros Hkeys. unfold broadcastToBuzzers. unfold gets at 1, bind at 1.
  destruct (broadcast_loop type payload w (buzzerClients w) w)
    as (w' & Hrun & Hsent & Hothers & _ & Hreg & Hang & Hstr & Hact & Hgames & _ & Hticks).
  { intros e He. by apply registryGet_elem. }
  { reflexivity. }
  { reflexivity. }
  exists w'. split; [exact Hrun|]. split; [exact Hsent|]. split; [exact Hothers|].
  do 5 (split; [done|]). unfold recipients. by rewrite length_fmap.
Qed.

(** X20. [broadcastToBuzzers] sends the message to the transports of the
    registered buzzers that are open, in the order of the registry, each
    frame stamped with the next reading of the clock: a transport that
    belongs to one such buzzer is sent exactly one frame, with the type and
    payload of the broadcast; a transport that is closed, that belongs to no
    registered buzzer, or that is the console is sent nothing. The registry,
    the console reference, the streams and the games are not touched. *)
Theorem broadcast_reaches_open_buzzers (w : Server) (type : string) (payload : Json)
    (Hkeys : NoDup (buzzerClients w).*1) :
  exists w',
    broadcastToBuzzers type payload w = (Ok tt, w')
    /\ (forall ws,
          sentTo w' ws
          = sentTo w ws
            ++ broadcastFrames (clock (service w)) type payload (ticks (service w))
                 (recipients w) ws)
    /\ (forall ws, ws ∉ recipients w -> sockets w' !! ws = sockets w !! ws)
    /\ (NoDup (recipients w) ->
        forall ws, ws ∈ recipients w ->
        exists position,
          recipients w !! position = Some ws
          /\ sentTo w' ws
             = sentTo w ws
               ++ [Text type (clock (service w) (ticks (service w) + position)%nat)
                     payload])
    /\ buzzerClients w' = buzzerClients w
    /\ angularClient w' = angularClient w
    /\ streams w' = streams w
    /\ activeJingleStreams w' = activeJingleStreams w
    /\ activeGames (service w') = activeGames (service w)
    /\ ticks (service w') = (ticks (service w) + length (recipients w))%nat.
Proof.
  destruct (broadcast_run w type payload Hkeys)
    as (w' & Hrun & Hsent & Hothers & Hreg & Hang & Hstr & Hact & Hgames & Hticks).
  exists w'. split; [exact Hrun|]. split; [exact Hsent|]. split; [exact Hothers|].
  split.
  { intros Hnodup ws Hin.
    destruct (broadcastFrames_once (clock (service w)) type payload (ticks (service w))
                (recipients w) ws Hnodup Hin) as (position & Hpos & Hframes).
    exists position. split; [exact Hpos|]. by rewrite Hsent, Hframes. }
  by do 5 (split; [done|]).
Qed.

Lemma broadcast_reaches_open_buzzers_witness :
  exists w',
    broadcastToBuzzers "GAME_STARTED" JNull serverOneBuzzer = (Ok tt, w')
    /\ sentTo w' 1 = sentTo serverOneBuzzer 1 ++ [Text "GAME_STARTED" 1010 JNull]
    /\ sockets w' !! 0%nat = sockets serverOneBuzzer !! 0%nat
    /\ sockets w' !! 2%nat = sockets serverOneBuzzer !! 2%nat.
Proof.
  assert (recipients serverOneBuzzer = [1%nat]) as Hrecipients
    by (vm_compute; reflexivity).
  destruct (broadcast_reaches_open_buzzers serverOneBuzzer "GAME_STARTED" JNull)
    as (w' & Hrun & Hsent & Hothers & _).
  - assert ((buzzerClients serverOneBuzzer).*1 = ["X"]) as -> by (vm_compute; reflexivity).
    apply NoDup_singleton.
  - exists w'. split; [exact Hrun|]. rewrite Hrecipients in Hsent, Hothers. split.
    + rewrite Hsent. f_equal; vm_compute; reflexivity.
    + split; apply Hothers; intros Hin; apply list_elem_of_singleton in Hin; discriminate.
Defined.

(** ** The end of the buzz window *)

Lemma buzzEvaluationTimeout_elects (s : Service) (gameId : string) (questionId : Z)
    (game : Game) (buzzes : list Buzz.t) (excluded : gset string) :
  activeGames s !! gameId = Some game ->
  currentQuestionBuzzes game = Some buzzes ->
  currentQuestionExcluded game = Some excluded ->
  buzzerLocked game = false ->
  (exists b, b ∈ buzzes /\ eligible excluded b = true) ->
  exists winner s',
    buzzEvaluationTimeout gameId questionId s = (Ok tt, s')
    /\ winner ∈ buzzes /\ eligible excluded winner = true
    /\ (forall b, b ∈ buzzes -> eligible excluded b = true ->
          Buzz.responseTime winner <= Buzz.responseTime b)
    /\ activeGames s'
       = <[gameId := set_buzzEvaluationTimer false (elected excluded buzzes winner game)]>
           (activeGames s)
    /\ buzzWinnerCalls s'
       = buzzWinnerCalls s
         ++ (if onBuzzWinner s then [(gameId, questionId, Buzz.mark winner)] else [])
    /\ clock s' = clock s /\ ticks s' = ticks s.
Proof.
  intros Hg Hb He Hl Hsome.
  destruct (evaluateBuzzes_elects s gameId questionId game buzzes excluded Hg Hb He Hl Hsome)
    as (winner & s1 & Hrun & Hin & Hel & Hmin & Hgames & Hcalls & Hclock & Hticks & _).
  exists winner. eexists. split.
  { unfold buzzEvaluationTimeout. rewrite (bind_ok _ _ _ _ _ Hrun).
    assert (activeGames s1 !! gameId = Some (elected excluded buzzes winner game)) as Hg1
      by (rewrite Hgames; apply lookup_insert_eq).
    rewrite (bind_ok _ _ _ _ _ (getGame_some _ _ _ Hg1)). reflexivity. }
  split; [exact Hin|]. split; [exact Hel|]. split; [exact Hmin|].
  cbn. rewrite Hgames, insert_insert_eq. by repeat split.
Qed.



(** ** What a buzzer is told about its buzz *)

Lemma set_service_same (w : Server) : set_service (service w) w = w.
Proof. by destruct w. Qed.

(** X22. What [handleBuzzerBuzz] answers. A buzz that the game service
    ignores (the buzzer is excluded, has a buzz pending, or the buzzers are
    locked) changes nothing in the service and is answered by one
    [BUZZ_IGNORED] with the reason, sent to the buzzer if it is registered
    and open. A buzz that is accepted is entered in the buzz list and is
    not answered at all: no transport is sent anything until the window
    closes. A buzz for a game the service does not hold is dropped without
    any answer and any change, and so is every buzz when the server has no
    game service. *)
Theorem buzz_feedback (w : Server) (buzzerID gameId : string) (questionId : Z)
    (timestamps : option Timestamps)
    (Hservice : gameService w = true) :
  (activeGames (service w) !! gameId = None ->
     handleBuzzerBuzz buzzerID gameId questionId timestamps w = (Ok tt, w))
  /\ (forall game buzzes excluded,
        activeGames (service w) !! gameId = Some game ->
        currentQuestionBuzzes game = Some buzzes ->
        currentQuestionExcluded game = Some excluded ->
        let ignoredFor (why : string) :=
          handleBuzzerBuzz buzzerID gameId questionId timestamps w
          = sendToBuzzer buzzerID "BUZZ_IGNORED" (JObj [("reason", JStr why)]) w in
        (buzzerID ∈ excluded -> ignoredFor "Joueur exclu pour cette question")
        /\ (buzzerID ∉ excluded ->
            is_Some (List.find (unprocessedFrom buzzerID) buzzes) ->
            ignoredFor "Déjà buzzé")
        /\ (buzzerID ∉ excluded ->
            List.find (unprocessedFrom buzzerID) buzzes = None ->
            buzzerLocked game = true ->
            ignoredFor "Buzzers verrouillés")
        /\ (buzzerID ∉ excluded ->
            List.find (unprocessedFrom buzzerID) buzzes = None ->
            buzzerLocked game = false ->
            exists w' game' stamp,
              handleBuzzerBuzz buzzerID gameId questionId timestamps w = (Ok tt, w')
              /\ sockets w' = sockets w
              /\ buzzerClients w' = buzzerClients w
              /\ activeGames (service w') !! gameId = Some game'
              /\ currentQuestionBuzzes game'
                 = Some (buzzes
                         ++ [Buzz.mk buzzerID
                               (clampBuzzTime
                                  (rawTime timestamps game
                                     (clock (service w) (ticks (service w)))))
                               timestamps stamp false])
              /\ buzzEvaluationTimer game' = true
              /\ buzzerLocked game' = false)).
Proof.
  split.
  - intros Hnone. unfold handleBuzzerBuzz. unfold gets at 1, bind at 1.
    rewrite Hservice. cbn [negb]. unfold try_catch, bind at 1, liftService.
    unfold recordBuzz. rewrite (bind_throw _ _ _ _ _ (getGame_none _ _ Hnone)).
    cbn. by rewrite set_service_same.
  - intros game buzzes excluded Hgame Hbuzzes Hexcluded ignoredFor.
    assert (forall why,
              recordBuzz gameId questionId buzzerID timestamps (service w)
              = (Ok (buzzIgnored why), service w) -> ignoredFor why) as Hignored.
    { intros why Hrun. unfold ignoredFor, handleBuzzerBuzz.
      unfold gets at 1, bind at 1. rewrite Hservice. cbn [negb].
      unfold try_catch, bind at 1, liftService. rewrite Hrun.
      unfold buzzIgnored. cbn [ignored reason default from_option Datatypes.id].
      rewrite set_service_same.
      destruct (sendToBuzzer buzzerID "BUZZ_IGNORED" (JObj [("reason", JStr why)]) w)
        as [[[]|e] w'] eqn:Hsend; [done|].
      destruct (sendToBuzzer_cases w buzzerID "BUZZ_IGNORED" (JObj [("reason", JStr why)]))
        as [H|[ws H]]; rewrite H in Hsend; discriminate. }
    split; [|split; [|split]].
    + intros Hin. apply Hignored. by eapply recordBuzz_excluded.
    + intros Hnot Hfound. apply Hignored. by eapply recordBuzz_already.
    + intros Hnot Hnone Hlocked. apply Hignored. by eapply recordBuzz_locked.
    + intros Hnot Hnone Hunlocked.
      destruct (recordBuzz_accepted (service w) gameId questionId buzzerID timestamps
                  game buzzes excluded Hgame Hbuzzes Hexcluded Hnot Hnone Hunlocked)
        as (stamp & s' & Hrun & Hgames & _).
      eexists _, _, stamp. split.
      { unfold handleBuzzerBuzz. unfold gets at 1, bind at 1. rewrite Hservice.
        cbn [negb]. unfold try_catch, bind at 1, liftService. rewrite Hrun.
        reflexivity. }
      split; [reflexivity|]. split; [reflexivity|]. cbn. rewrite Hgames.
      split; [apply lookup_insert_eq|]. cbn. by rewrite Hunlocked.
Qed.

Lemma buzz_feedback_witness :
  handleBuzzerBuzz "X" "nogame" 42 None serverOneBuzzer = (Ok tt, serverOneBuzzer)
  /\ handleBuzzerBuzz "X" "g" 42 None serverBuzzed
     = sendToBuzzer "X" "BUZZ_IGNORED" (JObj [("reason", JStr "Déjà buzzé")]) serverBuzzed.
Proof.
  split.
  - destruct (buzz_feedback serverOneBuzzer "X" "nogame" 42 None) as [Hnone _];
      [vm_compute; reflexivity|]. apply Hnone. vm_compute; reflexivity.
  - destruct (buzz_feedback serverBuzzed "X" "g" 42 None) as [_ Hsome];
      [vm_compute; reflexivity|].
    destruct (Hsome (gameOf (service serverBuzzed))
                [Buzz.mk "X" 520 (synced 1521) 1010 false] ∅)
      as (_ & Halready & _); [vm_compute; reflexivity..|].
    apply Halready; [apply not_elem_of_empty|by eexists].
Defined.

(** ** Reopening the buzzers *)

(** X23. The service calls of [handleBuzzReopen] on a game whose buzz
    tracking exists: the wrong answer is booked for the buzzer (one more
    answer, no point, no more correct answers), the buzzer joins the excluded
    players, the lock and the winner are cleared and the buzz list is kept;
    the call returns the excluded players, the buzzer among them. From then
    on a buzz of that buzzer is ignored as excluded, while a buzzer that is
    not excluded and has no buzz pending is accepted again. For a game the
    service does not hold, the exception of [getExcludedPlayers] is not
    caught: the call throws [Game not found]. *)
Theorem reopen_excludes_and_unlocks (s : Service) (gameId : string) (questionId : Z)
    (buzzerID : string) :
  (activeGames s !! gameId = None ->
     reopenCalls gameId questionId buzzerID s
     = (Throw ("Game not found: " +:+ gameId), s))
  /\ (forall game buzzes excluded,
        activeGames s !! gameId = Some game ->
        currentQuestionBuzzes game = Some buzzes ->
        currentQuestionExcluded game = Some excluded ->
        exists s' game',
          reopenCalls gameId questionId buzzerID s = (Ok ({[buzzerID]} ∪ excluded), s')
          /\ activeGames s' !! gameId = Some game'
          /\ currentQuestionExcluded game' = Some ({[buzzerID]} ∪ excluded)
          /\ buzzerLocked game' = false
          /\ currentQuestionWinner game' = None
          /\ currentQuestionBuzzes game' = Some buzzes
          /\ (forall p, players game !! buzzerID = Some p ->
                exists p',
                  players game' !! buzzerID = Some p'
                  /\ Player.score p' = Player.score p
                  /\ Player.correctAnswers p' = Player.correctAnswers p
                  /\ Player.totalAnswers p' = Player.totalAnswers p + 1)
          /\ (forall other, other <> buzzerID ->
                players game' !! other = players game !! other)
          /\ (forall questionId' timestamps,
                recordBuzz gameId questionId' buzzerID timestamps s'
                = (Ok (buzzIgnored "Joueur exclu pour cette question"), s'))
          /\ (forall other questionId' timestamps,
                other <> buzzerID -> other ∉ excluded ->
                List.find (unprocessedFrom other) buzzes = None ->
                exists r s'',
                  recordBuzz gameId questionId' other timestamps s' = (Ok r, s'')
                  /\ ignored r = false /\ isPending r = true)).
Proof.
  split.
  - intros Hnone. unfold reopenCalls, try_catch.
    unfold bind at 1. unfold bind at 1. unfold validateBuzz.
    rewrite (bind_throw _ _ _ _ _ (getGame_none _ _ Hnone)). cbn.
    unfold getExcludedPlayers. by rewrite (bind_throw _ _ _ _ _ (getGame_none _ _ Hnone)).
  - intros game buzzes excluded Hgame Hbuzzes Hexcluded.
    destruct (validateBuzz_run s gameId questionId buzzerID false game Hgame)
      as (s1 & Hval & Hgames1 & _).
    set (game1 := updatePlayer buzzerID (validatedPoints (questions s) questionId false)
                    false (validatedTime game buzzerID) game) in *.
    assert (activeGames s1 !! gameId = Some game1) as Hgame1
      by (rewrite Hgames1; apply lookup_insert_eq).
    assert (currentQuestionExcluded game1 = Some excluded) as Hexcluded1.
    { unfold game1, updatePlayer. by destruct (players game !! buzzerID). }
    assert (currentQuestionBuzzes game1 = Some buzzes) as Hbuzzes1.
    { unfold game1, updatePlayer. by destruct (players game !! buzzerID). }
    set (game2 := set_currentQuestionWinner None
                    (set_buzzerLocked false
                       (set_currentQuestionExcluded (Some ({[buzzerID]} ∪ excluded)) game1))).
    set (s2 := set_activeGames (<[gameId := game2]> (activeGames s1)) s1).
    assert (excludePlayer gameId questionId buzzerID s1 = (Ok tt, s2)) as Hexcl.
    { unfold excludePlayer. rewrite (bind_ok _ _ _ _ _ (getGame_some _ _ _ Hgame1)).
      by rewrite Hexcluded1. }
    assert (activeGames s2 !! gameId = Some game2) as Hgame2 by apply lookup_insert_eq.
    exists s2, game2. split.
    { unfold reopenCalls, try_catch. unfold bind at 1.
      rewrite (bind_ok _ _ _ _ _ Hval), Hexcl.
      unfold getExcludedPlayers. by rewrite (bind_ok _ _ _ _ _ (getGame_some _ _ _ Hgame2)). }
    split; [exact Hgame2|]. do 3 (split; [reflexivity|]). split; [exact Hbuzzes1|].
    split.
    { intros p Hp. eexists. split.
      - cbn. unfold game1. rewrite updatePlayer_lookup, Hp. reflexivity.
      - cbn. unfold validatedPoints. repeat split; lia. }
    split. { intros other Hne. cbn. unfold game1. by rewrite updatePlayer_lookup_ne. }
    split.
    { intros questionId' timestamps.
      apply (recordBuzz_excluded s2 gameId questionId' buzzerID timestamps game2 buzzes
               ({[buzzerID]} ∪ excluded)); [done|done|done|].
      apply elem_of_union. left. by apply elem_of_singleton. }
    intros other questionId' timestamps Hne Hnot Hnone.
    destruct (recordBuzz_accepted s2 gameId questionId' other timestamps game2 buzzes
                ({[buzzerID]} ∪ excluded)) as (stamp & s3 & Hrun & _); [done..| | done | done |].
    { intros Hin. apply elem_of_union in Hin as [Hin|Hin]; [|done].
      apply elem_of_singleton in Hin. done. }
    eexists _, s3. split; [exact Hrun|]. by split.
Qed.

Lemma reopen_excludes_and_unlocks_witness :
  exists s',
    reopenCalls "g" 42 "B2" serviceLocked = (Ok ({["B2"]} ∪ ∅), s')
    /\ recordBuzz "g" 42 "B2" None s'
       = (Ok (buzzIgnored "Joueur exclu pour cette question"), s').
Proof.
  destruct (reopen_excludes_and_unlocks serviceLocked "g" 42 "B2") as [_ Hsome].
  destruct (Hsome (gameOf serviceLocked)
              (default [] (currentQuestionBuzzes (gameOf serviceLocked))) ∅)
    as (s' & game' & Hrun & _ & _ & _ & _ & _ & _ & _ & Hrefused & _);
    [vm_compute; reflexivity..|].
  exists s'. split; [exact Hrun|apply Hrefused].
Defined.

(** ** Renaming a player from the console *)

Lemma registryGet_set (buzzerID other : string) (data : BuzzerData)
    (reg : list (string * BuzzerData)) :
  registryGet other (registrySet buzzerID data reg)
  = if bool_decide (buzzerID = other) then Some data else registryGet other reg.
Proof.
  unfold registryGet. induction reg as [|e reg IH]; cbn.
  - by destruct (bool_decide (buzzerID = other)).
  - destruct (bool_decide_reflect (e.1 = buzzerID)) as [Heq|Hne]; cbn.
    + destruct (bool_decide_reflect (buzzerID = other)) as [Heq'|Hne']; [done|].
      by rewrite bool_decide_eq_false_2 by congruence.
    + destruct (bool_decide_reflect (e.1 = other)) as [Heq'|Hne']; cbn.
      * by rewrite bool_decide_eq_false_2 by congruence.
      * exact IH.
Qed.

Lemma registrySet_keys (buzzerID : string) (data : BuzzerData)
    (reg : list (string * BuzzerData)) :
  is_Some (registryGet buzzerID reg) ->
  (registrySet buzzerID data reg).*1 = reg.*1.
Proof.
  unfold registryGet. induction reg as [|e reg IH]; cbn.
  - by intros [? ?].
  - destruct (bool_decide_reflect (e.1 = buzzerID)) as [Heq|Hne]; cbn.
    + intros _. by rewrite Heq.
    + intros H. by rewrite IH.
Qed.

(** X24. [PLAYER_RENAME] from the console changes the name the registry
    holds for the buzzer, in place: the entry keeps its position, its
    transport and its other fields, and the other entries are kept. The
    buzzer, if its transport is open, is sent [PLAYER_NAME_UPDATE] with the
    new name. The game service is not called: the names of the players in
    the games, which [getRanking] reports, stay as they were. For a buzzer
    that is not registered nothing happens. *)
Theorem rename_updates_registry_only (w : Server) (buzzerID newName : string) :
  (registryGet buzzerID (buzzerClients w) = None ->
     handlePlayerRename buzzerID newName w = (Ok tt, w))
  /\ (forall bd,
        registryGet buzzerID (buzzerClients w) = Some bd ->
        exists w' bd',
          handlePlayerRename buzzerID newName w = (Ok tt, w')
          /\ registryGet buzzerID (buzzerClients w') = Some bd'
          /\ info_name (bd_info bd') = newName
          /\ bd_ws bd' = bd_ws bd
          /\ playerNumber (bd_info bd') = playerNumber (bd_info bd)
          /\ macAddress (bd_info bd') = macAddress (bd_info bd)
          /\ connectedAt (bd_info bd') = connectedAt (bd_info bd)
          /\ battery (bd_info bd') = battery (bd_info bd)
          /\ (buzzerClients w').*1 = (buzzerClients w).*1
          /\ (forall other, other <> buzzerID ->
                registryGet other (buzzerClients w') = registryGet other (buzzerClients w))
          /\ activeGames (service w') = activeGames (service w)
          /\ (isOpen w (bd_ws bd) = true ->
                sentTo w' (bd_ws bd)
                = sentTo w (bd_ws bd)
                  ++ [Text "PLAYER_NAME_UPDATE" (clock (service w) (ticks (service w)))
                        (JObj [("name", JStr newName)])])
          /\ (forall ws, ws <> bd_ws bd -> sockets w' !! ws = sockets w !! ws)).
Proof.
  split.
  - intros Hnone. unfold handlePlayerRename. unfold gets at 1, bind at 1.
    by rewrite Hnone.
  - intros bd Hbd. unfold handlePlayerRename. unfold gets at 1, bind at 1.
    rewrite Hbd. unfold modify at 1, bind at 1.
    set (bd' := {| bd_ws := bd_ws bd; bd_info := _ |}).
    set (w1 := set_buzzerClients (registrySet buzzerID bd' (buzzerClients w)) w).
    assert (registryGet buzzerID (buzzerClients w1) = Some bd') as Hbd1.
    { change (buzzerClients w1) with (registrySet buzzerID bd' (buzzerClients w)).
      rewrite registryGet_set. by rewrite bool_decide_eq_true_2. }
    assert (forall w'',
              buzzerClients w'' = buzzerClients w1 ->
              registryGet buzzerID (buzzerClients w'') = Some bd'
              /\ info_name (bd_info bd') = newName
              /\ bd_ws bd' = bd_ws bd
              /\ playerNumber (bd_info bd') = playerNumber (bd_info bd)
              /\ macAddress (bd_info bd') = macAddress (bd_info bd)
              /\ connectedAt (bd_info bd') = connectedAt (bd_info bd)
              /\ battery (bd_info bd') = battery (bd_info bd)
              /\ (buzzerClients w'').*1 = (buzzerClients w).*1
              /\ (forall other, other <> buzzerID ->
                    registryGet other (buzzerClients w'')
                    = registryGet other (buzzerClients w))) as Hregistry.
    { intros w'' ->. split; [exact Hbd1|]. do 6 (split; [reflexivity|]). split.
      - change (buzzerClients w1) with (registrySet buzzerID bd' (buzzerClients w)).
        apply registrySet_keys. by rewrite Hbd.
      - intros other Hne. change (buzzerClients w1) with (registrySet buzzerID bd' (buzzerClients w)).
        rewrite registryGet_set.
        by rewrite bool_decide_eq_false_2. }
    destruct (isOpen w (bd_ws bd)) eqn:Hopen.
    + assert (isOpen w1 (bd_ws bd') = true) as Hopen1 by exact Hopen.
      rewrite (sendToBuzzer_open w1 buzzerID bd' _ _ Hbd1 Hopen1).
      eexists _, bd'. split; [reflexivity|].
      destruct (Hregistry (pushed (bd_ws bd') (Text "PLAYER_NAME_UPDATE" (timeOf w1)
                                                 (JObj [("name", JStr newName)]))
                              (ticked w1)) eq_refl)
        as (H1 & H2 & H3 & H4 & H5 & H6 & H7 & H8 & H9).
      do 9 (split; [assumption|]). split; [reflexivity|]. split.
      * intros _. rewrite sentTo_pushed_eq; [done|].
        apply isOpen_true in Hopen as (k & Hk & _). by exists k.
      * intros ws Hne. cbn. by rewrite lookup_alter_ne.
    + assert (sendToBuzzer buzzerID "PLAYER_NAME_UPDATE" (JObj [("name", JStr newName)]) w1
              = (Ok tt, w1)) as ->.
      { unfold sendToBuzzer. unfold gets at 1, bind at 1. rewrite Hbd1.
        unfold gets at 1, bind at 1.
        assert (isOpen w1 (bd_ws bd') = false) as -> by exact Hopen. reflexivity. }
      exists w1, bd'. split; [reflexivity|].
      destruct (Hregistry w1 eq_refl) as (H1 & H2 & H3 & H4 & H5 & H6 & H7 & H8 & H9).
      do 9 (split; [assumption|]). split; [reflexivity|]. by split.
Qed.

Lemma rename_updates_registry_only_witness :
  exists w' bd',
    handlePlayerRename "X" "Ada" serverOneBuzzer = (Ok tt, w')
    /\ registryGet "X" (buzzerClients w') = Some bd'
    /\ info_name (bd_info bd') = "Ada"
    /\ playerNumber (bd_info bd') = 1
    /\ activeGames (service w') = activeGames (service serverOneBuzzer).
Proof.
  destruct (rename_updates_registry_only serverOneBuzzer "X" "Ada") as [_ Hsome].
  destruct (Hsome {| bd_ws := 1;
                     bd_info := {| info_name := "En attente de nom"; macAddress := "unknown";
                                   connectedAt := 1006; playerNumber := 1;
                                   info_ip := "10.0.0.2"; battery := JNull;
                                   wifiRSSI := JNull; latency := JNull |} |})
    as (w' & bd' & Hrun & Hget & Hname & _ & Hnumber & _ & _ & _ & _ & _ & Hgames & _);
    [vm_compute; reflexivity|].
  exists w', bd'. by repeat split.
Defined.

(** ** Nothing is sent to a transport that is closing or closed *)

Section Silent.
Context (ws : nat) (frames : list Frame).

Lemma silent_closed (w : Server) : silent ws frames w -> isOpen w ws = false.
Proof.
  intros (k & Hk & Hgone & _). unfold isOpen. rewrite Hk.
  apply bool_decide_eq_false_2. destruct Hgone as [E|E]; rewrite E; discriminate.
Qed.

Lemma silent_updateSocket (ws' : nat) (f : Socket -> Socket) :
  socketStep f -> keeps (silent ws frames) (updateSocket ws' f).
Proof.
  intros Hf. apply keeps_modify. intros w (k & Hk & Hgone & Hsent). unfold silent. cbn.
  destruct (decide (ws' = ws)) as [->|Hne].
  - exists (f k). rewrite lookup_alter_eq, Hk. split; [done|].
    destruct (Hf k) as [Hs [Hr|Hr]].
    + split; [|congruence]. unfold gone in *. by rewrite Hr.
    + split; [exact Hr|congruence].
  - exists k. by rewrite lookup_alter_ne.
Qed.

Lemma silent_wsSend (ws' : nat) (frame : Frame) :
  ws' <> ws -> keeps (silent ws frames) (wsSend ws' frame).
Proof.
  intros Hne. apply keeps_modify. intros w (k & Hk & Hgone & Hsent). unfold silent. cbn.
  exists k. by rewrite lookup_alter_ne.
Qed.

Lemma silent_service (w : Server) (v : Service) :
  silent ws frames w -> silent ws frames (set_service v w).
Proof. done. Qed.

(** A send guarded by [readyState === OPEN]. *)
Lemma silent_guarded {A} (ws' : nat) (send : M Server A) (skip : M Server A) :
  (ws' <> ws -> keeps (silent ws frames) send) ->
  keeps (silent ws frames) skip ->
  keeps (silent ws frames)
    (open <- gets (fun w => isOpen w ws') ;; if open then send else skip).
Proof.
  intros Hsend Hskip w Hw. unfold gets at 1, bind at 1.
  destruct (isOpen w ws') eqn:Hopen; [|by apply Hskip].
  apply Hsend; [|exact Hw]. intros ->. by rewrite (silent_closed w Hw) in Hopen.
Qed.

Lemma silent_sendToClient (ws' : nat) (type : string) (payload : Json) :
  keeps (silent ws frames) (sendToClient ws' type payload).
Proof.
  unfold sendToClient. apply silent_guarded; [|apply keeps_ret].
  intros Hne. apply keeps_bind; [|intros timestamp; by apply silent_wsSend].
  intros w Hw. unfold now, liftService. destruct (Date_now (service w)). exact Hw.
Qed.

Lemma silent_sendToAngular (type : string) (payload : Json) :
  keeps (silent ws frames) (sendToAngular type payload).
Proof.
  apply keeps_sendToAngular; auto using silent_sendToClient.
Qed.

Lemma silent_sendToBuzzer (b type : string) (payload : Json) :
  keeps (silent ws frames) (sendToBuzzer b type payload).
Proof.
  apply keeps_sendToBuzzer; auto using silent_sendToClient.
Qed.

Lemma silent_handleJinglePlay (buzzerID : string) (jingleId : Z) :
  keeps (silent ws frames) (handleJinglePlay buzzerID jingleId).
Proof.
  unfold handleJinglePlay, jingleError.
  repeat keeps_step; auto using silent_sendToAngular, silent_sendToBuzzer;
    by apply keeps_modify.
Qed.

Lemma silent_streamStep (sid : nat) : keeps (silent ws frames) (streamStep sid).
Proof.
  unfold streamStep, onStreamEnd, onStreamData, updateStream.
  apply keeps_bind; [apply keeps_gets|]. intros [t|]; [|apply keeps_ret].
  destruct (st_destroyed t || st_ended t); [apply keeps_ret|].
  destruct (st_unread t) as [|x rest].
  - repeat keeps_step; auto using silent_sendToAngular, silent_sendToBuzzer;
      by apply keeps_modify.
  - apply keeps_bind; [by apply keeps_modify|intros _].
    apply silent_guarded; [|by apply keeps_modify].
    intros Hne. unfold writeUInt32LE.
    repeat keeps_step; auto using silent_wsSend; by apply keeps_modify.
Qed.

Lemma silent_deliver (e : Event) :
  (forall ip, e <> Connection ws ip) -> keeps (silent ws frames) (deliver e).
Proof.
  intros Hfresh.
  apply keeps_deliver; try done;
    auto using silent_updateSocket, silent_sendToClient, silent_handleJinglePlay,
      silent_streamStep.
  intros ws' ip ->. apply keeps_modify. intros w (k & Hk & Hrest). unfold silent. cbn.
  exists k. rewrite lookup_insert_ne; [done|]. intros ->. by apply (Hfresh ip).
Qed.
End Silent.



(** ** An answer the service cannot record *)

Lemma recordAnswer_unknown_question (s : Service) (gameId : string) (questionId : Z)
    (buzzerID : string) (answer : Json) (timestamps : option Timestamps)
    (game : Game) :
  activeGames s !! gameId = Some game ->
  currentQuestionAnswers game !! buzzerID = None ->
  questions s !! questionId = None ->
  recordAnswer gameId questionId buzzerID answer timestamps s
  = (Throw "Question not found", s).
Proof.
  intros Hg Ha Hq. unfold recordAnswer.
  rewrite (bind_ok _ _ _ _ _ (getGame_some _ _ _ Hg)). rewrite Ha.
  unfold gets at 1, bind at 1. by rewrite Hq.
Qed.

(** X26. An MCQ answer that cannot be recorded is answered as a wrong
    answer. When the server has no game service, or the service does not hold
    the game, or it holds the game but not the question (and the buzzer has
    not answered yet), [handleMCQAnswer] records nothing and raises nothing:
    it sends [ANSWER_RESULT] to the buzzer and [ANSWER_RECEIVED] to the
    console as for a wrong answer, with [isCorrect] false, 0 points and a
    response time of 0. With the buzzer registered and open and the console
    open on another transport, each of the two is sent exactly that one
    frame. *)
Theorem unrecorded_answer_reported_wrong (w : Server) (buzzerID gameId : string)
    (questionId : Z) (answer : Json) (timestamps : option Timestamps)
    (Hfail : gameService w = false
             \/ activeGames (service w) !! gameId = None
             \/ exists game,
                  activeGames (service w) !! gameId = Some game
                  /\ currentQuestionAnswers game !! buzzerID = None
                  /\ questions (service w) !! questionId = None) :
  let result :=
    JObj [("questionId", JNum questionId); ("isCorrect", JBool false);
          ("points", JNum 0); ("responseTime", JNum 0)] in
  let received :=
    JObj [("buzzerID", JStr buzzerID); ("questionId", JNum questionId);
          ("answer", answer); ("isCorrect", JBool false); ("points", JNum 0);
          ("responseTime", JNum 0); ("timestamps", jsonOfTimestamps timestamps)] in
  handleMCQAnswer buzzerID gameId questionId answer timestamps w
  = (sendToBuzzer buzzerID "ANSWER_RESULT" result ;;;
     sendToAngular "ANSWER_RECEIVED" received) w
  /\ forall bd console,
       registryGet buzzerID (buzzerClients w) = Some bd ->
       isOpen w (bd_ws bd) = true ->
       angularClient w = Some console ->
       isOpen w console = true ->
       console <> bd_ws bd ->
       exists w',
         handleMCQAnswer buzzerID gameId questionId answer timestamps w = (Ok tt, w')
         /\ service w' = service (ticked (ticked w))
         /\ buzzerClients w' = buzzerClients w
         /\ sentTo w' (bd_ws bd)
            = sentTo w (bd_ws bd) ++ [Text "ANSWER_RESULT" (timeOf w) result]
         /\ sentTo w' console
            = sentTo w console ++ [Text "ANSWER_RECEIVED" (timeOf (ticked w)) received]
         /\ forall ws, ws <> bd_ws bd -> ws <> console ->
                       sockets w' !! ws = sockets w !! ws.
Proof.
  intros result received.
  assert (handleMCQAnswer buzzerID gameId questionId answer timestamps w
          = (sendToBuzzer buzzerID "ANSWER_RESULT" result ;;;
             sendToAngular "ANSWER_RECEIVED" received) w) as Hrun.
  { unfold handleMCQAnswer. unfold gets at 1, bind at 1.
    destruct (gameService w) eqn:Hservice.
    - assert (exists e,
                recordAnswer gameId questionId buzzerID answer timestamps (service w)
                = (Throw e, service w)) as [e Hthrow].
      { destruct Hfail as [?|[Hnone|(game & Hgame & Hfirst & Hquestion)]]; [done| |].
        - eexists. unfold recordAnswer.
          apply (bind_throw _ _ _ _ _ (getGame_none _ _ Hnone)).
        - eexists. by eapply recordAnswer_unknown_question. }
      unfold try_catch, liftService. unfold bind at 1. rewrite Hthrow.
      cbn [ret]. by rewrite set_service_same.
    - reflexivity. }
  split; [exact Hrun|].
  intros bd console Hbd Hopen Hconsole Hcopen Hne. rewrite Hrun.
  unfold bind at 1. rewrite (sendToBuzzer_open _ _ _ _ _ Hbd Hopen).
  set (w1 := pushed (bd_ws bd) (Text "ANSWER_RESULT" (timeOf w) result) (ticked w)).
  assert (isOpen w1 console = true) as Hcopen1
    by (unfold w1; by rewrite isOpen_pushed, isOpen_ticked).
  rewrite (sendToAngular_open w1 console _ _ Hconsole Hcopen1).
  eexists. split; [reflexivity|]. split; [reflexivity|]. split; [reflexivity|].
  apply isOpen_true in Hopen as (kb & Hkb & _).
  apply isOpen_true in Hcopen as (kc & Hkc & _).
  split; [|split].
  - rewrite sentTo_pushed_ne, sentTo_ticked by done. unfold w1.
    rewrite sentTo_pushed_eq, sentTo_ticked; [done|by exists kb].
  - rewrite sentTo_pushed_eq, sentTo_ticked.
    + unfold w1. by rewrite sentTo_pushed_ne, sentTo_ticked by done.
    + unfold w1. cbn. rewrite lookup_alter_ne by done. by exists kc.
  - intros ws Hb Hc. cbn. by rewrite !lookup_alter_ne.
Qed.

Lemma unrecorded_answer_reported_wrong_witness :
  exists w',
    handleMCQAnswer "X" "nogame" 42 (JNum 1) None serverOneBuzzer = (Ok tt, w')
    /\ sentTo w' 1
       = sentTo serverOneBuzzer 1
         ++ [Text "ANSWER_RESULT" 1010
               (JObj [("questionId", JNum 42); ("isCorrect", JBool false);
                      ("points", JNum 0); ("responseTime", JNum 0)])].
Proof.
  destruct (unrecorded_answer_reported_wrong serverOneBuzzer "X" "nogame" 42 (JNum 1) None)
    as [_ Hsent].
  - right. left. vm_compute; reflexivity.
  - destruct (Hsent {| bd_ws := 1;
                        bd_info := {| info_name := "En attente de nom";
                                      macAddress := "unknown"; connectedAt := 1006;
                                      playerNumber := 1; info_ip := "10.0.0.2";
                                      battery := JNull; wifiRSSI := JNull;
                                      latency := JNull |} |} 0%nat)
      as (w' & Hrun & _ & _ & Hbuzzer & _).
    + vm_compute; reflexivity.
    + vm_compute; reflexivity.
    + vm_compute; reflexivity.
    + vm_compute; reflexivity.
    + discriminate.
    + exists w'. split; [exact Hrun|].
      assert (timeOf serverOneBuzzer = 1010) as Htime by (vm_compute; reflexivity).
      cbn [bd_ws] in Hbuzzer. rewrite Htime in Hbuzzer. exact Hbuzzer.
Defined.

(** ** The registry and the transports *)

Lemma run_gets_then {S A B} (f : S -> A) (k : A -> M S B) (s : S) :
  (x <- gets f ;; k x) s = k (f s) s.
Proof. reflexivity. Qed.

Lemma run_modify_then {S B} (f : S -> S) (c : M S B) (s : S) :
  (modify f ;;; c) s = c (f s).
Proof. reflexivity. Qed.

Lemma run_now_then {B} (k : Z -> M Server B) (w : Server) :
  (t <- now ;; k t) w = k (timeOf w) (ticked w).
Proof. reflexivity. Qed.

Lemma registryGet_Some_elem (buzzerID : string) (bd : BuzzerData)
    (reg : list (string * BuzzerData)) :
  registryGet buzzerID reg = Some bd -> (buzzerID, bd) ∈ reg.
Proof.
  unfold registryGet. induction reg as [|e reg IH]; cbn; [done|].
  destruct (bool_decide_reflect (e.1 = buzzerID)) as [Heq|Hne]; cbn.
  - intros [= <-]. rewrite <- Heq. destruct e. by left.
  - intros H. right. by apply IH.
Qed.

Lemma registrySet_elem (buzzerID : string) (data : BuzzerData)
    (reg : list (string * BuzzerData)) (e : string * BuzzerData) :
  e ∈ registrySet buzzerID data reg -> e = (buzzerID, data) \/ e ∈ reg.
Proof.
  induction reg as [|x reg IH]; cbn.
  - intros H. apply list_elem_of_singleton in H. by left.
  - destruct (bool_decide (x.1 = buzzerID)).
    + intros H. apply elem_of_cons in H as [->|H]; [by left|]. right. by right.
    + intros H. apply elem_of_cons in H as [->|H]; [right; by left|].
      destruct (IH H) as [->|H']; [by left|]. right. by right.
Qed.

Lemma unique_key {A B} (l : list (A * B)) (x y : A * B) :
  NoDup l.*1 -> x ∈ l -> y ∈ l -> x.1 = y.1 -> x = y.
Proof.
  induction l as [|e l IH]; intros Hnodup Hx Hy Heq.
  - by apply elem_of_nil in Hx.
  - cbn in Hnodup. apply NoDup_cons in Hnodup as [Hfresh Hnodup].
    apply elem_of_cons in Hx as [->|Hx]; apply elem_of_cons in Hy as [->|Hy].
    + done.
    + exfalso. apply Hfresh. rewrite Heq. apply list_elem_of_fmap. by exists y.
    + exfalso. apply Hfresh. rewrite <- Heq. apply list_elem_of_fmap. by exists x.
    + by apply IH.
Qed.

Section RegistryInv.

Lemma inv_updateSocket (ws : nat) (f : Socket -> Socket) :
  (forall k id, identifiedAs id k -> identifiedAs id (f k)) ->
  keeps registryInv (updateSocket ws f).
Proof.
  intros Hf. apply keeps_modify. intros w [Hkeys Hall]. split; [exact Hkeys|].
  intros e He. destruct (Hall e He) as (k & Hk & Hid). cbn.
  destruct (decide (ws = bd_ws e.2)) as [->|Hne].
  - exists (f k). rewrite lookup_alter_eq, Hk. split; [done|by apply Hf].
  - exists k. by rewrite lookup_alter_ne.
Qed.

Lemma inv_wsClose (ws : nat) (code : Z) (why : string) :
  keeps registryInv (wsClose ws code why).
Proof.
  apply inv_updateSocket. intros k id Hid. by destruct (readyState k).
Qed.

Lemma inv_sendToClient (ws : nat) (type : string) (payload : Json) :
  keeps registryInv (sendToClient ws type payload).
Proof.
  unfold sendToClient. repeat keeps_step.
  - intros w Hw. exact Hw.
  - by apply inv_updateSocket.
Qed.

Lemma inv_liftService {A} (c : M Service A) : keeps registryInv (liftService c).
Proof. by apply keeps_liftService. Qed.

Lemma inv_now : keeps registryInv now.
Proof. apply inv_liftService. Qed.

Lemma inv_sendToAngular (type : string) (payload : Json) :
  keeps registryInv (sendToAngular type payload).
Proof. apply keeps_sendToAngular; auto using inv_sendToClient. Qed.

Lemma inv_sendToBuzzer (b type : string) (payload : Json) :
  keeps registryInv (sendToBuzzer b type payload).
Proof. apply keeps_sendToBuzzer; auto using inv_sendToClient. Qed.

Lemma inv_broadcastToBuzzers (type : string) (payload : Json) :
  keeps registryInv (broadcastToBuzzers type payload).
Proof. apply keeps_broadcastToBuzzers; auto using inv_sendToClient. Qed.

(** A field of an entry is changed: the entry keeps its key and transport. *)
Lemma inv_registrySet_update (w : Server) (buzzerID : string) (bd : BuzzerData)
    (info : BuzzerInfo) :
  registryGet buzzerID (buzzerClients w) = Some bd ->
  registryInv w ->
  registryInv
    (set_buzzerClients
       (registrySet buzzerID {| bd_ws := bd_ws bd; bd_info := info |} (buzzerClients w)) w).
Proof.
  intros Hget [Hkeys Hall]. split; cbn.
  - by rewrite registrySet_keys by (by exists bd).
  - intros e He. apply registrySet_elem in He as [->|He]; [|by apply Hall].
    apply (Hall (buzzerID, bd)). by apply registryGet_Some_elem.
Qed.

(** A new entry, for a transport that has identified itself as this buzzer. *)
Lemma inv_registrySet_fresh (w : Server) (ws : nat) (k : Socket) (buzzerID : string)
    (info : BuzzerInfo) :
  registryGet buzzerID (buzzerClients w) = None ->
  sockets w !! ws = Some k -> identifiedAs buzzerID k ->
  registryInv w ->
  registryInv
    (set_buzzerClients
       (registrySet buzzerID {| bd_ws := ws; bd_info := info |} (buzzerClients w)) w).
Proof.
  intros Hnone Hk Hid [Hkeys Hall]. rewrite registrySet_fresh by done. split; cbn.
  - rewrite fmap_app. apply NoDup_app. split; [exact Hkeys|]. split; [|apply NoDup_singleton].
    intros id Hin Hnew. apply list_elem_of_singleton in Hnew as ->.
    apply list_elem_of_fmap in Hin as (e & He1 & He).
    apply registryGet_None with (e := e) in Hnone; done.
  - intros e He. apply elem_of_app in He as [He|He]; [by apply Hall|].
    apply list_elem_of_singleton in He as ->. by exists k.
Qed.

Lemma inv_registryDelete (w : Server) (buzzerID : string) :
  registryInv w ->
  registryInv (set_buzzerClients (registryDelete buzzerID (buzzerClients w)) w).
Proof.
  intros [Hkeys Hall]. unfold registryDelete. split; cbn.
  - clear Hall. induction (buzzerClients w) as [|e reg IH]; [done|].
    cbn in Hkeys. apply NoDup_cons in Hkeys as [Hfresh Hkeys]. cbn.
    destruct (negb (bool_decide (e.1 = buzzerID))); [|by apply IH].
    cbn. apply NoDup_cons. split; [|by apply IH].
    intros Hin. apply Hfresh. apply list_elem_of_fmap in Hin as (x & Hx1 & Hx).
    apply list_elem_of_fmap. exists x. split; [done|].
    apply list_elem_of_In, List.filter_In in Hx as [Hx _]. by apply list_elem_of_In.
  - intros e He. apply Hall.
    apply list_elem_of_In, List.filter_In in He as [He _]. by apply list_elem_of_In.
Qed.

(** The identification of a transport that had not identified itself. *)
Lemma inv_identify (w : Server) (ws : nat) (k : Socket) (f : Socket -> Socket) :
  sockets w !! ws = Some k -> _identified k = false ->
  registryInv w -> registryInv (set_sockets (alter f ws (sockets w)) w).
Proof.
  intros Hk Hun [Hkeys Hall]. split; [exact Hkeys|].
  intros e He. destruct (Hall e He) as (k' & Hk' & Hid). cbn.
  exists k'. rewrite lookup_alter_ne; [done|].
  intros Heq. rewrite <- Heq in Hk'. destruct Hid as [Hid _]. congruence.
Qed.

(** A new transport. *)
Lemma inv_connection (w : Server) (ws : nat) (k : Socket) :
  sockets w !! ws = None ->
  registryInv w -> registryInv (set_sockets (<[ws := k]> (sockets w)) w).
Proof.
  intros Hnone [Hkeys Hall]. split; [exact Hkeys|].
  intros e He. destruct (Hall e He) as (k' & Hk' & Hid). cbn.
  exists k'. rewrite lookup_insert_ne; [done|].
  intros Heq. rewrite <- Heq in Hk'. congruence.
Qed.

Lemma inv_handlePlayerRename (buzzerID newName : string) :
  keeps registryInv (handlePlayerRename buzzerID newName).
Proof.
  intros w Hw. unfold handlePlayerRename. rewrite run_gets_then.
  destruct (registryGet buzzerID (buzzerClients w)) as [bd|] eqn:Hget; [|exact Hw].
  rewrite run_modify_then. apply inv_sendToBuzzer.
  by apply inv_registrySet_update.
Qed.

Lemma inv_handleStatusUpdate (buzzerID : string) (bat rssi heap : Json) :
  keeps registryInv (handleStatusUpdate buzzerID bat rssi heap).
Proof.
  intros w Hw. unfold handleStatusUpdate. rewrite run_gets_then.
  destruct (registryGet buzzerID (buzzerClients w)) as [bd|] eqn:Hget.
  - rewrite run_modify_then. apply inv_sendToAngular.
    by apply inv_registrySet_update.
  - by apply inv_sendToAngular.
Qed.

Lemma inv_handleDisconnection (ws : nat) : keeps registryInv (handleDisconnection ws).
Proof.
  unfold handleDisconnection.
  repeat keeps_step; auto using inv_sendToAngular;
    apply keeps_modify; intros w Hw; [exact Hw|by apply inv_registryDelete].
Qed.

Lemma inv_handleBuzzerRegistration (ws : nat) (k : Socket) (buzzerID : string)
    (macAddress : option string) (w : Server) :
  sockets w !! ws = Some k -> identifiedAs buzzerID k ->
  registryInv w ->
  registryInv (snd (handleBuzzerRegistration ws buzzerID macAddress w)).
Proof.
  intros Hk Hid Hw. unfold handleBuzzerRegistration. rewrite run_gets_then.
  unfold registryHas.
  destruct (registryGet buzzerID (buzzerClients w)) as [bd|] eqn:Hget.
  - rewrite bool_decide_eq_true_2 by (by exists bd).
    refine ((_ : keeps registryInv _) w Hw).
    repeat keeps_step; auto using inv_sendToClient, inv_wsClose.
  - rewrite bool_decide_eq_false_2 by (by intros [? ?]).
    rewrite run_now_then, run_gets_then, run_modify_then.
    refine ((_ : keeps registryInv _) _ _).
    + repeat keeps_step; auto using inv_sendToClient, inv_sendToAngular.
      intros w' Hw'. exact Hw'.
    + apply (inv_registrySet_fresh (ticked w) ws k); done.
Qed.

Lemma inv_handleJinglePlay (buzzerID : string) (jingleId : Z) :
  keeps registryInv (handleJinglePlay buzzerID jingleId).
Proof.
  unfold handleJinglePlay, jingleError.
  repeat keeps_step; auto using inv_sendToAngular, inv_sendToBuzzer;
    by apply keeps_modify.
Qed.

Lemma inv_streamStep (sid : nat) : keeps registryInv (streamStep sid).
Proof.
  unfold streamStep, onStreamEnd, onStreamData, updateStream, writeUInt32LE, wsSend.
  repeat keeps_step; auto using inv_sendToAngular, inv_sendToBuzzer;
    try (by apply keeps_modify); by apply inv_updateSocket.
Qed.

Lemma inv_handleBuzzerMessage (buzzerID : string) (ws : nat) (message : Message) :
  keeps registryInv (handleBuzzerMessage buzzerID ws message).
Proof.
  unfold handleBuzzerMessage. destruct message; try apply keeps_ret.
  - repeat keeps_step; auto using inv_sendToClient, inv_now.
  - repeat keeps_step; auto using inv_sendToClient, inv_now.
  - apply inv_handleStatusUpdate.
  - apply keeps_handleMCQAnswer; auto using inv_sendToClient.
  - apply keeps_handleBuzzerBuzz; auto using inv_sendToClient.
Qed.

Lemma inv_handleAngularMessage (ws : nat) (message : Message) :
  keeps registryInv (handleAngularMessage ws message).
Proof.
  unfold handleAngularMessage. destruct message; try apply keeps_ret.
  - apply keeps_sendBuzzerListToAngular; auto using inv_sendToClient.
  - apply inv_handlePlayerRename.
  - apply inv_broadcastToBuzzers.
  - unfold handleBuzzerForceDisconnect. repeat keeps_step; auto using inv_wsClose.
  - apply keeps_handleBuzzCorrect; auto using inv_sendToClient.
  - apply inv_handleJinglePlay.
Qed.

Lemma inv_routeMessage (ws : nat) (message : Message) :
  keeps registryInv (routeMessage ws message).
Proof.
  intros w Hw. unfold routeMessage. rewrite run_gets_then.
  destruct (sockets w !! ws) as [k|] eqn:Hk; [|exact Hw].
  destruct (_identified k) eqn:Hidentified; cbn [negb].
  - destruct (_clientType k) as [[]|]; [| |exact Hw].
    + by apply inv_handleAngularMessage.
    + by apply inv_handleBuzzerMessage.
  - destruct message;
      try (apply keeps_handlePreIdentificationMessage;
           auto using inv_sendToClient; done).
    + unfold updateSocket. rewrite run_modify_then.
      apply keeps_handleAngularConnection; auto using inv_sendToClient.
      by apply (inv_identify w ws k).
    + unfold updateSocket. rewrite run_modify_then.
      eapply inv_handleBuzzerRegistration.
      * cbn. by rewrite lookup_alter_eq, Hk.
      * done.
      * by apply (inv_identify w ws k).
Qed.

Lemma inv_deliver (e : Event) (w : Server) :
  (forall ws ip, e = Connection ws ip -> sockets w !! ws = None) ->
  registryInv w -> registryInv (snd (deliver e w)).
Proof.
  intros Hfresh Hw. destruct e; cbn [deliver].
  - apply inv_connection; [by eapply Hfresh|exact Hw].
  - refine ((_ : keeps registryInv _) w Hw).
    apply keeps_try_catch; [apply inv_routeMessage|intros; apply keeps_ret].
  - refine ((_ : keeps registryInv _) w Hw).
    apply keeps_bind; [by apply inv_updateSocket|intros _; apply inv_handleDisconnection].
  - by apply inv_updateSocket.
  - refine ((_ : keeps registryInv _) w Hw). repeat keeps_step; auto using inv_wsClose.
  - refine ((_ : keeps registryInv _) w Hw).
    repeat keeps_step; by apply inv_updateSocket.
  - refine ((_ : keeps registryInv _) w Hw).
    repeat keeps_step; auto using inv_liftService.
    apply keeps_onBuzzWinnerCallback; auto using inv_sendToClient.
  - by apply inv_streamStep.
  - destruct hasService; exact Hw.
Qed.
End RegistryInv.



(** ** The console connects *)

(** X28. A transport that has not identified itself and sends
    [ANGULAR_CONNECT] becomes the console: [angularClient] now refers to it,
    whoever was the console before, and the former console is neither told
    nor closed. The new console is sent [CONNECTED] (a session identifier made
    of the clock in base 36, the server time, the configuration) and then
    [BUZZER_LIST_UPDATE] with one entry for each buzzer of the registry, in
    the order of registration, each marked as connected, and their number as
    [total]; with an empty registry the list is empty and the total 0. The
    registry and the games are not touched. *)
Theorem console_connection_takes_over (w : Server) (ws : nat) (k : Socket)
    (Hsock : sockets w !! ws = Some k)
    (Hunidentified : _identified k = false)
    (Hopen : readyState k = OPEN) :
  let t := fun n => clock (service w) (ticks (service w) + n)%nat in
  exists w' k',
    deliver (Received ws ANGULAR_CONNECT) w = (Ok tt, w')
    /\ angularClient w' = Some ws
    /\ sockets w' !! ws = Some k'
    /\ _identified k' = true /\ _clientType k' = Some angular /\ readyState k' = OPEN
    /\ sent k'
       = sent k
         ++ [Text "CONNECTED" (t 2%nat)
               (JObj [("sessionID", JStr ("session_" +:+ toString36 (t 0%nat)));
                      ("serverTime", JNum (t 1%nat));
                      ("config", JObj [("maxBuzzers", JNum 10);
                                       ("version", JStr "1.0.0")])]);
             Text "BUZZER_LIST_UPDATE" (t 3%nat)
               (JObj [("buzzers", JArr (buzzerListEntry <$> buzzerClients w));
                      ("total", JNum (Z.of_nat (length (buzzerClients w))))])]
    /\ (forall other, other <> ws -> sockets w' !! other = sockets w !! other)
    /\ buzzerClients w' = buzzerClients w
    /\ activeGames (service w') = activeGames (service w).
Proof.
  intros t.
  rewrite (deliver_received w ws k _ Hsock), Hunidentified. cbn [negb].
  unfold try_catch, updateSocket. rewrite run_modify_then.
  set (k0 := set_clientType (Some angular) (set_identified true k)).
  set (w0 := set_sockets _ w).
  unfold handleAngularConnection. rewrite run_modify_then.
  set (w1 := set_angularClient (Some ws) w0).
  rewrite !run_now_then.
  assert (isOpen (ticked (ticked w1)) ws = true) as Hopen1.
  { apply isOpen_true. exists k0. split; [|exact Hopen].
    cbn. by rewrite lookup_alter_eq, Hsock. }
  set (connected := JObj _).
  rewrite (bind_ok _ _ _ _ _ (sendToClient_open _ _ _ _ Hopen1)).
  set (w2 := pushed ws _ (ticked (ticked (ticked w1)))).
  set (list := JObj [("buzzers", JArr (buzzerListEntry <$> buzzerClients w));
                     ("total", JNum (Z.of_nat (length (buzzerClients w))))]).
  assert (sendBuzzerListToAngular w2 = sendToAngular "BUZZER_LIST_UPDATE" list w2) as ->.
  { unfold sendBuzzerListToAngular. rewrite run_gets_then.
    change (buzzerClients w2) with (buzzerClients w). unfold list.
    destruct (buzzerClients w) as [|e reg]; [reflexivity|].
    cbn [length Nat.eqb]. by rewrite length_fmap. }
  assert (isOpen w2 ws = true) as Hopen2
    by (unfold w2; by rewrite isOpen_pushed).
  rewrite (sendToAngular_open w2 ws _ _ eq_refl Hopen2).
  eexists _, _. split; [reflexivity|]. split; [reflexivity|].
  split. { cbn. by rewrite !lookup_alter_eq, Hsock. }
  do 3 (split; [done|]).
  split.
  { cbn. rewrite <- app_assoc. cbn. unfold t, timeOf. cbn.
    rewrite Nat.add_0_r, !Nat.add_succ_r, Nat.add_0_r. reflexivity. }
  split; [|done].
  intros other Hne. cbn. by rewrite !lookup_alter_ne.
Qed.

Lemma console_connection_takes_over_witness :
  exists w',
    deliver (Received 2 ANGULAR_CONNECT) serverOneBuzzer = (Ok tt, w')
    /\ angularClient w' = Some 2%nat
    /\ sockets w' !! 0%nat = sockets serverOneBuzzer !! 0%nat.
Proof.
  destruct (console_connection_takes_over serverOneBuzzer 2 (newSocket "10.0.0.3"))
    as (w' & k' & Hrun & Hconsole & _ & _ & _ & _ & _ & Hothers & _).
  - vm_compute; reflexivity.
  - reflexivity.
  - reflexivity.
  - exists w'. split; [exact Hrun|]. split; [exact Hconsole|]. by apply Hothers.
Defined.

(** ** The console validates a buzz *)

Lemma sendToBuzzer_frame (w : Server) (buzzerID type : string) (payload : Json) :
  exists w',
    sendToBuzzer buzzerID type payload w = (Ok tt, w')
    /\ buzzerClients w' = buzzerClients w
    /\ gameService w' = gameService w
    /\ (forall ws, isOpen w' ws = isOpen w ws)
    /\ activeGames (service w') = activeGames (service w).
Proof.
  destruct (sendToBuzzer_cases w buzzerID type payload) as [H|[ws H]];
    rewrite H; eexists; (split; [reflexivity|]); do 2 (split; [reflexivity|]);
    (split; [|reflexivity]); intros ws'; by rewrite ?isOpen_pushed, ?isOpen_ticked.
Qed.

Lemma sendToAngular_frame (w : Server) (type : string) (payload : Json) :
  exists w',
    sendToAngular type payload w = (Ok tt, w')
    /\ buzzerClients w' = buzzerClients w
    /\ gameService w' = gameService w
    /\ (forall ws, isOpen w' ws = isOpen w ws)
    /\ activeGames (service w') = activeGames (service w).
Proof.
  destruct (sendToAngular_cases w type payload) as [H|(c & _ & _ & H)];
    rewrite H; eexists; (split; [reflexivity|]); do 2 (split; [reflexivity|]);
    (split; [|reflexivity]); intros ws'; by rewrite ?isOpen_pushed, ?isOpen_ticked.
Qed.

Lemma recipients_ext (w w' : Server) :
  buzzerClients w' = buzzerClients w -> (forall ws, isOpen w' ws = isOpen w ws) ->
  recipients w' = recipients w.
Proof.
  intros Hreg Hopen. unfold recipients. rewrite Hreg. f_equal.
  apply List.filter_ext. intros e. apply Hopen.
Qed.

(** A transport a broadcast reaches has the frame of the broadcast as the
    last one it was sent. *)
Lemma broadcastFrames_last (clock : nat -> Z) (type : string) (payload : Json)
    (tick : nat) (targets : list nat) (ws : nat) (before : list Frame) :
  ws ∈ targets ->
  exists stamp,
    last (before ++ broadcastFrames clock type payload tick targets ws)
    = Some (Text type stamp payload).
Proof.
  revert tick before. induction targets as [|target rest IH]; intros tick before Hin.
  - by apply elem_of_nil in Hin.
  - cbn [broadcastFrames]. destruct (decide (ws ∈ rest)) as [Hrest|Hrest].
    + rewrite app_assoc. by apply IH.
    + apply elem_of_cons in Hin as [->|Hin]; [|done].
      rewrite bool_decide_eq_true_2 by done.
      rewrite broadcastFrames_absent by done. rewrite app_nil_r.
      exists (clock tick). apply last_snoc.
Qed.

Lemma handleBuzzerBuzz_ignored (w : Server) (buzzerID gameId : string) (questionId : Z)
    (timestamps : option Timestamps) (why : string) :
  gameService w = true ->
  recordBuzz gameId questionId buzzerID timestamps (service w)
  = (Ok (buzzIgnored why), service w) ->
  handleBuzzerBuzz buzzerID gameId questionId timestamps w
  = sendToBuzzer buzzerID "BUZZ_IGNORED" (JObj [("reason", JStr why)]) w.
Proof.
  intros Hservice Hrun. unfold handleBuzzerBuzz. rewrite run_gets_then, Hservice.
  cbn [negb]. unfold try_catch, bind at 1, liftService. rewrite Hrun.
  unfold buzzIgnored. cbn [ignored reason default from_option Datatypes.id].
  rewrite set_service_same.
  destruct (sendToBuzzer_frame w buzzerID "BUZZ_IGNORED" (JObj [("reason", JStr why)]))
    as (w' & -> & _). reflexivity.
Qed.


